(** * TwitchNoSub DVR: segment tracker and live/VOD seek controller

    A shallow embedding of [src/dvr/dvr-tracker.js] (class [DVRTracker]) and
    of the seek logic of [src/dvr/dvr-controller.js] (class [DVRController]).

    Conventions of the embedding.
    - A JavaScript number is an exact rational ([Q]).  Rounding of IEEE
      doubles and the values [Infinity] and [-0] are not represented; where
      the source can produce [NaN] the number is an [option Q] whose [None]
      is [NaN].
    - A JavaScript string is a [string] of 8-bit code units.
    - A field that can hold [null] or [undefined] is an [option].
    - [Date.now()] is the next sample of a clock oracle; handlers of the
      controller receive what they read from the page in a [World].
    - [console.log/warn/error] calls are dropped; every other effect on a
      collaborator (listeners, DOM, embedded player) is kept, either in the
      modelled object or in a log of the calls made. *)

From Stdlib Require Import List String Ascii Bool ZArith QArith Qminmax Qround Lia Lqa.
From Stdlib Require Import Sorted DecimalString.
Import ListNotations.

Open Scope string_scope.
Open Scope Q_scope.

(** ** JavaScript primitives used by the two classes *)

Module JS.

(** [a < b] and [a <= b] on numbers. *)
Definition ltb (a b : Q) : bool := negb (Qle_bool b a).
Definition leb (a b : Q) : bool := Qle_bool a b.

(** Truthiness: a number is falsy when it is [0] (or [NaN]), a string when
    it is empty, [null] and [undefined] always. *)
Definition truthyNum (q : Q) : bool := negb (Qeq_bool q 0).

Definition truthyOptNum (o : option Q) : bool :=
  match o with Some q => truthyNum q | None => false end.

Definition truthyStr (s : string) : bool := negb (s =? "").

Definition truthyOptStr (o : option string) : bool :=
  match o with Some s => truthyStr s | None => false end.

(** [null] used as a number is [0]. *)
Definition toNumber (o : option Q) : Q :=
  match o with Some q => q | None => 0 end.

(** [a || b] on numbers. *)
Definition orNum (a : option Q) (b : Q) : Q :=
  match a with
  | Some q => if truthyNum q then q else b
  | None => b
  end.

Definition startsWith (p s : string) : bool := prefix p s.

Definition endsWith (suf s : string) : bool :=
  (length suf <=? length s)%nat
  && (substring (length s - length suf) (length suf) s =? suf).

Fixpoint includes (sub s : string) : bool :=
  prefix sub s
  || match s with
     | EmptyString => false
     | String _ rest => includes sub rest
     end.

Definition newline : ascii := "010"%char.

(** [s.split('\n')] *)
Fixpoint split_lines (s : string) : list string :=
  match s with
  | EmptyString => [EmptyString]
  | String c rest =>
      if (c =? newline)%char then EmptyString :: split_lines rest
      else match split_lines rest with
           | l :: ls => String c l :: ls
           | [] => [String c EmptyString]
           end
  end.

(** White space among the 8-bit code units: TAB, LF, VT, FF, CR, SP, NBSP. *)
Definition isWhiteSpace (c : ascii) : bool :=
  let n := nat_of_ascii c in
  ((9 <=? n) && (n <=? 13) || (n =? 32) || (n =? 160))%nat.

Fixpoint trimStart (s : string) : string :=
  match s with
  | EmptyString => EmptyString
  | String c rest => if isWhiteSpace c then trimStart rest else s
  end.

Fixpoint trimEnd (s : string) : string :=
  match s with
  | EmptyString => EmptyString
  | String c rest =>
      let rest' := trimEnd rest in
      if isWhiteSpace c && (rest' =? "") then EmptyString
      else String c rest'
  end.

Definition trim (s : string) : string := trimEnd (trimStart s).

Definition isDigit (c : ascii) : bool :=
  let n := nat_of_ascii c in ((48 <=? n) && (n <=? 57))%nat.

(** The character class [[\d.]]. *)
Definition isDigitOrDot (c : ascii) : bool := isDigit c || (c =? ".")%char.

Fixpoint takeWhile (p : ascii -> bool) (s : string) : string :=
  match s with
  | EmptyString => EmptyString
  | String c rest => if p c then String c (takeWhile p rest) else EmptyString
  end.

Fixpoint dropWhile (p : ascii -> bool) (s : string) : string :=
  match s with
  | EmptyString => EmptyString
  | String c rest => if p c then dropWhile p rest else s
  end.

Fixpoint stripPrefix (p s : string) : option string :=
  match p, s with
  | EmptyString, _ => Some s
  | String a p', String b s' =>
      if (a =? b)%char then stripPrefix p' s' else None
  | String _ _, EmptyString => None
  end.

(** [s.match(/LIT(C+)/)] for a literal [lit] and a character class [cls]:
    the capture group of the leftmost match, the run being greedy. *)
Fixpoint matchLiteralRun (lit : string) (cls : ascii -> bool) (s : string)
  : option string :=
  let here :=
    match stripPrefix lit s with
    | Some rest =>
        let run := takeWhile cls rest in
        if run =? "" then None else Some run
    | None => None
    end in
  match here with
  | Some run => Some run
  | None =>
      match s with
      | EmptyString => None
      | String _ rest => matchLiteralRun lit cls rest
      end
  end.

Definition digitValue (c : ascii) : Z := Z.of_nat (nat_of_ascii c) - 48.

Fixpoint digitsValue (acc : Z) (s : string) : Z :=
  match s with
  | EmptyString => acc
  | String c rest => digitsValue (10 * acc + digitValue c) rest
  end.

(** [parseInt(s)] on a non-empty run of decimal digits. *)
Definition parseInt (s : string) : Z := digitsValue 0 s.

(** [parseFloat(s)] on a run of digits and dots: the longest prefix that is
    a decimal literal ([12], [12.], [12.5], [.5]); [None] is [NaN] (no
    digit before the second dot, as in ["."] or ["..5"]). *)
Definition parseFloat (s : string) : option Q :=
  let intPart := takeWhile isDigit s in
  let rest := dropWhile isDigit s in
  let fracPart :=
    match rest with
    | String c rest' => if (c =? ".")%char then takeWhile isDigit rest' else ""
    | EmptyString => ""
    end in
  if (intPart =? "") && (fracPart =? "") then None
  else Some (inject_Z (digitsValue 0 intPart)
             + inject_Z (digitsValue 0 fracPart)
               / inject_Z (10 ^ Z.of_nat (length fracPart))).

End JS.

(** ** The segment tracker ([dvr-tracker.js]) *)

Module Tracker.

(** One entry of [this.segments]. *)
Record Segment := mkSegment {
  url : string;
  timestamp : Q;
  duration : Q;
  sequence : Z;
  quality : string
}.

(** The argument of [addSegment]; an absent property is [None]. *)
Record SegmentInfo := mkSegmentInfo {
  si_url : string;
  si_duration : option Q;
  si_sequence : option Z;
  si_quality : option string
}.

(** Payload of the [timelineUpdated] event. *)
Record TimelineInfo := mkTimelineInfo {
  ti_isLive : bool;
  ti_streamStartTime : option Q;
  ti_earliestAvailable : option Q;
  ti_latestAvailable : option Q;
  ti_bufferDuration : Q;
  ti_segmentCount : nat;
  ti_canSeekBack : bool
}.

(** What [emit] hands to the listeners of an event kind. *)
Inductive Event :=
| SegmentAdded (seg : Segment)
| TimelineUpdated (info : TimelineInfo)
| StreamStarted (channel : string) (startTime : Q)
| StreamEnded (channel : option string).

(** The fields of a [DVRTracker].  [emitted] is the sequence of events
    passed to [emit], oldest first; [ticks] counts the calls of
    [Date.now()] made so far. *)
Record DVRTracker := mkTracker {
  maxBufferDuration : Q;
  segmentDuration : Q;
  isLive : bool;
  channelName : option string;
  streamStartTime : option Q;
  segments : list Segment;
  currentSegmentIndex : Z;
  isEnabled : bool;
  earliestAvailableTime : option Q;
  latestAvailableTime : option Q;
  emitted : list Event;
  ticks : nat
}.

(** [new DVRTracker()] *)
Definition constructor : DVRTracker :=
  {| maxBufferDuration := 4 * 60 * 60 * 1000;
     segmentDuration := 2000;
     isLive := false;
     channelName := None;
     streamStartTime := None;
     segments := [];
     currentSegmentIndex := (-1)%Z;
     isEnabled := true;
     earliestAvailableTime := None;
     latestAvailableTime := None;
     emitted := [];
     ticks := 0 |}.

Definition set_isLive (b : bool) (t : DVRTracker) : DVRTracker :=
  mkTracker (maxBufferDuration t) (segmentDuration t) b (channelName t)
    (streamStartTime t) (segments t) (currentSegmentIndex t) (isEnabled t)
    (earliestAvailableTime t) (latestAvailableTime t) (emitted t) (ticks t).

Definition set_channelName (c : option string) (t : DVRTracker) : DVRTracker :=
  mkTracker (maxBufferDuration t) (segmentDuration t) (isLive t) c
    (streamStartTime t) (segments t) (currentSegmentIndex t) (isEnabled t)
    (earliestAvailableTime t) (latestAvailableTime t) (emitted t) (ticks t).

Definition set_streamStartTime (x : option Q) (t : DVRTracker) : DVRTracker :=
  mkTracker (maxBufferDuration t) (segmentDuration t) (isLive t) (channelName t)
    x (segments t) (currentSegmentIndex t) (isEnabled t)
    (earliestAvailableTime t) (latestAvailableTime t) (emitted t) (ticks t).

Definition set_segments (l : list Segment) (t : DVRTracker) : DVRTracker :=
  mkTracker (maxBufferDuration t) (segmentDuration t) (isLive t) (channelName t)
    (streamStartTime t) l (currentSegmentIndex t) (isEnabled t)
    (earliestAvailableTime t) (latestAvailableTime t) (emitted t) (ticks t).

Definition set_currentSegmentIndex (i : Z) (t : DVRTracker) : DVRTracker :=
  mkTracker (maxBufferDuration t) (segmentDuration t) (isLive t) (channelName t)
    (streamStartTime t) (segments t) i (isEnabled t)
    (earliestAvailableTime t) (latestAvailableTime t) (emitted t) (ticks t).

Definition set_earliestAvailableTime (x : option Q) (t : DVRTracker) : DVRTracker :=
  mkTracker (maxBufferDuration t) (segmentDuration t) (isLive t) (channelName t)
    (streamStartTime t) (segments t) (currentSegmentIndex t) (isEnabled t)
    x (latestAvailableTime t) (emitted t) (ticks t).

Definition set_latestAvailableTime (x : option Q) (t : DVRTracker) : DVRTracker :=
  mkTracker (maxBufferDuration t) (segmentDuration t) (isLive t) (channelName t)
    (streamStartTime t) (segments t) (currentSegmentIndex t) (isEnabled t)
    (earliestAvailableTime t) x (emitted t) (ticks t).

(** [this.emit(event, data)]: every listener registered for the event kind
    is called with [data]; what a listener throws is caught.  The listeners
    that the controller registers ([handleStreamStarted], [handleStreamEnded])
    do not write to the tracker, so a delivery is recorded and the fields
    stay. *)
Definition emit (e : Event) (t : DVRTracker) : DVRTracker :=
  mkTracker (maxBufferDuration t) (segmentDuration t) (isLive t) (channelName t)
    (streamStartTime t) (segments t) (currentSegmentIndex t) (isEnabled t)
    (earliestAvailableTime t) (latestAvailableTime t) (emitted t ++ [e]) (ticks t).

Definition tick (t : DVRTracker) : DVRTracker :=
  mkTracker (maxBufferDuration t) (segmentDuration t) (isLive t) (channelName t)
    (streamStartTime t) (segments t) (currentSegmentIndex t) (isEnabled t)
    (earliestAvailableTime t) (latestAvailableTime t) (emitted t) (S (ticks t)).

(** What stops [processPlaylist]: it runs to its end, or the [URL]
    constructor throws and the tracker stays as it was at that point. *)
Inductive Outcome :=
| Completed (t : DVRTracker)
| Threw (t : DVRTracker).

Definition tracker_of (o : Outcome) : DVRTracker :=
  match o with Completed t => t | Threw t => t end.

Section WithEnvironment.

(** [clock n] is what the [n]-th call of [Date.now()] returns (counted from
    zero). *)
Variable clock : nat -> Q.

(** [resolveURL line base] is [new URL(line, base).href]; [None] when the
    constructor throws. *)
Variable resolveURL : string -> string -> option string.

Definition Date_now (t : DVRTracker) : Q * DVRTracker := (clock (ticks t), tick t).

(** [reset()] *)
Definition reset (t : DVRTracker) : DVRTracker :=
  set_isLive false
    (set_channelName None
      (set_latestAvailableTime None
        (set_earliestAvailableTime None
          (set_streamStartTime None
            (set_currentSegmentIndex (-1)%Z
              (set_segments [] t)))))).

(** [startTracking(channelName)] *)
Definition startTracking (channel : string) (t : DVRTracker) : DVRTracker :=
  let t := reset t in
  let t := set_isLive true t in
  let t := set_channelName (Some channel) t in
  let '(now, t) := Date_now t in
  let t := set_streamStartTime (Some now) t in
  let t := set_earliestAvailableTime (streamStartTime t) t in
  let t := set_latestAvailableTime (streamStartTime t) t in
  emit (StreamStarted channel now) t.

(** [stopTracking()] *)
Definition stopTracking (t : DVRTracker) : DVRTracker :=
  let t := if isLive t then emit (StreamEnded (channelName t)) t else t in
  set_isLive false t.

(** [getBufferDuration()] *)
Definition getBufferDuration (t : DVRTracker) : Q :=
  if negb (JS.truthyOptNum (earliestAvailableTime t))
     || negb (JS.truthyOptNum (latestAvailableTime t))
  then 0
  else JS.toNumber (latestAvailableTime t) - JS.toNumber (earliestAvailableTime t).

(** [canSeekBack()] *)
Definition canSeekBack (t : DVRTracker) : bool :=
  (1 <? List.length (segments t))%nat && JS.ltb 5000 (getBufferDuration t).

(** [cleanupOldSegments()] *)
Definition cleanupOldSegments (t : DVRTracker) : DVRTracker :=
  let '(now, t) := Date_now t in
  let cutoffTime := now - maxBufferDuration t in
  let t := set_segments
             (filter (fun seg => JS.ltb cutoffTime (timestamp seg)) (segments t)) t in
  match segments t with
  | first :: _ => set_earliestAvailableTime (Some (timestamp first)) t
  | [] => t
  end.

(** [emitTimelineUpdate()] *)
Definition emitTimelineUpdate (t : DVRTracker) : DVRTracker :=
  emit (TimelineUpdated
          {| ti_isLive := isLive t;
             ti_streamStartTime := streamStartTime t;
             ti_earliestAvailable := earliestAvailableTime t;
             ti_latestAvailable := latestAvailableTime t;
             ti_bufferDuration := getBufferDuration t;
             ti_segmentCount := List.length (segments t);
             ti_canSeekBack := canSeekBack t |}) t.

(** [addSegment(segmentInfo)] *)
Definition addSegment (segmentInfo : SegmentInfo) (t : DVRTracker) : DVRTracker :=
  if negb (isLive t) || negb (isEnabled t) then t
  else
    let '(now, t) := Date_now t in
    let segment :=
      {| url := si_url segmentInfo;
         timestamp := now;
         duration := JS.orNum (si_duration segmentInfo) (segmentDuration t);
         sequence := match si_sequence segmentInfo with
                     | Some n => if (n =? 0)%Z
                                 then Z.of_nat (List.length (segments t)) else n
                     | None => Z.of_nat (List.length (segments t))
                     end;
         quality := match si_quality segmentInfo with
                    | Some q => if JS.truthyStr q then q else "source"
                    | None => "source"
                    end |} in
    let t := set_segments (segments t ++ [segment]) t in
    let t := set_latestAvailableTime (Some (timestamp segment + duration segment)) t in
    let t := cleanupOldSegments t in
    let t := emit (SegmentAdded segment) t in
    emitTimelineUpdate t.

(** The variables of the loop of [processPlaylist]; [None] in
    [currentDuration] is [NaN]. *)
Record LoopVars := mkLoopVars {
  currentDuration : option Q;
  nextSequence : Z
}.

(** [this.segments.find(s => s.url === segmentUrl)] *)
Definition findByUrl (segmentUrl : string) (t : DVRTracker) : option Segment :=
  find (fun s => url s =? segmentUrl) (segments t).

(** One iteration of the loop of [processPlaylist] on [lines[i]]; [None]
    when the [URL] constructor throws. *)
Definition processLine (baseUrl : string) (rawLine : string)
    (v : LoopVars) (t : DVRTracker) : option (LoopVars * DVRTracker) :=
  let line := JS.trim rawLine in
  if JS.startsWith "#EXTINF:" line then
    match JS.matchLiteralRun "#EXTINF:" JS.isDigitOrDot line with
    | Some durationMatch =>
        let parsed := match JS.parseFloat durationMatch with
                      | Some q => Some (q * 1000)
                      | None => None
                      end in
        Some (mkLoopVars parsed (nextSequence v), t)
    | None => Some (v, t)
    end
  else if JS.truthyStr line && negb (JS.startsWith "#" line)
          && (JS.endsWith ".ts" line || JS.includes ".ts?" line) then
    match (if JS.startsWith "http" line then Some line
           else resolveURL line baseUrl) with
    | None => None
    | Some segmentUrl =>
        let t :=
          match findByUrl segmentUrl t with
          | Some _ => t
          | None =>
              addSegment
                {| si_url := segmentUrl;
                   si_duration :=
                     Some (JS.orNum (currentDuration v) (segmentDuration t));
                   si_sequence := Some (nextSequence v);
                   si_quality := None |} t
          end in
        Some (mkLoopVars (currentDuration v) (nextSequence v + 1)%Z, t)
    end
  else Some (v, t).

Fixpoint processLines (baseUrl : string) (lines : list string)
    (v : LoopVars) (t : DVRTracker) : Outcome :=
  match lines with
  | [] => Completed t
  | line :: rest =>
      match processLine baseUrl line v t with
      | Some (v', t') => processLines baseUrl rest v' t'
      | None => Threw t
      end
  end.

(** [processPlaylist(playlistContent, baseUrl)] *)
Definition processPlaylist (playlistContent baseUrl : string) (t : DVRTracker)
  : Outcome :=
  if negb (isLive t) || negb (isEnabled t) then Completed t
  else
    let lines := JS.split_lines playlistContent in
    let sequence :=
      match JS.matchLiteralRun "#EXT-X-MEDIA-SEQUENCE:" JS.isDigit playlistContent with
      | Some digits => JS.parseInt digits
      | None => 0%Z
      end in
    processLines baseUrl lines (mkLoopVars (Some 0) sequence) t.

(** [getPositionPercentage(currentTimestamp)] *)
Definition getPositionPercentage (currentTimestamp : Q) (t : DVRTracker) : Q :=
  let duration := getBufferDuration t in
  if Qeq_bool duration 0 then 100
  else
    let position := currentTimestamp - JS.toNumber (earliestAvailableTime t) in
    Qmin 100 (Qmax 0 ((position / duration) * 100)).


End WithEnvironment.

End Tracker.

(** ** The seek controller ([dvr-controller.js]) *)

Module Controller.

(** The page's [<video>] element, as far as the controller reads and writes
    it: the ranges of [video.buffered] (start, end), [currentTime], [muted]. *)
Record Video := mkVideo {
  buffered : list (Q * Q);
  currentTime : Q;
  muted : bool
}.

(** An object built by [new window.Twitch.Embed(...)].  [handleId] tells
    two such objects apart; [hasSeek] and [hasSetVideo] say whether the
    object has a [seek] and a [setVideo] property. *)
Record EmbedHandle := mkEmbedHandle {
  handleId : nat;
  embedVideo : string;
  hasSeek : bool;
  hasSetVideo : bool
}.

(** Children of the [#tns-vod-embed] container. *)
Inductive EmbedContent :=
| NoEmbed
| EmbedFrame (handle : nat)
| FallbackIframe (vodId : string) (startTime : Q).

(** The [#tns-vod-overlay] element built by [createVodOverlay]: whether its
    [display] style is [block] ([none] otherwise) and what its embed
    container holds. *)
Record Overlay := mkOverlay {
  displayed : bool;
  embedContent : EmbedContent
}.

(** Calls made on collaborators, in the order they are made. *)
Inductive Call :=
| ShowNotification (message : string)
| EmbedConstruct (vodId : string) (startTime : Q)
| EmbedSeek (handle : nat) (startTime : Q)
| IframeCreate (vodId : string) (startTime : Q)
| OverlayCreate
| LiveButtonClick.

(** [window.Twitch?.Embed]: absent, a constructor that throws, or one that
    returns an object with the given properties (and an [addEventListener]
    that does not throw). *)
Inductive EmbedApi :=
| EmbedMissing
| EmbedThrows
| EmbedWorks (seek setVideo : bool).

(** What a handler reads from the page and from the metadata service while
    it runs: [Date.now()], whether the player container and the native live
    button are in the document, [window.Twitch?.Embed], and the [vodId] of
    the answer of [checkStreamInfo] ([None] for [null], also when the query
    fails). *)
Record World := mkWorld {
  now : Q;
  playerContainer : bool;
  twitchEmbed : EmbedApi;
  liveButton : bool;
  fetchedVodId : option string
}.

(** The fields of a [DVRController] that the seek path uses, with what the
    document holds of them.  [overlayConnected] is the [isConnected] of the
    element in [vodOverlay]: [createVodOverlay] appends the element to the
    player container, [stopDVR] removes it, and the page may take it out of
    the document in between, while the field still holds it.  [calls] is the
    log of calls on collaborators; [embedsBuilt] counts the embed objects
    constructed so far. *)
Record DVRController := mkController {
  playerElement : option Video;
  isActive : bool;
  currentChannel : option string;
  streamStartTime : option Q;
  currentVodId : option string;
  vodOverlay : option Overlay;
  overlayConnected : bool;
  vodPlayer : option EmbedHandle;
  lastVodId : option string;
  isWatchingVod : bool;
  vodEmbedLoaded : bool;
  embedsBuilt : nat;
  calls : list Call
}.

(** [new DVRController()] *)
Definition constructor : DVRController :=
  {| playerElement := None;
     isActive := false;
     currentChannel := None;
     streamStartTime := None;
     currentVodId := None;
     vodOverlay := None;
     overlayConnected := false;
     vodPlayer := None;
     lastVodId := None;
     isWatchingVod := false;
     vodEmbedLoaded := false;
     embedsBuilt := 0;
     calls := [] |}.

Definition set_playerElement (x : option Video) (c : DVRController) : DVRController :=
  mkController x (isActive c) (currentChannel c) (streamStartTime c)
    (currentVodId c) (vodOverlay c) (overlayConnected c) (vodPlayer c)
    (lastVodId c) (isWatchingVod c) (vodEmbedLoaded c) (embedsBuilt c)
    (calls c).

Definition set_isActive (x : bool) (c : DVRController) : DVRController :=
  mkController (playerElement c) x (currentChannel c) (streamStartTime c)
    (currentVodId c) (vodOverlay c) (overlayConnected c) (vodPlayer c)
    (lastVodId c) (isWatchingVod c) (vodEmbedLoaded c) (embedsBuilt c)
    (calls c).

Definition set_currentChannel (x : option string) (c : DVRController) : DVRController :=
  mkController (playerElement c) (isActive c) x (streamStartTime c)
    (currentVodId c) (vodOverlay c) (overlayConnected c) (vodPlayer c)
    (lastVodId c) (isWatchingVod c) (vodEmbedLoaded c) (embedsBuilt c)
    (calls c).

Definition set_streamStartTime (x : option Q) (c : DVRController) : DVRController :=
  mkController (playerElement c) (isActive c) (currentChannel c) x
    (currentVodId c) (vodOverlay c) (overlayConnected c) (vodPlayer c)
    (lastVodId c) (isWatchingVod c) (vodEmbedLoaded c) (embedsBuilt c)
    (calls c).

Definition set_currentVodId (x : option string) (c : DVRController) : DVRController :=
  mkController (playerElement c) (isActive c) (currentChannel c)
    (streamStartTime c) x (vodOverlay c) (overlayConnected c) (vodPlayer c)
    (lastVodId c) (isWatchingVod c) (vodEmbedLoaded c) (embedsBuilt c)
    (calls c).

Definition set_vodOverlay (x : option Overlay) (c : DVRController) : DVRController :=
  mkController (playerElement c) (isActive c) (currentChannel c)
    (streamStartTime c) (currentVodId c) x (overlayConnected c) (vodPlayer c)
    (lastVodId c) (isWatchingVod c) (vodEmbedLoaded c) (embedsBuilt c)
    (calls c).

Definition set_overlayConnected (x : bool) (c : DVRController) : DVRController :=
  mkController (playerElement c) (isActive c) (currentChannel c)
    (streamStartTime c) (currentVodId c) (vodOverlay c) x (vodPlayer c)
    (lastVodId c) (isWatchingVod c) (vodEmbedLoaded c) (embedsBuilt c)
    (calls c).

Definition set_vodPlayer (x : option EmbedHandle) (c : DVRController) : DVRController :=
  mkController (playerElement c) (isActive c) (currentChannel c)
    (streamStartTime c) (currentVodId c) (vodOverlay c) (overlayConnected c) x
    (lastVodId c) (isWatchingVod c) (vodEmbedLoaded c) (embedsBuilt c)
    (calls c).

Definition set_lastVodId (x : option string) (c : DVRController) : DVRController :=
  mkController (playerElement c) (isActive c) (currentChannel c)
    (streamStartTime c) (currentVodId c) (vodOverlay c) (overlayConnected c)
    (vodPlayer c) x (isWatchingVod c) (vodEmbedLoaded c) (embedsBuilt c)
    (calls c).

Definition set_isWatchingVod (x : bool) (c : DVRController) : DVRController :=
  mkController (playerElement c) (isActive c) (currentChannel c)
    (streamStartTime c) (currentVodId c) (vodOverlay c) (overlayConnected c)
    (vodPlayer c) (lastVodId c) x (vodEmbedLoaded c) (embedsBuilt c) (calls c).

Definition set_vodEmbedLoaded (x : bool) (c : DVRController) : DVRController :=
  mkController (playerElement c) (isActive c) (currentChannel c)
    (streamStartTime c) (currentVodId c) (vodOverlay c) (overlayConnected c)
    (vodPlayer c) (lastVodId c) (isWatchingVod c) x (embedsBuilt c) (calls c).

Definition set_embedsBuilt (x : nat) (c : DVRController) : DVRController :=
  mkController (playerElement c) (isActive c) (currentChannel c)
    (streamStartTime c) (currentVodId c) (vodOverlay c) (overlayConnected c)
    (vodPlayer c) (lastVodId c) (isWatchingVod c) (vodEmbedLoaded c) x
    (calls c).

Definition call (x : Call) (c : DVRController) : DVRController :=
  mkController (playerElement c) (isActive c) (currentChannel c)
    (streamStartTime c) (currentVodId c) (vodOverlay c) (overlayConnected c)
    (vodPlayer c) (lastVodId c) (isWatchingVod c) (vodEmbedLoaded c)
    (embedsBuilt c) (calls c ++ [x]).

Definition msgVodUnavailable : string :=
  "⚠️ VOD pas encore disponible - Le streamer doit avoir les VODs activés".
Definition msgVodLoading : string := "⏪ Chargement VOD...".
Definition msgVodLoaded : string := "✅ VOD chargée".
Definition msgBackToLive : string := "🔴 Retour au Live".

(** [this.showNotification(message)] *)
Definition showNotification (message : string) (c : DVRController) : DVRController :=
  call (ShowNotification message) c.

(** [this.playerElement.currentTime = t] *)
Definition writeCurrentTime (t : Q) (c : DVRController) : DVRController :=
  match playerElement c with
  | Some v => set_playerElement (Some (mkVideo (buffered v) t (muted v))) c
  | None => c
  end.

(** [this.playerElement.muted = b] *)
Definition writeMuted (b : bool) (c : DVRController) : DVRController :=
  match playerElement c with
  | Some v => set_playerElement (Some (mkVideo (buffered v) (currentTime v) b)) c
  | None => c
  end.

(** [this.vodOverlay.style.display = ...] *)
Definition writeDisplay (b : bool) (c : DVRController) : DVRController :=
  match vodOverlay c with
  | Some o => set_vodOverlay (Some (mkOverlay b (embedContent o))) c
  | None => c
  end.

(** Replaces the children of [#tns-vod-embed]. *)
Definition writeEmbedContent (e : EmbedContent) (c : DVRController) : DVRController :=
  match vodOverlay c with
  | Some o => set_vodOverlay (Some (mkOverlay (displayed o) e)) c
  | None => c
  end.

(** [video.buffered.end(video.buffered.length - 1)] *)
Definition lastBufferedEnd (v : Video) : option Q :=
  match buffered v with
  | [] => None
  | r :: rest => Some (snd (last rest r))
  end.

(** [getElapsedTime()] *)
Definition getElapsedTime (w : World) (c : DVRController) : Q :=
  if negb (JS.truthyOptNum (streamStartTime c)) then 0
  else inject_Z (Qfloor ((now w - JS.toNumber (streamStartTime c)) / 1000)).

(** The object returned by [getBufferInfo()]. *)
Record BufferInfo := mkBufferInfo {
  bi_start : Q;
  bi_end : Q;
  bi_duration : Q;
  bi_currentTime : Q;
  bi_behindLive : Q;
  bi_positionPercent : Q
}.

(** [getBufferInfo()] *)
Definition getBufferInfo (c : DVRController) : BufferInfo :=
  match playerElement c with
  | None => mkBufferInfo 0 0 0 0 0 100
  | Some video =>
      let bufferStart := match buffered video with
                         | r :: _ => fst r
                         | [] => 0
                         end in
      let bufferEnd := match lastBufferedEnd video with
                       | Some e => e
                       | None => 0
                       end in
      let bufferDuration := bufferEnd - bufferStart in
      let behindLive := Qmax 0 (bufferEnd - currentTime video) in
      mkBufferInfo bufferStart bufferEnd bufferDuration (currentTime video)
        behindLive
        (if JS.ltb 0 bufferDuration
         then ((currentTime video - bufferStart) / bufferDuration) * 100
         else 100)
  end.

(** [refreshVodInfo()], with the answer of [checkStreamInfo] taken from the
    world. *)
Definition refreshVodInfo (w : World) (c : DVRController) : DVRController :=
  if negb (JS.truthyOptStr (currentChannel c)) then c
  else if JS.truthyOptStr (fetchedVodId w)
       then set_currentVodId (fetchedVodId w) c
       else c.

(** [createVodOverlay()]: the new element is appended to the player
    container, which puts it in the document. *)
Definition createVodOverlay (w : World) (c : DVRController) : DVRController :=
  match vodOverlay c with
  | Some _ => c
  | None =>
      if negb (playerContainer w) then c
      else
        let c := set_vodOverlay (Some (mkOverlay false NoEmbed)) c in
        let c := set_overlayConnected true c in
        call OverlayCreate c
  end.

(** [document.getElementById('tns-vod-embed')], as a truth value.  The
    container with this id is the child that [createVodOverlay] gives to the
    overlay element, and nothing else in the repository makes an element of
    this id: the lookup finds it when the overlay element exists and is in
    the document. *)
Definition embedContainerFound (c : DVRController) : bool :=
  match vodOverlay c with
  | Some _ => overlayConnected c
  | None => false
  end.

(** [createVodIframe(vodId, startTime)] *)
Definition createVodIframe (vodId : string) (startTime : Q) (c : DVRController)
  : DVRController :=
  if negb (embedContainerFound c) then c
  else
    let c := writeEmbedContent NoEmbed c in
    let c := set_lastVodId (Some vodId) c in
    let c := writeEmbedContent (FallbackIframe vodId startTime) c in
    let c := call (IframeCreate vodId startTime) c in
    set_vodEmbedLoaded true c.

(** [initVodEmbed(vodId, startTime)] *)
Definition initVodEmbed (w : World) (vodId : string) (startTime : Q)
    (c : DVRController) : DVRController :=
  match vodPlayer c,
        (match lastVodId c with Some l => l =? vodId | None => false end) with
  | Some player, true =>
      (* reuse: [seek] is called when the object has it; without it the
         second branch calls the missing [seek] when [setVideo] exists, the
         [TypeError] is caught, and nothing is called *)
      if hasSeek player then call (EmbedSeek (handleId player) startTime) c
      else if hasSetVideo player then c
      else c
  | _, _ =>
      match twitchEmbed w with
      | EmbedMissing => createVodIframe vodId startTime c
      | api =>
          if negb (embedContainerFound c) then c
          else
            let c := writeEmbedContent NoEmbed c in
            let c := set_lastVodId (Some vodId) c in
            let c := call (EmbedConstruct vodId startTime) c in
            match api with
            | EmbedWorks seek setVideo =>
                let h := mkEmbedHandle (embedsBuilt c) vodId seek setVideo in
                let c := set_embedsBuilt (S (embedsBuilt c)) c in
                let c := writeEmbedContent (EmbedFrame (handleId h)) c in
                set_vodPlayer (Some h) c
            | _ => createVodIframe vodId startTime c
            end
      end
  end.

(** The listener registered on [Twitch.Embed.VIDEO_READY]. *)
Definition onVideoReady (c : DVRController) : DVRController :=
  set_vodEmbedLoaded true c.

(** The listener registered on [Twitch.Embed.VIDEO_PLAY]. *)
Definition onVideoPlay (c : DVRController) : DVRController :=
  set_isWatchingVod true c.

(** [switchToVod(vodPositionSeconds)].  The function is [async]; its only
    [await] is the one of [refreshVodInfo], and the model runs it in one
    step with the answer found in the world. *)
Definition switchToVod (w : World) (vodPositionSeconds : Q) (c : DVRController)
  : DVRController :=
  let c := if negb (JS.truthyOptStr (currentVodId c))
           then refreshVodInfo w c else c in
  match currentVodId c with
  | Some vodId =>
      if negb (JS.truthyStr vodId)
      then showNotification msgVodUnavailable c
      else
        let adjustedPosition := Qmax 0 (vodPositionSeconds - 5) in
        let c := if negb (isWatchingVod c)
                 then showNotification msgVodLoading c else c in
        let c := match vodOverlay c with
                 | None => createVodOverlay w c
                 | Some _ => c
                 end in
        let c := initVodEmbed w vodId adjustedPosition c in
        match vodOverlay c with
        | Some _ =>
            let c := writeDisplay true c in
            let c := set_isWatchingVod true c in
            let c := writeMuted true c in
            if negb (isWatchingVod c)
            then showNotification msgVodLoaded c else c
        | None => c
        end
  | None => showNotification msgVodUnavailable c
  end.

(** [switchToLive()] *)
Definition switchToLive (c : DVRController) : DVRController :=
  let c := writeDisplay false c in
  let c := set_isWatchingVod false c in
  let c := match playerElement c with
           | Some v =>
               let c := writeMuted false c in
               match lastBufferedEnd v with
               | Some livePosition => writeCurrentTime livePosition c
               | None => c
               end
           | None => c
           end in
  showNotification msgBackToLive c.

(** [handleGoLive()] *)
Definition handleGoLive (w : World) (c : DVRController) : DVRController :=
  if isWatchingVod c then switchToLive c
  else
    let c := match playerElement c with
             | Some v =>
                 match lastBufferedEnd v with
                 | Some livePosition => writeCurrentTime livePosition c
                 | None => c
                 end
             | None => c
             end in
    if liveButton w then call LiveButtonClick c else c.

(** [handleSeek(positionPercent)] *)
Definition handleSeek (w : World) (positionPercent : Q) (c : DVRController)
  : DVRController :=
  let elapsed := getElapsedTime w c in
  let bufferInfo := getBufferInfo c in
  let targetSecondsFromStart := elapsed * positionPercent / 100 in
  let secondsBehindLive := elapsed - targetSecondsFromStart in
  if JS.leb 98 positionPercent || JS.ltb secondsBehindLive 5
  then handleGoLive w c
  else if JS.leb secondsBehindLive (bi_duration bufferInfo) then
    let targetTime := bi_end bufferInfo - secondsBehindLive in
    let c := if isWatchingVod c then switchToLive c else c in
    writeCurrentTime targetTime c
  else switchToVod w targetSecondsFromStart c.

End Controller.

(** ** Vocabulary of the statements, and the scenarios they are run on *)

Module Scenario.

Import Tracker.

(** The segments that an eviction pass at time [now] keeps. *)
Definition survivors (now : Q) (t : DVRTracker) : list Segment :=
  filter (fun seg => JS.ltb (now - maxBufferDuration t) (timestamp seg)) (segments t).

(** The segment that [addSegment] builds from its argument. *)
Definition builtSegment (clock : nat -> Q) (info : SegmentInfo) (t : DVRTracker)
  : Segment :=
  {| url := si_url info;
     timestamp := clock (ticks t);
     duration := JS.orNum (si_duration info) (segmentDuration t);
     sequence := match si_sequence info with
                 | Some n => if (n =? 0)%Z
                             then Z.of_nat (List.length (segments t)) else n
                 | None => Z.of_nat (List.length (segments t))
                 end;
     quality := match si_quality info with
                | Some q => if JS.truthyStr q then q else "source"
                | None => "source"
                end |}.

(** The urls of the retained segments, oldest first. *)
Definition urls (t : DVRTracker) : list string := map url (segments t).

(** The fetch hook of [dvr-inject.js] hands every live playlist it sees to
    [processPlaylist] inside a [try] whose [catch] is empty: after a throw
    the tracker goes on from where the call left it. *)
Fixpoint ingestAll (clock : nat -> Q) (resolveURL : string -> string -> option string)
    (manifests : list (string * string)) (t : DVRTracker) : DVRTracker :=
  match manifests with
  | [] => t
  | (playlistContent, baseUrl) :: rest =>
      ingestAll clock resolveURL rest
        (tracker_of (processPlaylist clock resolveURL playlistContent baseUrl t))
  end.

(** A manifest text from its lines. *)
Definition manifest (lines : list string) : string :=
  concat (String JS.newline "") lines.

(** A clock that advances by one millisecond at each reading. *)
Definition steadyClock (n : nat) : Q := 1700000000000 + inject_Z (Z.of_nat n).

(** A clock whose third reading comes four hours after the second. *)
Definition jumpClock (n : nat) : Q :=
  match n with
  | O => 1000
  | S O => 2000
  | _ => 2000 + 4 * 60 * 60 * 1000
  end.

(** A resolver that appends the locator to the base. *)
Definition joinURL (line base : string) : option string := Some (base ++ line).

(** A tracker that has just started tracking, on either clock. *)
Definition liveTracker : DVRTracker := startTracking steadyClock "chan" constructor.
Definition liveTrackerJump : DVRTracker := startTracking jumpClock "chan" constructor.

Definition segA : SegmentInfo := mkSegmentInfo "https://h/a.ts" None None None.

(** A tracker with one retained segment. *)
Definition trackerWithA : DVRTracker := addSegment steadyClock segA liveTracker.

(** A manifest whose second duration line is not numeric. *)
Definition staleDurationManifest : string :=
  manifest ["#EXTM3U"; "#EXT-X-MEDIA-SEQUENCE:7";
            "#EXTINF:4.0,"; "https://h/a.ts";
            "#EXTINF:abc,"; "https://h/b.ts"].


End Scenario.

Module SeekScenario.

Import Controller.

(** The target of a seek and its distance behind live, as [handleSeek]
    computes them from the elapsed time. *)
Definition targetSecondsFromStart (w : World) (pct : Q) (c : DVRController) : Q :=
  getElapsedTime w c * pct / 100.

Definition secondsBehindLive (w : World) (pct : Q) (c : DVRController) : Q :=
  getElapsedTime w c - getElapsedTime w c * pct / 100.

(** The span of the native buffer. *)
Definition bufferSpan (c : DVRController) : Q := bi_duration (getBufferInfo c).

(** A seek that is neither near live nor inside the native buffer. *)
Definition OutOfBuffer (w : World) (pct : Q) (c : DVRController) : Prop :=
  pct < 98
  /\ 5 <= secondsBehindLive w pct c
  /\ bufferSpan c < secondsBehindLive w pct c.

(** The state in which [initVodEmbed] takes its reuse branch for a
    recording: a handle is stored and [lastVodId] is the recording's id. *)
Definition BoundTo (vodId : string) (c : DVRController) : Prop :=
  vodPlayer c <> None /\ lastVodId c = Some vodId.

(** The embed container is there for a seek to build in: the overlay exists
    and is in the document, or there is no overlay yet and the page has the
    player container in which [switchToVod] builds one. *)
Definition ContainerInReach (w : World) (c : DVRController) : Prop :=
  match vodOverlay c with
  | Some _ => overlayConnected c = true
  | None => playerContainer w = true
  end.

(** The position in the recording that [switchToVod] asks for. *)
Definition adjustedPosition (w : World) (pct : Q) (c : DVRController) : Q :=
  Qmax 0 (targetSecondsFromStart w pct c - 5).

(** Where the native element stands, and whether it is muted. *)
Definition nativePosition (c : DVRController) : option Q :=
  option_map currentTime (playerElement c).

Definition nativeBuffered (c : DVRController) : option (list (Q * Q)) :=
  option_map buffered (playerElement c).

(** The newest point of the native buffer, when there is one. *)
Definition liveEdge (c : DVRController) : option Q :=
  match playerElement c with
  | Some v => lastBufferedEnd v
  | None => None
  end.

(** The calls without their arguments. *)
Inductive Kind :=
| KNotify | KEmbedConstruct | KEmbedSeek | KIframeCreate | KOverlayCreate
| KLiveButtonClick.

Definition kind (x : Call) : Kind :=
  match x with
  | ShowNotification _ => KNotify
  | EmbedConstruct _ _ => KEmbedConstruct
  | EmbedSeek _ _ => KEmbedSeek
  | IframeCreate _ _ => KIframeCreate
  | OverlayCreate => KOverlayCreate
  | LiveButtonClick => KLiveButtonClick
  end.

(** Calls that touch the secondary source. *)
Definition touchesVod (x : Call) : bool :=
  match x with
  | EmbedConstruct _ _ | EmbedSeek _ _ | IframeCreate _ _ | OverlayCreate => true
  | ShowNotification _ | LiveButtonClick => false
  end.

(** One hour into a session: the stream started at [1700000000000] and the
    native buffer spans the seconds 100 to 180 of the element's timeline. *)
Definition hourIn : DVRController :=
  set_playerElement (Some (mkVideo [(100, 180)] 180 false))
    (set_currentVodId (Some "v123")
      (set_streamStartTime (Some 1700000000000)
        (set_currentChannel (Some "chan")
          (set_isActive true constructor)))).

(** The same session before the recording id is known. *)
Definition hourInNoVod : DVRController := set_currentVodId None hourIn.

(** The page at that moment, with the Embed API loaded ... *)
Definition pageWithEmbed : World :=
  {| now := 1700000000000 + 3600 * 1000;
     playerContainer := true;
     twitchEmbed := EmbedWorks true true;
     liveButton := true;
     fetchedVodId := None |}.

(** ... and with the Embed API not loaded. *)
Definition pageWithoutEmbed : World :=
  {| now := 1700000000000 + 3600 * 1000;
     playerContainer := true;
     twitchEmbed := EmbedMissing;
     liveButton := true;
     fetchedVodId := None |}.

End SeekScenario.

(** ** The remaining queries of the tracker *)

Module TrackerQueries.

Import Tracker.

(** The loop of [getSegmentAtTime], from index [i] on. *)
Fixpoint scanAtTime (ts : Q) (i : nat) (segs : list Segment)
  : option (Segment * nat) :=
  match segs with
  | [] => None
  | seg :: rest =>
      if JS.leb (timestamp seg) ts && JS.ltb ts (timestamp seg + duration seg)
      then Some (seg, i)
      else scanAtTime ts (S i) rest
  end.

(** [getSegmentAtTime(timestamp)]: the object [{segment, index}], or [null]. *)
Definition getSegmentAtTime (ts : Q) (t : DVRTracker) : option (Segment * nat) :=
  scanAtTime ts 0 (segments t).

(** [getSegmentsInRange(startTime, endTime)] *)
Definition getSegmentsInRange (startTime endTime : Q) (t : DVRTracker)
  : list Segment :=
  filter (fun seg =>
            let segEnd := timestamp seg + duration seg in
            JS.ltb startTime segEnd && JS.ltb (timestamp seg) endTime)
         (segments t).

End TrackerQueries.

(** ** Sessions of the tracker *)

Module Timeline.

Import Tracker.

(** What the extension does to its tracker: the controller starts tracking,
    then assigns [tracker.streamStartTime], and stops tracking; the fetch
    hook hands over playlists. *)
Inductive Request :=
| Start (channel : string)
| Stop
| Playlist (playlistContent baseUrl : string)
| AssignStreamStart (startTime : option Q).

Definition serve (clock : nat -> Q) (resolveURL : string -> string -> option string)
    (r : Request) (t : DVRTracker) : DVRTracker :=
  match r with
  | Start channel => startTracking clock channel t
  | Stop => stopTracking t
  | Playlist playlistContent baseUrl =>
      tracker_of (processPlaylist clock resolveURL playlistContent baseUrl t)
  | AssignStreamStart startTime => set_streamStartTime startTime t
  end.

(** The tracker after a sequence of requests, served in order. *)
Definition run (clock : nat -> Q) (resolveURL : string -> string -> option string)
    (rs : list Request) (t : DVRTracker) : DVRTracker :=
  fold_left (fun t r => serve clock resolveURL r t) rs t.

(** A clock that never goes back. *)
Definition MonotoneClock (clock : nat -> Q) : Prop :=
  forall m n, (m <= n)%nat -> clock m <= clock n.

(** The last value that [Date.now()] returned. *)
Definition lastRead (clock : nat -> Q) (t : DVRTracker) : Q :=
  clock (pred (ticks t)).

(** What holds of a tracker between two requests when the clock is
    monotone. *)
Record Consistent (clock : nat -> Q) (t : DVRTracker) : Prop := mkConsistent {
  cons_sorted : StronglySorted Qle (map timestamp (segments t));
  cons_past : Forall (fun s => timestamp s <= lastRead clock t) (segments t);
  cons_fresh :
    Forall (fun s => lastRead clock t - maxBufferDuration t < timestamp s)
           (segments t);
  cons_durations : Forall (fun s => 0 <= duration s) (segments t);
  cons_nominal : 0 <= segmentDuration t;
  cons_earliest :
    match segments t with
    | first :: _ => earliestAvailableTime t = Some (timestamp first)
    | [] => forall e, earliestAvailableTime t = Some e -> e <= lastRead clock t
    end;
  cons_latest :
    forall older newest,
      segments t = (older ++ [newest])%list ->
      latestAvailableTime t = Some (timestamp newest + duration newest);
  cons_live :
    isLive t = true ->
    earliestAvailableTime t <> None /\ latestAvailableTime t <> None;
  cons_order :
    forall e l,
      earliestAvailableTime t = Some e -> latestAvailableTime t = Some l ->
      e <= l
}.

(** Every timestamp is a value the clock returned. *)
Definition Stamped (clock : nat -> Q) (t : DVRTracker) : Prop :=
  Forall (fun s => exists n, timestamp s = clock n) (segments t).

(** All readings of the clock lie within one retention window of [t]. *)
Definition WithinWindow (clock : nat -> Q) (t : DVRTracker) : Prop :=
  forall m n, clock n - maxBufferDuration t < clock m.

(** A tracker on which the loop of [processPlaylist] keeps what it
    inserts. *)
Definition Retaining (clock : nat -> Q) (t : DVRTracker) : Prop :=
  isLive t = true /\ isEnabled t = true
  /\ Stamped clock t /\ WithinWindow clock t.

(** The duration carried by the loop of [processPlaylist] is not negative. *)
Definition carriesDuration (v : LoopVars) : Prop :=
  forall q, currentDuration v = Some q -> 0 <= q.

(** The test that makes a trimmed line a media locator. *)
Definition isMediaLine (line : string) : bool :=
  JS.truthyStr line && negb (JS.startsWith "#" line)
  && (JS.endsWith ".ts" line || JS.includes ".ts?" line).

(** [seg] holds the instant [ts]. *)
Definition covers (seg : Segment) (ts : Q) : Prop :=
  timestamp seg <= ts /\ ts < timestamp seg + duration seg.

(** A clock that advances by one millisecond at each of its first thousand
    readings and then stands still. *)
Definition settledClock (n : nat) : Q :=
  1700000000000 + inject_Z (Z.of_nat (Nat.min n 1000)).

(** A manifest with two media lines, and one with none. *)
Definition twoSegmentManifest : string :=
  Scenario.manifest ["#EXTM3U"; "#EXT-X-MEDIA-SEQUENCE:7";
                     "#EXTINF:2.000,live"; "https://h/a.ts";
                     "#EXTINF:2.000,live"; "b.ts?token=1"].

Definition headerOnlyManifest : string :=
  Scenario.manifest ["#EXTM3U"; "#EXT-X-VERSION:3"; ""; "variant.m3u8"].

(** A session: start, two polls of the same playlist, stop. *)
Definition polledTwice : list Request :=
  [Start "chan"; AssignStreamStart (Some 1699999990000);
   Playlist twoSegmentManifest "https://h/";
   Playlist twoSegmentManifest "https://h/"; Stop].

End Timeline.

(** ** What the controller shows *)

Module Display.

Import Controller.

(** [String(n)] for an integer [n]. *)
Definition numberToString (z : Z) : string :=
  NilZero.string_of_int (Z.to_int z).

(** [s.padStart(2, '0')] *)
Definition padStart2 (s : string) : string :=
  match String.length s with
  | O => "00"
  | S O => "0" ++ s
  | _ => s
  end.

(** [DVRTracker.formatDuration(ms)]; [%] is the remainder that takes the
    sign of the dividend. *)
Definition formatDuration (ms : Q) : string :=
  let seconds := Qfloor (ms / 1000) in
  let hours := (seconds / 3600)%Z in
  let minutes := (Z.rem seconds 3600 / 60)%Z in
  let secs := Z.rem seconds 60 in
  if (0 <? hours)%Z
  then numberToString hours ++ ":" ++ padStart2 (numberToString minutes)
       ++ ":" ++ padStart2 (numberToString secs)
  else numberToString minutes ++ ":" ++ padStart2 (numberToString secs).

(** [DVRController.formatTime(seconds)] *)
Definition formatTime (seconds : Q) : string :=
  let seconds := if JS.ltb seconds 0 then 0 else seconds in
  let seconds := Qfloor seconds in
  let hrs := (seconds / 3600)%Z in
  let mins := (Z.rem seconds 3600 / 60)%Z in
  let secs := Z.rem seconds 60 in
  if (0 <? hrs)%Z
  then numberToString hrs ++ ":" ++ padStart2 (numberToString mins)
       ++ ":" ++ padStart2 (numberToString secs)
  else numberToString mins ++ ":" ++ padStart2 (numberToString secs).

(** [handlePreview(positionPercent)] *)
Definition handlePreview (w : World) (positionPercent : Q) (c : DVRController)
  : string :=
  let elapsed := getElapsedTime w c in
  if JS.leb 98 positionPercent then "LIVE"
  else
    let targetSeconds := elapsed * positionPercent / 100 in
    let behindLive := elapsed - targetSeconds in
    if JS.ltb behindLive 1 then "LIVE"
    else
      let bufferInfo := getBufferInfo c in
      if JS.ltb (bi_duration bufferInfo) behindLive
         && JS.truthyOptStr (currentVodId c)
      then "-" ++ formatTime behindLive ++ " (VOD)"
      else "-" ++ formatTime behindLive.

(** The object that [updateUI] hands to [ui.updateProgress]; [None] in
    [position] is [NaN]. *)
Record Progress := mkProgress {
  position : option Q;
  bufferPosition : Q;
  p_currentTime : string;
  p_duration : string;
  isAtLive : bool;
  p_behindLive : string;
  p_bufferDuration : string;
  hasVod : bool;
  p_isWatchingVod : bool
}.

(** [updateUI()]: the argument of the call of [ui.updateProgress], or [None]
    when the function returns before it.  [behindLive] is never negative,
    so with [elapsed = 0] the quotient [behindLive / elapsed] is [NaN]
    (then [position] is [NaN]) or [+Infinity] (then [position] is [0]). *)
Definition updateUI (w : World) (c : DVRController) : option Progress :=
  if negb (isActive c) then None
  else
    match playerElement c with
    | None => None
    | Some _ =>
        let bufferInfo := getBufferInfo c in
        let elapsed := getElapsedTime w c in
        let atLive := JS.ltb (bi_behindLive bufferInfo) 2
                      && negb (isWatchingVod c) in
        let bufferText :=
          if JS.truthyOptStr (currentVodId c)
          then "DVR: " ++ formatTime elapsed
          else formatTime (bi_duration bufferInfo) in
        Some {| position :=
                  if atLive then Some 100
                  else if Qeq_bool elapsed 0
                       then if Qeq_bool (bi_behindLive bufferInfo) 0
                            then None else Some 0
                       else Some (Qmax 0 (100 - (bi_behindLive bufferInfo
                                                 / elapsed * 100)));
                bufferPosition := 100;
                p_currentTime := formatTime elapsed;
                p_duration := formatTime elapsed;
                isAtLive := atLive;
                p_behindLive := formatTime (bi_behindLive bufferInfo);
                p_bufferDuration := bufferText;
                hasVod := JS.truthyOptStr (currentVodId c);
                p_isWatchingVod := isWatchingVod c |}
    end.

End Display.

(** ** The end of a session *)

Module Lifecycle.

Import Controller.

(** Calls on the page that [stopDVR] makes beside those of the seek path. *)
Inductive PageCall :=
| UiHide
| OverlayRemove
| ClearInterval (id : positive).

(** A controller with the collaborators and timers that [stopDVR] touches:
    its tracker, the ids held in [updateInterval] and [vodRefreshInterval]
    (ids of the browser are positive numbers), the intervals of the page
    that are set and not cleared, and the calls made. *)
Record Session := mkSession {
  controller : DVRController;
  tracker : Tracker.DVRTracker;
  updateInterval : option positive;
  vodRefreshInterval : option positive;
  activeIntervals : list positive;
  pageCalls : list PageCall
}.

(** [clearInterval(id)] *)
Definition clearInterval (id : positive) (s : Session) : Session :=
  mkSession (controller s) (tracker s) (updateInterval s) (vodRefreshInterval s)
    (filter (fun other => negb (Pos.eqb other id)) (activeIntervals s))
    (pageCalls s ++ [ClearInterval id]).

Definition pageCall (x : PageCall) (s : Session) : Session :=
  mkSession (controller s) (tracker s) (updateInterval s) (vodRefreshInterval s)
    (activeIntervals s) (pageCalls s ++ [x]).

Definition set_controller (c : DVRController) (s : Session) : Session :=
  mkSession c (tracker s) (updateInterval s) (vodRefreshInterval s)
    (activeIntervals s) (pageCalls s).

Definition set_tracker (t : Tracker.DVRTracker) (s : Session) : Session :=
  mkSession (controller s) t (updateInterval s) (vodRefreshInterval s)
    (activeIntervals s) (pageCalls s).

Definition set_updateInterval (x : option positive) (s : Session) : Session :=
  mkSession (controller s) (tracker s) x (vodRefreshInterval s)
    (activeIntervals s) (pageCalls s).

Definition set_vodRefreshInterval (x : option positive) (s : Session) : Session :=
  mkSession (controller s) (tracker s) (updateInterval s) x
    (activeIntervals s) (pageCalls s).

(** [stopDVR()].  The tracker's [streamEnded] listener is the controller's
    [handleStreamEnded], which hides the UI. *)
Definition stopDVR (s : Session) : Session :=
  if negb (isActive (controller s)) then s
  else
    let c := controller s in
    let c := set_isActive false c in
    let c := set_currentChannel None c in
    let c := set_currentVodId None c in
    let c := set_streamStartTime None c in
    let c := set_isWatchingVod false c in
    let s := set_controller c s in
    let wasLive := Tracker.isLive (tracker s) in
    let s := set_tracker (Tracker.stopTracking (tracker s)) s in
    let s := if wasLive then pageCall UiHide s else s in
    let s := pageCall UiHide s in
    let s :=
      match vodOverlay (controller s) with
      | Some _ =>
          let s := pageCall OverlayRemove s in
          set_controller
            (set_vodEmbedLoaded false
               (set_vodPlayer None
                  (set_vodOverlay None
                     (set_overlayConnected false (controller s))))) s
      | None => s
      end in
    let s :=
      match updateInterval s with
      | Some id => set_updateInterval None (clearInterval id s)
      | None => s
      end in
    match vodRefreshInterval s with
    | Some id => set_vodRefreshInterval None (clearInterval id s)
    | None => s
    end.

(** The intervals of [l] other than the one held in a field. *)
Definition without (held : option positive) (l : list positive) : list positive :=
  match held with
  | Some id => filter (fun other => negb (Pos.eqb other id)) l
  | None => l
  end.

(** A stored embed handle lives inside the overlay. *)
Definition HandleInOverlay (c : DVRController) : Prop :=
  vodPlayer c <> None -> vodOverlay c <> None.

(** An active session watching the recording, with both timers running. *)
Definition watchingSession : Session :=
  {| controller := handleSeek SeekScenario.pageWithEmbed 50 SeekScenario.hourIn;
     tracker := Scenario.trackerWithA;
     updateInterval := Some 3%positive;
     vodRefreshInterval := Some 2%positive;
     activeIntervals := [1%positive; 2%positive; 3%positive];
     pageCalls := [] |}.

(** The session after a seek on the page without the Embed API, once the
    page has taken the overlay element out of the document. *)
Definition detachedAfterFallback : DVRController :=
  set_overlayConnected false
    (handleSeek SeekScenario.pageWithoutEmbed 50 SeekScenario.hourIn).

(** The page one hour into the session without a player container, and with
    a metadata service that knows the recording. *)
Definition pageWithoutContainer : World :=
  {| now := 1700000000000 + 3600 * 1000;
     playerContainer := false;
     twitchEmbed := EmbedWorks true true;
     liveButton := true;
     fetchedVodId := None |}.

Definition pageResolving : World :=
  {| now := 1700000000000 + 3600 * 1000;
     playerContainer := true;
     twitchEmbed := EmbedWorks true true;
     liveButton := true;
     fetchedVodId := Some "v123" |}.

End Lifecycle.


(** * Properties *)

(** ** Sanity checks of the string primitives *)

Example split_lines_trailing :
  JS.split_lines (String "a" (String JS.newline "b")) = ["a"; "b"].
Proof. reflexivity. Qed.

Example parseFloat_stops_at_second_dot :
  match JS.parseFloat "1.25.3" with Some q => q == 5 # 4 | None => False end.
Proof. vm_compute. reflexivity. Qed.

Example parseFloat_lone_dot : JS.parseFloat "." = None.
Proof. reflexivity. Qed.

Example match_skips_failed_position :
  JS.matchLiteralRun "#EXTINF:" JS.isDigitOrDot "#EXTINF:abc#EXTINF:3.0,"
  = Some "3.0".
Proof. reflexivity. Qed.

Example trim_both_ends :
  JS.trim (String "009" (String " " ("seg.ts" ++ String "013" ""))) = "seg.ts".
Proof. reflexivity. Qed.

(** ** Comparisons on numbers *)

Lemma ltb_true_iff (a b : Q) : JS.ltb a b = true <-> a < b.
Proof.
  unfold JS.ltb. rewrite negb_true_iff. split; intro H.
  - apply Qnot_le_lt. intro Hle. apply Qle_bool_iff in Hle. congruence.
  - destruct (Qle_bool b a) eqn:E; [|reflexivity].
    apply Qle_bool_iff in E. exfalso. apply (Qlt_not_le _ _ H E).
Qed.

Lemma ltb_false_iff (a b : Q) : JS.ltb a b = false <-> b <= a.
Proof.
  unfold JS.ltb. rewrite negb_false_iff. apply Qle_bool_iff.
Qed.

Lemma leb_true_iff (a b : Q) : JS.leb a b = true <-> a <= b.
Proof. apply Qle_bool_iff. Qed.

Lemma leb_false_iff (a b : Q) : JS.leb a b = false <-> b < a.
Proof.
  unfold JS.leb. split; intro H.
  - apply Qnot_le_lt. intro Hle. apply Qle_bool_iff in Hle. congruence.
  - destruct (Qle_bool a b) eqn:E; [|reflexivity].
    apply Qle_bool_iff in E. exfalso. apply (Qlt_not_le _ _ H E).
Qed.

Lemma truthyNum_false_iff (q : Q) : JS.truthyNum q = false <-> q == 0.
Proof.
  unfold JS.truthyNum. rewrite negb_false_iff. apply Qeq_bool_iff.
Qed.

(** ** The tracker *)

Section TrackerFacts.

Import Tracker Scenario.

Variable clock : nat -> Q.
Variable resolveURL : string -> string -> option string.

Lemma cleanupOldSegments_segments (t : DVRTracker) :
  segments (cleanupOldSegments clock t) = survivors (clock (ticks t)) t.
Proof.
  unfold cleanupOldSegments, survivors, Date_now. cbn.
  destruct (filter _ (segments t)); reflexivity.
Qed.

(** C10.  The eviction pass never writes [latestAvailableTime]: whatever the
    timeline holds and whatever is evicted, also when nothing survives, the
    field keeps its value.  The pass replaces the segment list by the
    survivors and sets [earliestAvailableTime] to the timestamp of the first
    survivor when there is one; with no survivor it leaves that field alone
    as well.  No other field of the tracker changes. *)
Theorem cleanupOldSegments_keeps_latest (t : DVRTracker) :
  let t' := cleanupOldSegments clock t in
  latestAvailableTime t' = latestAvailableTime t
  /\ segments t' = survivors (clock (ticks t)) t
  /\ earliestAvailableTime t' =
       match survivors (clock (ticks t)) t with
       | first :: _ => Some (timestamp first)
       | [] => earliestAvailableTime t
       end
  /\ maxBufferDuration t' = maxBufferDuration t
  /\ segmentDuration t' = segmentDuration t
  /\ isLive t' = isLive t
  /\ isEnabled t' = isEnabled t
  /\ channelName t' = channelName t
  /\ streamStartTime t' = streamStartTime t
  /\ currentSegmentIndex t' = currentSegmentIndex t
  /\ emitted t' = emitted t.
Proof.
  unfold cleanupOldSegments, survivors, Date_now. cbn.
  destruct (filter _ (segments t)); cbn; repeat split; reflexivity.
Qed.

(** *** Stopping and resetting *)

(** C7, as the code has it.  [stopTracking()] only clears [isLive] (after
    telling the [streamEnded] listeners when the tracker was live): the
    segment list, both bounds and the session start keep their values.  The
    timeline is emptied by [reset()], and [startTracking] begins with it, so
    a new session starts from no segment. *)
Theorem stopTracking_only_clears_isLive (t : DVRTracker) (channel : string) :
  (let t' := stopTracking t in
   isLive t' = false
   /\ segments t' = segments t
   /\ earliestAvailableTime t' = earliestAvailableTime t
   /\ latestAvailableTime t' = latestAvailableTime t
   /\ streamStartTime t' = streamStartTime t
   /\ emitted t' = (emitted t
                    ++ (if isLive t then [StreamEnded (channelName t)] else []))%list)
  /\ (let t' := reset t in
      segments t' = []
      /\ earliestAvailableTime t' = None
      /\ latestAvailableTime t' = None
      /\ streamStartTime t' = None
      /\ isLive t' = false)
  /\ segments (startTracking clock channel t) = [].
Proof.
  unfold stopTracking, reset, startTracking, Date_now.
  destruct (isLive t); cbn; rewrite ?app_nil_r; repeat split; reflexivity.
Qed.

(** *** Insertion *)

Lemma addSegment_unfold (info : SegmentInfo) (t : DVRTracker) :
  isLive t = true -> isEnabled t = true ->
  addSegment clock info t
  = emitTimelineUpdate
      (emit (SegmentAdded (builtSegment clock info t))
         (cleanupOldSegments clock
            (set_latestAvailableTime
               (Some (timestamp (builtSegment clock info t)
                      + duration (builtSegment clock info t)))
               (set_segments (segments t ++ [builtSegment clock info t]) (tick t))))).
Proof.
  intros Hl He. unfold addSegment. rewrite Hl, He. reflexivity.
Qed.

Lemma cleanupOldSegments_earliest (t : DVRTracker) :
  earliestAvailableTime (cleanupOldSegments clock t)
  = match survivors (clock (ticks t)) t with
    | first :: _ => Some (timestamp first)
    | [] => earliestAvailableTime t
    end.
Proof.
  unfold cleanupOldSegments, survivors, Date_now. cbn.
  destruct (filter _ (segments t)); reflexivity.
Qed.

Lemma cleanupOldSegments_latest (t : DVRTracker) :
  latestAvailableTime (cleanupOldSegments clock t) = latestAvailableTime t.
Proof.
  unfold cleanupOldSegments, Date_now. cbn.
  destruct (filter _ (segments t)); reflexivity.
Qed.

Lemma addSegment_live (info : SegmentInfo) (t : DVRTracker) :
  isLive t = true -> isEnabled t = true ->
  let t' := addSegment clock info t in
  let seg := builtSegment clock info t in
  segments t'
  = filter (fun s => JS.ltb (clock (S (ticks t)) - maxBufferDuration t)
                            (timestamp s))
           (segments t ++ [seg])
  /\ latestAvailableTime t' = Some (timestamp seg + duration seg)
  /\ earliestAvailableTime t'
     = match segments t' with
       | first :: _ => Some (timestamp first)
       | [] => earliestAvailableTime t
       end.
Proof.
  intros Hl He t' seg. subst t'.
  rewrite (addSegment_unfold info t Hl He). fold seg.
  unfold emitTimelineUpdate, emit. cbn [segments latestAvailableTime earliestAvailableTime].
  rewrite cleanupOldSegments_segments, cleanupOldSegments_latest,
    cleanupOldSegments_earliest.
  repeat split.
Qed.

Lemma addSegment_guard (info : SegmentInfo) (t : DVRTracker) :
  isLive t = false \/ isEnabled t = false -> addSegment clock info t = t.
Proof.
  intros [H|H]; unfold addSegment; rewrite H; cbn;
    rewrite ?orb_true_r; reflexivity.
Qed.

(** C6, as the code has it.  An insert first sets [latestAvailableTime] to
    the end of the new segment and then runs the eviction pass.  When the
    pass removes every segment, the new one included, neither bound is
    cleared: [earliestAvailableTime] keeps the value it had before the
    insert and [latestAvailableTime] stays at the end of the new segment.
    When segments survive, [earliestAvailableTime] becomes the timestamp of
    the first survivor. *)
Theorem addSegment_bounds_after_eviction (info : SegmentInfo) (t : DVRTracker) :
  isLive t = true -> isEnabled t = true ->
  let t' := addSegment clock info t in
  latestAvailableTime t'
    = Some (clock (ticks t) + JS.orNum (si_duration info) (segmentDuration t))
  /\ (segments t' = [] -> earliestAvailableTime t' = earliestAvailableTime t)
  /\ (forall first rest,
        segments t' = first :: rest ->
        earliestAvailableTime t' = Some (timestamp first)).
Proof.
  intros Hl He t'.
  destruct (addSegment_live info t Hl He) as (_ & Hlast & Hfirst).
  fold t' in Hlast, Hfirst.
  split; [exact Hlast|]. split.
  - intro Hnil. rewrite Hnil in Hfirst. exact Hfirst.
  - intros first rest Hcons. rewrite Hcons in Hfirst. exact Hfirst.
Qed.

(** *** No two retained segments share a url *)

(** Eviction keeps the urls distinct. *)
Lemma filter_keeps_distinct_urls (keep : Segment -> bool) :
  forall segs : list Segment,
    NoDup (map url segs) -> NoDup (map url (filter keep segs)).
Proof.
  intros segs. induction segs as [|seg older IH]; cbn; intro Hdistinct.
  - exact Hdistinct.
  - inversion Hdistinct as [|u us Hfresh Holder]; subst.
    destruct (keep seg); cbn; [constructor|]; auto.
    intro Hin. apply Hfresh.
    apply in_map_iff in Hin. destruct Hin as (other & Hsame & Hin).
    apply filter_In in Hin. apply in_map_iff. exists other. tauto.
Qed.

(** Appending a segment with a fresh url keeps the urls distinct. *)
Lemma push_keeps_distinct_urls (seg : Segment) (segs : list Segment) :
  NoDup (map url segs) -> ~ In (url seg) (map url segs) ->
  NoDup (map url (segs ++ [seg])).
Proof.
  intros Hdistinct Hfresh. rewrite map_app. cbn.
  apply NoDup_app; [exact Hdistinct| |].
  - constructor; [intros []|constructor].
  - intros u Hu [Heq|[]]. subst. contradiction.
Qed.

Lemma findByUrl_None (u : string) (t : DVRTracker) :
  findByUrl u t = None -> ~ In u (urls t).
Proof.
  unfold findByUrl, urls. intros Hnone Hin.
  apply in_map_iff in Hin. destruct Hin as (seg & Hu & Hin).
  pose proof (find_none _ _ Hnone seg Hin) as Hneq. cbn in Hneq.
  apply String.eqb_neq in Hneq. contradiction.
Qed.

Lemma findByUrl_Some (u : string) (t : DVRTracker) :
  In u (urls t) -> exists seg, findByUrl u t = Some seg.
Proof.
  unfold findByUrl, urls. intro Hin.
  destruct (find _ (segments t)) as [seg|] eqn:E; [eauto|].
  exfalso. apply (findByUrl_None u t E Hin).
Qed.

Lemma addSegment_fresh_keeps_NoDup (info : SegmentInfo) (t : DVRTracker) :
  NoDup (urls t) -> ~ In (si_url info) (urls t) ->
  NoDup (urls (addSegment clock info t)).
Proof.
  intros Hnd Hfresh.
  destruct (isLive t) eqn:Hl; [destruct (isEnabled t) eqn:He|].
  - destruct (addSegment_live info t Hl He) as (Hseg & _).
    unfold urls. rewrite Hseg.
    apply filter_keeps_distinct_urls, push_keeps_distinct_urls; assumption.
  - rewrite addSegment_guard; auto.
  - rewrite addSegment_guard; auto.
Qed.

Lemma processLine_keeps_NoDup (baseUrl line : string) (v v' : LoopVars)
    (t t' : DVRTracker) :
  processLine clock resolveURL baseUrl line v t = Some (v', t') ->
  NoDup (urls t) -> NoDup (urls t').
Proof.
  unfold processLine. intros Hstep Hnd.
  destruct (JS.startsWith "#EXTINF:" (JS.trim line)).
  - destruct (JS.matchLiteralRun _ _ _); inversion Hstep; subst; exact Hnd.
  - destruct (_ && _ && _).
    + destruct (if JS.startsWith "http" (JS.trim line) then _ else _)
        as [segmentUrl|]; [|discriminate].
      inversion Hstep; subst; clear Hstep.
      destruct (findByUrl segmentUrl t) eqn:Hfind; [exact Hnd|].
      apply addSegment_fresh_keeps_NoDup; [exact Hnd|].
      apply findByUrl_None. exact Hfind.
    + inversion Hstep; subst; exact Hnd.
Qed.

Lemma processLines_keeps_NoDup (baseUrl : string) (lines : list string) :
  forall (v : LoopVars) (t : DVRTracker),
    NoDup (urls t) ->
    NoDup (urls (tracker_of (processLines clock resolveURL baseUrl lines v t))).
Proof.
  induction lines as [|line rest IH]; intros v t Hnd; cbn; [exact Hnd|].
  destruct (processLine clock resolveURL baseUrl line v t) as [[v' t']|] eqn:E.
  - apply IH. eapply processLine_keeps_NoDup; eauto.
  - exact Hnd.
Qed.

Lemma processPlaylist_keeps_NoDup (playlistContent baseUrl : string)
    (t : DVRTracker) :
  NoDup (urls t) ->
  NoDup (urls (tracker_of
                 (processPlaylist clock resolveURL playlistContent baseUrl t))).
Proof.
  intro Hnd. unfold processPlaylist.
  destruct (negb (isLive t) || negb (isEnabled t)); [exact Hnd|].
  apply processLines_keeps_NoDup. exact Hnd.
Qed.

(** C1, as the code has it.  The duplicate check sits in [processPlaylist],
    not in [addSegment].  Starting from a timeline without duplicate urls
    (an empty one in particular), whatever manifests the fetch hook hands to
    [processPlaylist], no two retained segments share a url; and a media
    line whose url is already retained changes nothing in the tracker: no
    segment is added and no event is emitted, only the sequence counter of
    the loop moves on. *)
Theorem processPlaylist_dedup (t : DVRTracker) :
  NoDup (urls t) ->
  (forall manifests, NoDup (urls (ingestAll clock resolveURL manifests t)))
  /\ (forall baseUrl rawLine v segmentUrl,
        let line := JS.trim rawLine in
        JS.startsWith "#EXTINF:" line = false ->
        JS.truthyStr line && negb (JS.startsWith "#" line)
          && (JS.endsWith ".ts" line || JS.includes ".ts?" line) = true ->
        (if JS.startsWith "http" line then Some line
         else resolveURL line baseUrl) = Some segmentUrl ->
        In segmentUrl (urls t) ->
        processLine clock resolveURL baseUrl rawLine v t
        = Some (mkLoopVars (currentDuration v) (nextSequence v + 1)%Z, t)).
Proof.
  intro Hnd. split.
  - intro manifests. revert t Hnd.
    induction manifests as [|[content base] rest IH]; intros t Hnd; cbn;
      [exact Hnd|].
    apply IH. apply processPlaylist_keeps_NoDup. exact Hnd.
  - intros baseUrl rawLine v segmentUrl line Hext Hloc Hres Hin.
    unfold processLine. fold line. rewrite Hext, Hloc, Hres.
    destruct (findByUrl_Some segmentUrl t Hin) as (seg & Hfind).
    rewrite Hfind. reflexivity.
Qed.

(** *** Position and timestamp *)



(** *** The parse runs to its end *)

(** Only the [URL] constructor can stop the loop: when it throws on no
    locator, [processPlaylist] runs through every line. *)
Lemma processPlaylist_completes (playlistContent baseUrl : string)
    (t : DVRTracker) :
  (forall line base, resolveURL line base <> None) ->
  exists t',
    processPlaylist clock resolveURL playlistContent baseUrl t = Completed t'.
Proof.
  intro Hres. unfold processPlaylist.
  destruct (negb (isLive t) || negb (isEnabled t)); [eauto|].
  generalize (mkLoopVars (Some 0)
                match JS.matchLiteralRun "#EXT-X-MEDIA-SEQUENCE:" JS.isDigit
                        playlistContent with
                | Some digits => JS.parseInt digits
                | None => 0%Z
                end).
  generalize t.
  induction (JS.split_lines playlistContent) as [|line rest IH];
    intros t0 v; cbn; [eauto|].
  unfold processLine.
  destruct (JS.startsWith "#EXTINF:" (JS.trim line)).
  - destruct (JS.matchLiteralRun _ _ _); apply IH.
  - destruct (_ && _ && _); [|apply IH].
    destruct (JS.startsWith "http" (JS.trim line)); [apply IH|].
    destruct (resolveURL (JS.trim line) baseUrl) eqn:E; [apply IH|].
    exfalso. apply (Hres _ _ E).
Qed.

(** *** Duration lines of a manifest *)

(** A line that starts with [#EXTINF:] never reaches the [URL] constructor
    and never touches the tracker; when its duration does not parse, the
    loop variables stay as they are, [currentDuration] included. *)
Lemma extinf_line_never_aborts (baseUrl rawLine : string) (v : LoopVars)
    (t : DVRTracker) :
  JS.startsWith "#EXTINF:" (JS.trim rawLine) = true ->
  exists v',
    processLine clock resolveURL baseUrl rawLine v t = Some (v', t)
    /\ nextSequence v' = nextSequence v
    /\ (JS.matchLiteralRun "#EXTINF:" JS.isDigitOrDot (JS.trim rawLine) = None ->
        v' = v).
Proof.
  intro Hext. unfold processLine. rewrite Hext.
  destruct (JS.matchLiteralRun _ _ _) as [m|].
  - eexists. split; [reflexivity|]. split; [reflexivity|discriminate].
  - exists v. repeat split.
Qed.

End TrackerFacts.

(** *** The tracker on concrete timelines *)

Section TrackerScenarios.

Import Tracker Scenario.

(** C1, counterexample.  Two calls of [addSegment] with the same url on a
    live tracker keep two segments with that url: the second call is not a
    no-op. *)
Lemma addSegment_keeps_duplicate_url :
  let t1 := addSegment steadyClock segA liveTracker in
  let t2 := addSegment steadyClock segA t1 in
  urls t1 = ["https://h/a.ts"]
  /\ urls t2 = ["https://h/a.ts"; "https://h/a.ts"]
  /\ ~ NoDup (urls t2)
  /\ segments t2 <> segments t1.
Proof.
  cbv zeta. split; [reflexivity|]. split; [reflexivity|]. split.
  - intro H. inversion H as [|x l Hnotin _]; subst.
    apply Hnotin. left. reflexivity.
  - intro H. apply (f_equal (@List.length Segment)) in H.
    vm_compute in H. discriminate H.
Qed.

Lemma processPlaylist_dedup_witness :
  NoDup (urls trackerWithA)
  /\ NoDup (urls (ingestAll steadyClock joinURL
                   [(staleDurationManifest, "https://h/");
                    (staleDurationManifest, "https://h/")] trackerWithA))
  /\ processLine steadyClock joinURL "https://h/" " https://h/a.ts"
       (mkLoopVars (Some 0) 7) trackerWithA
     = Some (mkLoopVars (Some 0) 8, trackerWithA).
Proof.
  assert (Hnd : NoDup (urls trackerWithA)).
  { change (urls trackerWithA) with ["https://h/a.ts"].
    constructor; [intros []|constructor]. }
  destruct (processPlaylist_dedup steadyClock joinURL trackerWithA Hnd)
    as [Hall Hline].
  split; [exact Hnd|]. split; [apply Hall|].
  apply (Hline "https://h/" " https://h/a.ts" (mkLoopVars (Some 0) 7)
           "https://h/a.ts"); try reflexivity.
  left. reflexivity.
Defined.

(** C6, counterexample.  The clock jumps by four hours between the reading
    that stamps the new segment and the reading of the eviction pass: the
    pass evicts the segment just added, the timeline is empty, and both
    bounds hold a value. *)
Lemma addSegment_empty_timeline_keeps_bounds :
  let t := addSegment jumpClock segA liveTrackerJump in
  segments t = []
  /\ earliestAvailableTime t = Some 1000
  /\ earliestAvailableTime t <> None
  /\ latestAvailableTime t <> None
  /\ JS.toNumber (latestAvailableTime t) == 4000.
Proof.
  cbv zeta. split; [reflexivity|]. split; [reflexivity|].
  split; [discriminate|]. split; [discriminate|].
  vm_compute. reflexivity.
Qed.

Lemma addSegment_bounds_witness :
  isLive liveTracker = true
  /\ isEnabled liveTracker = true
  /\ (let t' := addSegment steadyClock segA liveTracker in
      latestAvailableTime t'
        = Some (steadyClock (ticks liveTracker)
                + JS.orNum (si_duration segA) (segmentDuration liveTracker))
      /\ (segments t' = [] ->
          earliestAvailableTime t' = earliestAvailableTime liveTracker)
      /\ (forall first rest,
            segments t' = first :: rest ->
            earliestAvailableTime t' = Some (timestamp first))).
Proof.
  split; [reflexivity|]. split; [reflexivity|].
  apply (addSegment_bounds_after_eviction steadyClock segA liveTracker);
    reflexivity.
Defined.

(** C7, counterexample.  After [stopTracking()] on a tracker that holds a
    segment, the segment is still there and the bounds and the session start
    still hold their values. *)
Lemma stopTracking_keeps_timeline :
  let t := stopTracking trackerWithA in
  isLive t = false
  /\ urls t = ["https://h/a.ts"]
  /\ segments t <> []
  /\ earliestAvailableTime t <> None
  /\ latestAvailableTime t <> None
  /\ streamStartTime t <> None.
Proof.
  cbv zeta. split; [reflexivity|]. split; [reflexivity|].
  repeat split; vm_compute; discriminate.
Qed.


(** C9, the failing input.  In this manifest the duration line of the second
    segment is [#EXTINF:abc,].  Both segments are inserted and the parse runs
    to its end, but the second segment gets 4000 ms, the duration parsed for
    the first one, and not the nominal 2000 ms: [currentDuration] is not
    reset when a duration line fails to parse. *)
Theorem malformed_duration_keeps_previous_duration :
  segmentDuration liveTracker == 2000
  /\ match processPlaylist steadyClock joinURL staleDurationManifest
           "https://h/live.m3u8" liveTracker with
     | Completed t =>
         match segments t with
         | [a; b] =>
             url a = "https://h/a.ts" /\ sequence a = 7%Z /\ duration a == 4000
             /\ url b = "https://h/b.ts" /\ sequence b = 8%Z
             /\ duration b == 4000
             /\ ~ duration b == segmentDuration t
         | _ => False
         end
     | Threw _ => False
     end.
Proof.
  split; [reflexivity|].
  vm_compute. repeat split; try reflexivity. intro H. discriminate H.
Qed.

End TrackerScenarios.

(** ** The seek controller *)

Section SeekFacts.

Import Controller SeekScenario.

Lemma handleSeek_out_of_buffer (w : World) (pct : Q) (c : DVRController) :
  OutOfBuffer w pct c ->
  handleSeek w pct c = switchToVod w (targetSecondsFromStart w pct c) c.
Proof.
  unfold OutOfBuffer, secondsBehindLive, bufferSpan, targetSecondsFromStart.
  intros (Hpct & Hfar & Hout).
  apply leb_false_iff in Hpct. apply ltb_false_iff in Hfar.
  apply leb_false_iff in Hout.
  unfold handleSeek. cbv zeta. rewrite Hpct, Hfar, Hout. reflexivity.
Qed.

Lemma handleSeek_near_live (w : World) (pct : Q) (c : DVRController) :
  98 <= pct \/ secondsBehindLive w pct c < 5 ->
  handleSeek w pct c = handleGoLive w c.
Proof.
  unfold secondsBehindLive. intro H.
  unfold handleSeek. cbv zeta.
  destruct H as [H|H].
  - apply leb_true_iff in H. rewrite H. reflexivity.
  - apply ltb_true_iff in H. rewrite H, orb_true_r. reflexivity.
Qed.

(** Functions of the recorded path never write the position of the native
    element. *)
Ltac split_cases :=
  repeat match goal with
         | |- context [match ?x with _ => _ end] => destruct x eqn:?
         | |- context [if ?x then _ else _] => destruct x eqn:?
         end.

Lemma refreshVodInfo_native (w : World) (c : DVRController) :
  playerElement (refreshVodInfo w c) = playerElement c.
Proof. unfold refreshVodInfo. split_cases; reflexivity. Qed.

Lemma createVodOverlay_native (w : World) (c : DVRController) :
  playerElement (createVodOverlay w c) = playerElement c.
Proof. unfold createVodOverlay. split_cases; reflexivity. Qed.

Lemma writeEmbedContent_native (e : EmbedContent) (c : DVRController) :
  playerElement (writeEmbedContent e c) = playerElement c.
Proof. unfold writeEmbedContent. destruct (vodOverlay c); reflexivity. Qed.

Lemma createVodIframe_native (vodId : string) (startTime : Q) (c : DVRController) :
  playerElement (createVodIframe vodId startTime c) = playerElement c.
Proof.
  unfold createVodIframe.
  destruct (negb (embedContainerFound c)); [reflexivity|].
  cbv zeta. cbn [playerElement set_vodEmbedLoaded call].
  rewrite writeEmbedContent_native. cbn [playerElement set_lastVodId].
  apply writeEmbedContent_native.
Qed.

Lemma initVodEmbed_native (w : World) (vodId : string) (startTime : Q)
    (c : DVRController) :
  playerElement (initVodEmbed w vodId startTime c) = playerElement c.
Proof.
  unfold initVodEmbed.
  destruct (vodPlayer c) as [player|];
    destruct (match lastVodId c with Some l => l =? vodId | None => false end);
    try (destruct (hasSeek player); [reflexivity|destruct (hasSetVideo player); reflexivity]);
    destruct (twitchEmbed w); try apply createVodIframe_native;
    (destruct (negb (embedContainerFound c)); [reflexivity|]);
    cbv zeta; rewrite ?createVodIframe_native;
    repeat (cbn [playerElement set_vodPlayer set_embedsBuilt call set_lastVodId];
            rewrite ?writeEmbedContent_native);
    reflexivity.
Qed.

Lemma switchToVod_native (w : World) (pos : Q) (c : DVRController) :
  nativePosition (switchToVod w pos c) = nativePosition c
  /\ nativeBuffered (switchToVod w pos c) = nativeBuffered c.
Proof.
  unfold nativePosition, nativeBuffered, switchToVod.
  set (c1 := if negb (JS.truthyOptStr (currentVodId c))
             then refreshVodInfo w c else c).
  assert (H1 : playerElement c1 = playerElement c).
  { unfold c1. destruct (negb _); [apply refreshVodInfo_native|reflexivity]. }
  rewrite <- H1. clearbody c1. clear H1 c.
  destruct (currentVodId c1) as [vodId|]; [|split; reflexivity].
  destruct (negb (JS.truthyStr vodId)); [split; reflexivity|].
  set (c2 := if negb (isWatchingVod c1)
             then showNotification msgVodLoading c1 else c1).
  assert (H2 : playerElement c2 = playerElement c1).
  { unfold c2. destruct (negb _); reflexivity. }
  rewrite <- H2. clearbody c2. clear H2 c1.
  set (c3 := match vodOverlay c2 with
             | None => createVodOverlay w c2
             | Some _ => c2
             end).
  assert (H3 : playerElement c3 = playerElement c2).
  { unfold c3. destruct (vodOverlay c2); [reflexivity|apply createVodOverlay_native]. }
  rewrite <- H3. clearbody c3. clear H3 c2.
  set (c4 := initVodEmbed w vodId (Qmax 0 (pos - 5)) c3).
  assert (H4 : playerElement c4 = playerElement c3) by apply initVodEmbed_native.
  rewrite <- H4. clearbody c4. clear H4 c3.
  destruct (vodOverlay c4) as [o|] eqn:Ho; [|split; reflexivity].
  unfold writeDisplay. rewrite Ho.
  unfold writeMuted. cbn.
  destruct (playerElement c4) eqn:Hp; cbn; rewrite ?Hp; split; reflexivity.
Qed.

(** C2.  With [E] the elapsed time, [B] the span of the native buffer and
    [behind = E - E * pct / 100]: when [pct < 98], [behind >= 5] and
    [behind > B], [handleSeek(pct)] does what [switchToVod(E * pct / 100)]
    does, and the position and the buffered ranges of the native element
    are left as they are (no seek in the native buffer).  In particular
    with [E = 3600] and [B = 80], [handleSeek(50)] takes that path. *)
Theorem handleSeek_selects_recorded :
  (forall (w : World) (pct : Q) (c : DVRController),
      let E := getElapsedTime w c in
      let B := bi_duration (getBufferInfo c) in
      let behind := E - E * pct / 100 in
      pct < 98 -> 5 <= behind -> B < behind ->
      handleSeek w pct c = switchToVod w (E * pct / 100) c
      /\ nativePosition (handleSeek w pct c) = nativePosition c
      /\ nativeBuffered (handleSeek w pct c) = nativeBuffered c)
  /\ (forall (w : World) (c : DVRController),
        getElapsedTime w c == 3600 ->
        bi_duration (getBufferInfo c) == 80 ->
        handleSeek w 50 c = switchToVod w (getElapsedTime w c * 50 / 100) c).
Proof.
  split.
  - intros w pct c E B behind Hpct Hfar Hout.
    assert (Hoob : OutOfBuffer w pct c) by (repeat split; assumption).
    rewrite (handleSeek_out_of_buffer w pct c Hoob).
    split; [reflexivity|]. apply switchToVod_native.
  - intros w c HE HB.
    apply (handleSeek_out_of_buffer w 50 c).
    unfold OutOfBuffer, secondsBehindLive, bufferSpan.
    rewrite HB.
    setoid_replace (getElapsedTime w c - getElapsedTime w c * 50 / 100)
      with 1800 by (rewrite HE; reflexivity).
    split; [reflexivity|]. split; [discriminate|reflexivity].
Qed.

(** C3.  When [pct >= 98] or [behind = E - E * pct / 100] is below 5,
    [handleSeek(pct)] does what [handleGoLive()] does and nothing else; so
    do [handleSeek(99)] and [handleSeek(100)] in every state and on every
    page.  [handleGoLive] leaves the controller not watching the VOD, keeps
    the embed handle, its recording id and the content of the overlay, calls
    nothing on the secondary source (at most the "back to live" notice or
    a click on the native live button), and the only position it writes to
    the native element is the newest point of its buffer. *)
Theorem handleSeek_near_live_goes_live :
  (forall (w : World) (pct : Q) (c : DVRController),
      98 <= pct \/ getElapsedTime w c - getElapsedTime w c * pct / 100 < 5 ->
      handleSeek w pct c = handleGoLive w c)
  /\ (forall (w : World) (c : DVRController),
        handleSeek w 99 c = handleGoLive w c
        /\ handleSeek w 100 c = handleGoLive w c)
  /\ (forall (w : World) (c : DVRController),
        let c' := handleGoLive w c in
        isWatchingVod c' = false
        /\ vodPlayer c' = vodPlayer c
        /\ lastVodId c' = lastVodId c
        /\ currentVodId c' = currentVodId c
        /\ embedsBuilt c' = embedsBuilt c
        /\ option_map embedContent (vodOverlay c')
           = option_map embedContent (vodOverlay c)
        /\ calls c'
           = (calls c
              ++ (if isWatchingVod c then [ShowNotification msgBackToLive]
                  else if liveButton w then [LiveButtonClick] else []))%list
        /\ nativePosition c'
           = match liveEdge c with
             | Some live => Some live
             | None => nativePosition c
             end).
Proof.
  split; [|split].
  - intros w pct c H. apply handleSeek_near_live. exact H.
  - intros w c. split; apply handleSeek_near_live; left; discriminate.
  - intros w c. cbv zeta.
    unfold handleGoLive, switchToLive, liveEdge, nativePosition,
      showNotification, writeDisplay, writeMuted, writeCurrentTime.
    destruct (isWatchingVod c) eqn:Hw; destruct (vodOverlay c) as [o|] eqn:Ho;
      destruct (playerElement c) as [v|] eqn:Hp;
      try destruct (lastBufferedEnd v) as [live|] eqn:Hl;
      destruct (liveButton w) eqn:Hb;
      repeat (progress (cbn; rewrite ?Hw, ?Ho, ?Hp, ?Hl, ?Hb, ?app_nil_r));
      repeat split; reflexivity.
Qed.

(** C8.  An out-of-buffer seek made while no recording id is known, and for
    which the one resolution attempt brings none (no channel to query, or an
    answer without a recording id), shows the "VOD not available" notice and
    changes nothing else: [isWatchingVod], the embed handle, the overlay,
    the native element and the recording id are as before. *)
Theorem unresolved_recording_leaves_state (w : World) (pct : Q) (c : DVRController) :
  OutOfBuffer w pct c ->
  JS.truthyOptStr (currentVodId c) = false ->
  JS.truthyOptStr (currentChannel c) = false
  \/ JS.truthyOptStr (fetchedVodId w) = false ->
  let c' := handleSeek w pct c in
  c' = showNotification msgVodUnavailable c
  /\ calls c' = (calls c ++ [ShowNotification msgVodUnavailable])%list
  /\ isWatchingVod c' = isWatchingVod c
  /\ vodPlayer c' = vodPlayer c
  /\ vodOverlay c' = vodOverlay c
  /\ lastVodId c' = lastVodId c
  /\ embedsBuilt c' = embedsBuilt c
  /\ playerElement c' = playerElement c
  /\ currentVodId c' = currentVodId c.
Proof.
  intros Hoob Hnone Hfail c'.
  assert (Heq : c' = showNotification msgVodUnavailable c).
  { unfold c'. rewrite (handleSeek_out_of_buffer w pct c Hoob).
    unfold switchToVod. rewrite Hnone. cbn [negb].
    assert (Hrefresh : refreshVodInfo w c = c).
    { unfold refreshVodInfo.
      destruct Hfail as [H|H]; rewrite H; cbn [negb];
        [reflexivity|destruct (negb _); reflexivity]. }
    rewrite Hrefresh.
    destruct (currentVodId c) as [vodId|]; [|reflexivity].
    cbn in Hnone. rewrite Hnone. reflexivity. }
  rewrite Heq. repeat split.
Qed.

(** *** Reuse of the embed handle *)

(** [switchToVod] once the recording id is known. *)
Lemma switchToVod_resolved (w : World) (pos : Q) (c : DVRController)
    (vodId : string) :
  currentVodId c = Some vodId -> JS.truthyStr vodId = true ->
  switchToVod w pos c
  = let c := if negb (isWatchingVod c)
             then showNotification msgVodLoading c else c in
    let c := match vodOverlay c with
             | None => createVodOverlay w c
             | Some _ => c
             end in
    let c := initVodEmbed w vodId (Qmax 0 (pos - 5)) c in
    match vodOverlay c with
    | Some _ => writeMuted true (set_isWatchingVod true (writeDisplay true c))
    | None => c
    end.
Proof.
  intros Hid Htruthy. unfold switchToVod. cbv zeta.
  rewrite Hid. cbn [JS.truthyOptStr]. rewrite Htruthy. cbn [negb].
  rewrite Hid, Htruthy. cbn [negb].
  match goal with
  | |- match vodOverlay ?x with _ => _ end = _ => destruct (vodOverlay x) eqn:Ho
  end; [|reflexivity].
  unfold writeMuted. cbn.
  match goal with
  | |- context [playerElement ?x] => destruct (playerElement x)
  end; reflexivity.
Qed.

(** The state in which [switchToVod] calls [initVodEmbed], when the embed
    container is in reach. *)
Lemma before_initVodEmbed (w : World) (c : DVRController) :
  ContainerInReach w c ->
  let c2 := if negb (isWatchingVod c)
            then showNotification msgVodLoading c else c in
  let c3 := match vodOverlay c2 with
            | None => createVodOverlay w c2
            | Some _ => c2
            end in
  vodOverlay c3 = Some match vodOverlay c with
                       | Some o => o
                       | None => mkOverlay false NoEmbed
                       end
  /\ overlayConnected c3 = true
  /\ vodPlayer c3 = vodPlayer c
  /\ lastVodId c3 = lastVodId c
  /\ currentVodId c3 = currentVodId c
  /\ embedsBuilt c3 = embedsBuilt c
  /\ playerElement c3 = playerElement c
  /\ calls c3
     = (calls c
        ++ (if isWatchingVod c then [] else [ShowNotification msgVodLoading])
        ++ (match vodOverlay c with Some _ => [] | None => [OverlayCreate] end))%list.
Proof.
  intros Hreach c2 c3. unfold ContainerInReach in Hreach.
  unfold c3, c2, createVodOverlay, showNotification.
  destruct (vodOverlay c) as [o|] eqn:Ho.
  - destruct (isWatchingVod c); cbn [negb];
      repeat (progress (cbn; rewrite ?Ho, ?app_nil_r));
      (split; [reflexivity|]); (split; [exact Hreach|]);
      repeat split; reflexivity.
  - destruct (isWatchingVod c); cbn [negb];
      repeat (progress (cbn; rewrite ?Ho, ?Hreach, ?app_nil_r, <- ?app_assoc));
      repeat split; reflexivity.
Qed.

(** [initVodEmbed] when no stored handle is bound to the requested
    recording: the reuse branch is not taken. *)
Lemma initVodEmbed_not_bound (w : World) (vodId : string) (startTime : Q)
    (c : DVRController) :
  ~ BoundTo vodId c ->
  initVodEmbed w vodId startTime c
  = match twitchEmbed w with
    | EmbedMissing => createVodIframe vodId startTime c
    | api =>
        if negb (embedContainerFound c) then c
        else
          let c := writeEmbedContent NoEmbed c in
          let c := set_lastVodId (Some vodId) c in
          let c := call (EmbedConstruct vodId startTime) c in
          match api with
          | EmbedWorks seek setVideo =>
              let h := mkEmbedHandle (embedsBuilt c) vodId seek setVideo in
              let c := set_embedsBuilt (S (embedsBuilt c)) c in
              let c := writeEmbedContent (EmbedFrame (handleId h)) c in
              set_vodPlayer (Some h) c
          | _ => createVodIframe vodId startTime c
          end
    end.
Proof.
  intro Hfree. unfold initVodEmbed.
  destruct (vodPlayer c) as [h|] eqn:Hp; [|reflexivity].
  destruct (lastVodId c) as [l|] eqn:Hl; [|reflexivity].
  destruct (l =? vodId) eqn:He; [|reflexivity].
  apply String.eqb_eq in He. subst l.
  contradiction Hfree. split; [rewrite Hp; discriminate|exact Hl].
Qed.

(** [initVodEmbed] on a stored handle bound to the requested recording: one
    [seek] on that handle, whatever the page offers. *)
Lemma initVodEmbed_reuse (w : World) (vodId : string) (startTime : Q)
    (c : DVRController) (h : EmbedHandle) :
  vodPlayer c = Some h -> lastVodId c = Some vodId -> hasSeek h = true ->
  initVodEmbed w vodId startTime c = call (EmbedSeek (handleId h) startTime) c.
Proof.
  intros Hp Hl Hs. unfold initVodEmbed.
  rewrite Hp, Hl, String.eqb_refl, Hs. reflexivity.
Qed.

(** An out-of-buffer seek in a state whose stored handle is bound to the
    current recording id. *)
Lemma handleSeek_reuses_handle (w : World) (pct : Q) (c : DVRController)
    (h : EmbedHandle) (vodId : string) (o : Overlay) :
  OutOfBuffer w pct c ->
  currentVodId c = Some vodId -> JS.truthyStr vodId = true ->
  vodPlayer c = Some h -> lastVodId c = Some vodId -> hasSeek h = true ->
  vodOverlay c = Some o ->
  let c' := handleSeek w pct c in
  vodPlayer c' = Some h
  /\ lastVodId c' = Some vodId
  /\ embedsBuilt c' = embedsBuilt c
  /\ vodOverlay c' = Some (mkOverlay true (embedContent o))
  /\ isWatchingVod c' = true
  /\ calls c'
     = (calls c
        ++ (if isWatchingVod c then [] else [ShowNotification msgVodLoading])
        ++ [EmbedSeek (handleId h) (adjustedPosition w pct c)])%list.
Proof.
  intros Hoob Hid Htruthy Hp Hl Hs Ho c'. unfold c'.
  rewrite (handleSeek_out_of_buffer w pct c Hoob).
  unfold switchToVod, adjustedPosition. cbv zeta.
  set (pos := Qmax 0 (targetSecondsFromStart w pct c - 5)).
  rewrite Hid. cbn [JS.truthyOptStr]. rewrite Htruthy. cbn [negb].
  rewrite Hid, Htruthy. cbn [negb].
  destruct (isWatchingVod c) eqn:Hw; cbn [negb].
  - rewrite Ho, (initVodEmbed_reuse w vodId pos c h Hp Hl Hs).
    unfold writeDisplay, writeMuted. cbn. rewrite Ho. cbn.
    destruct (playerElement c); cbn; rewrite ?Hp, ?Hl; repeat split; reflexivity.
  - set (c2 := showNotification msgVodLoading c).
    assert (Ho2 : vodOverlay c2 = Some o) by exact Ho.
    assert (Hp2 : vodPlayer c2 = Some h) by exact Hp.
    assert (Hl2 : lastVodId c2 = Some vodId) by exact Hl.
    rewrite Ho2, (initVodEmbed_reuse w vodId pos c2 h Hp2 Hl2 Hs).
    unfold c2, showNotification, writeDisplay, writeMuted. cbn. rewrite Ho. cbn.
    destruct (playerElement c); cbn; rewrite ?Hp, ?Hl, <- ?app_assoc;
      repeat split; reflexivity.
Qed.

(** An out-of-buffer seek for a known recording to which no stored handle
    is bound, on a page where the Embed constructor works and with the embed
    container in reach: the handle is built and stored. *)
Lemma handleSeek_builds_handle (w : World) (pct : Q) (c : DVRController)
    (vodId : string) (seek setVideo : bool) :
  OutOfBuffer w pct c ->
  currentVodId c = Some vodId -> JS.truthyStr vodId = true ->
  ~ BoundTo vodId c ->
  twitchEmbed w = EmbedWorks seek setVideo ->
  ContainerInReach w c ->
  let c' := handleSeek w pct c in
  vodPlayer c' = Some (mkEmbedHandle (embedsBuilt c) vodId seek setVideo)
  /\ lastVodId c' = Some vodId
  /\ currentVodId c' = Some vodId
  /\ embedsBuilt c' = S (embedsBuilt c)
  /\ vodOverlay c' = Some (mkOverlay true (EmbedFrame (embedsBuilt c)))
  /\ isWatchingVod c' = true
  /\ In (EmbedConstruct vodId (adjustedPosition w pct c)) (calls c').
Proof.
  intros Hoob Hid Htruthy Hfree Hapi Hreach c'. unfold c'.
  rewrite (handleSeek_out_of_buffer w pct c Hoob).
  rewrite (switchToVod_resolved w _ c vodId Hid Htruthy).
  unfold adjustedPosition.
  set (pos := Qmax 0 (targetSecondsFromStart w pct c - 5)).
  pose proof (before_initVodEmbed w c Hreach) as H3. cbv zeta in H3 |- *.
  set (c3 := match vodOverlay (if negb (isWatchingVod c)
                               then showNotification msgVodLoading c else c) with
             | Some _ => _
             | None => _
             end) in *.
  destruct H3 as (Ho3 & Hconn3 & Hp3 & Hl3 & Hid3 & Hn3 & _ & _).
  assert (Hfree3 : ~ BoundTo vodId c3)
    by (unfold BoundTo; rewrite Hp3, Hl3; exact Hfree).
  rewrite Hid in Hid3. rewrite <- Hn3. clearbody c3.
  rewrite (initVodEmbed_not_bound w vodId pos c3 Hfree3), Hapi.
  unfold embedContainerFound. rewrite Ho3, Hconn3. cbn [negb]. cbv zeta.
  unfold writeEmbedContent, writeDisplay, writeMuted.
  repeat (progress (cbn; rewrite ?Ho3)).
  destruct (playerElement c3) eqn:Hv;
    repeat (progress (cbn; rewrite ?Ho3, ?Hv));
    repeat split; try reflexivity; try exact Hid3;
    apply in_or_app; right; left; reflexivity.
Qed.

(** A stored handle bound to the requested recording is never replaced. *)
Lemma initVodEmbed_keeps_bound_handle (w : World) (vodId : string)
    (startTime : Q) (c : DVRController) (h : EmbedHandle) :
  vodPlayer c = Some h -> lastVodId c = Some vodId ->
  let c' := initVodEmbed w vodId startTime c in
  vodPlayer c' = Some h
  /\ lastVodId c' = Some vodId
  /\ embedsBuilt c' = embedsBuilt c
  /\ vodOverlay c' = vodOverlay c
  /\ (calls c' = calls c
      \/ calls c' = (calls c ++ [EmbedSeek (handleId h) startTime])%list).
Proof.
  intros Hp Hl. unfold initVodEmbed. rewrite Hp, Hl, String.eqb_refl.
  destruct (hasSeek h); [|destruct (hasSetVideo h)]; cbn;
    rewrite ?Hp, ?Hl; repeat split; auto.
Qed.

(** C4, as the code has it.  Take two out-of-buffer seeks of a session for
    the same recording id, the first one made while no stored handle is
    bound to that id (none stored, or one of another recording), on a page
    whose Embed constructor works and returns an object with a [seek]
    method, and with the embed container in reach of the lookup: the overlay
    is in the document, or there is none yet and the page has the player
    container to build it in.  Whatever happens to the other fields in
    between, as long as the handle, the id it is bound to, the recording id
    and the overlay field stay: the first seek constructs the handle and
    stores it; the second calls [seek] on that same handle with
    the new position and constructs nothing: apart from the "loading"
    notice, shown when the viewer had returned to live, that [seek] is its
    only call, and the stored handle, the count of handles built and the
    content of the overlay are unchanged.  More generally [initVodEmbed]
    never replaces a stored handle that is bound to the requested recording
    id: a new secondary source is built only when no handle is stored or
    when the id differs. *)
Theorem second_seek_reuses_embed_handle :
  (forall (w1 w2 : World) (pct1 pct2 : Q) (c0 c1' : DVRController)
          (vodId : string) (setVideo : bool) (o : Overlay),
      OutOfBuffer w1 pct1 c0 ->
      currentVodId c0 = Some vodId -> JS.truthyStr vodId = true ->
      ~ BoundTo vodId c0 ->
      twitchEmbed w1 = EmbedWorks true setVideo ->
      ContainerInReach w1 c0 ->
      let c1 := handleSeek w1 pct1 c0 in
      vodPlayer c1' = vodPlayer c1 ->
      lastVodId c1' = lastVodId c1 ->
      currentVodId c1' = currentVodId c1 ->
      vodOverlay c1' = Some o ->
      OutOfBuffer w2 pct2 c1' ->
      let c2 := handleSeek w2 pct2 c1' in
      let h := mkEmbedHandle (embedsBuilt c0) vodId true setVideo in
      vodPlayer c1 = Some h
      /\ In (EmbedConstruct vodId (adjustedPosition w1 pct1 c0)) (calls c1)
      /\ vodPlayer c2 = Some h
      /\ lastVodId c2 = Some vodId
      /\ embedsBuilt c2 = embedsBuilt c1'
      /\ option_map embedContent (vodOverlay c2) = Some (embedContent o)
      /\ isWatchingVod c2 = true
      /\ calls c2
         = (calls c1'
            ++ (if isWatchingVod c1' then [] else [ShowNotification msgVodLoading])
            ++ [EmbedSeek (handleId h) (adjustedPosition w2 pct2 c1')])%list)
  /\ (forall (w : World) (vodId : string) (startTime : Q) (c : DVRController)
             (h : EmbedHandle),
        vodPlayer c = Some h -> lastVodId c = Some vodId ->
        let c' := initVodEmbed w vodId startTime c in
        vodPlayer c' = Some h
        /\ embedsBuilt c' = embedsBuilt c
        /\ vodOverlay c' = vodOverlay c
        /\ Forall (fun x => kind x <> KEmbedConstruct /\ kind x <> KIframeCreate
                            /\ kind x <> KOverlayCreate)
                  (skipn (List.length (calls c)) (calls c'))).
Proof.
  split.
  - intros w1 w2 pct1 pct2 c0 c1' vodId setVideo o
      Hoob1 Hid Htruthy Hnone Hapi Hov c1 Hp' Hl' Hid' Ho' Hoob2 c2 h.
    destruct (handleSeek_builds_handle w1 pct1 c0 vodId true setVideo
                Hoob1 Hid Htruthy Hnone Hapi Hov)
      as (Hp1 & Hl1 & Hid1 & _ & _ & _ & Hcall).
    fold c1 in Hp1, Hl1, Hid1, Hcall. fold h in Hp1.
    rewrite Hp1 in Hp'. rewrite Hl1 in Hl'. rewrite Hid1 in Hid'.
    destruct (handleSeek_reuses_handle w2 pct2 c1' h vodId o
                Hoob2 Hid' Htruthy Hp' Hl' eq_refl Ho')
      as (Hp2 & Hl2 & Hn2 & Ho2 & Hw2 & Hcalls).
    fold c2 in Hp2, Hl2, Hn2, Ho2, Hw2, Hcalls.
    split; [exact Hp1|]. split; [exact Hcall|]. split; [exact Hp2|].
    split; [exact Hl2|]. split; [exact Hn2|].
    split; [rewrite Ho2; reflexivity|]. split; [exact Hw2|exact Hcalls].
  - intros w vodId startTime c h Hp Hl c'.
    destruct (initVodEmbed_keeps_bound_handle w vodId startTime c h Hp Hl)
      as (Hp' & _ & Hn & Ho & Hcalls).
    fold c' in Hp', Hn, Ho, Hcalls.
    split; [exact Hp'|]. split; [exact Hn|]. split; [exact Ho|].
    destruct Hcalls as [Hsame|Hseek].
    + rewrite Hsame, skipn_all. constructor.
    + rewrite Hseek, skipn_app, skipn_all, Nat.sub_diag. cbn.
      constructor; [|constructor]. repeat split; discriminate.
Qed.

End SeekFacts.

(** *** The controller one hour into a session *)

Section SeekScenarios.

Import Controller SeekScenario.

Lemma hourIn_elapsed : getElapsedTime pageWithEmbed hourIn == 3600.
Proof. vm_compute. reflexivity. Qed.

Lemma hourIn_span : bi_duration (getBufferInfo hourIn) == 80.
Proof. vm_compute. reflexivity. Qed.

Lemma hourIn_half_out_of_buffer (w : World) :
  now w = now pageWithEmbed -> OutOfBuffer w 50 hourIn.
Proof.
  intro Hnow. unfold OutOfBuffer, secondsBehindLive, bufferSpan, getElapsedTime.
  rewrite Hnow.
  split; [reflexivity|]. split; [vm_compute; discriminate|vm_compute; reflexivity].
Qed.

Lemma handleSeek_selects_recorded_witness :
  getElapsedTime pageWithEmbed hourIn == 3600
  /\ bi_duration (getBufferInfo hourIn) == 80
  /\ 50 < 98
  /\ 5 <= getElapsedTime pageWithEmbed hourIn
          - getElapsedTime pageWithEmbed hourIn * 50 / 100
  /\ bi_duration (getBufferInfo hourIn)
     < getElapsedTime pageWithEmbed hourIn
       - getElapsedTime pageWithEmbed hourIn * 50 / 100
  /\ handleSeek pageWithEmbed 50 hourIn
     = switchToVod pageWithEmbed
         (getElapsedTime pageWithEmbed hourIn * 50 / 100) hourIn
  /\ nativePosition (handleSeek pageWithEmbed 50 hourIn) = nativePosition hourIn
  /\ nativeBuffered (handleSeek pageWithEmbed 50 hourIn) = nativeBuffered hourIn.
Proof.
  destruct (hourIn_half_out_of_buffer pageWithEmbed eq_refl) as (H1 & H2 & H3).
  split; [exact hourIn_elapsed|]. split; [exact hourIn_span|].
  split; [exact H1|]. split; [exact H2|]. split; [exact H3|].
  exact (proj1 handleSeek_selects_recorded pageWithEmbed 50 hourIn H1 H2 H3).
Defined.

Lemma handleSeek_near_live_goes_live_witness :
  98 <= 99
  /\ handleSeek pageWithEmbed 99 hourIn = handleGoLive pageWithEmbed hourIn
  /\ nativePosition (handleGoLive pageWithEmbed hourIn) = Some 180
  /\ map kind (calls (handleGoLive pageWithEmbed hourIn)) = [KLiveButtonClick].
Proof.
  assert (H : 98 <= 99) by discriminate.
  split; [exact H|]. split.
  - exact (proj1 handleSeek_near_live_goes_live pageWithEmbed 99 hourIn
             (or_introl H)).
  - split; reflexivity.
Defined.

Lemma unresolved_recording_leaves_state_witness :
  OutOfBuffer pageWithEmbed 50 hourInNoVod
  /\ JS.truthyOptStr (currentVodId hourInNoVod) = false
  /\ JS.truthyOptStr (fetchedVodId pageWithEmbed) = false
  /\ handleSeek pageWithEmbed 50 hourInNoVod
     = showNotification msgVodUnavailable hourInNoVod
  /\ isWatchingVod (handleSeek pageWithEmbed 50 hourInNoVod) = false
  /\ vodPlayer (handleSeek pageWithEmbed 50 hourInNoVod) = None
  /\ vodOverlay (handleSeek pageWithEmbed 50 hourInNoVod) = None.
Proof.
  assert (Hoob : OutOfBuffer pageWithEmbed 50 hourInNoVod)
    by exact (hourIn_half_out_of_buffer pageWithEmbed eq_refl).
  destruct (unresolved_recording_leaves_state pageWithEmbed 50 hourInNoVod
              Hoob eq_refl (or_intror eq_refl))
    as (Heq & _ & Hw & Hp & Ho & _).
  split; [exact Hoob|]. split; [reflexivity|]. split; [reflexivity|].
  split; [exact Heq|]. split; [exact Hw|]. split; [exact Hp|exact Ho].
Defined.

(** The state after a first seek to the middle of the session on a page
    with the Embed API. *)
Lemma afterFirstSeek_quarter_out_of_buffer :
  OutOfBuffer pageWithEmbed 25 (handleSeek pageWithEmbed 50 hourIn).
Proof.
  unfold OutOfBuffer, secondsBehindLive, bufferSpan.
  split; [reflexivity|]. split; [vm_compute; discriminate|vm_compute; reflexivity].
Qed.

Lemma second_seek_reuses_embed_handle_witness :
  let c1 := handleSeek pageWithEmbed 50 hourIn in
  let c2 := handleSeek pageWithEmbed 25 c1 in
  OutOfBuffer pageWithEmbed 50 hourIn
  /\ OutOfBuffer pageWithEmbed 25 c1
  /\ currentVodId hourIn = Some "v123"
  /\ vodPlayer hourIn = None
  /\ vodPlayer c1 = Some (mkEmbedHandle 0 "v123" true true)
  /\ vodPlayer c2 = Some (mkEmbedHandle 0 "v123" true true)
  /\ embedsBuilt c2 = embedsBuilt c1
  /\ map kind (calls c1) = [KNotify; KOverlayCreate; KEmbedConstruct]
  /\ calls c2
     = (calls c1 ++ [EmbedSeek 0 (adjustedPosition pageWithEmbed 25 c1)])%list.
Proof.
  intros c1 c2.
  assert (H1 : OutOfBuffer pageWithEmbed 50 hourIn)
    by exact (hourIn_half_out_of_buffer pageWithEmbed eq_refl).
  assert (H2 : OutOfBuffer pageWithEmbed 25 c1)
    by exact afterFirstSeek_quarter_out_of_buffer.
  destruct (proj1 second_seek_reuses_embed_handle pageWithEmbed pageWithEmbed 50 25
              hourIn c1 "v123" true (mkOverlay true (EmbedFrame 0))
              H1 eq_refl eq_refl (fun bound => proj1 bound eq_refl)
              eq_refl eq_refl
              eq_refl eq_refl eq_refl eq_refl H2)
    as (Hp1 & _ & Hp2 & _ & Hn & _ & _ & Hcalls).
  split; [exact H1|]. split; [exact H2|]. split; [reflexivity|].
  split; [reflexivity|]. split; [exact Hp1|]. split; [exact Hp2|].
  split; [exact Hn|]. split; [reflexivity|exact Hcalls].
Defined.

(** C4, counterexample.  The Embed API is not loaded: the first seek builds
    the fallback iframe and stores no handle, and the second seek for the
    same recording id builds the iframe again; no [seek] is called. *)
Lemma second_seek_rebuilds_fallback_iframe :
  let c1 := handleSeek pageWithoutEmbed 50 hourIn in
  let c2 := handleSeek pageWithoutEmbed 50 c1 in
  OutOfBuffer pageWithoutEmbed 50 hourIn
  /\ OutOfBuffer pageWithoutEmbed 50 c1
  /\ currentVodId hourIn = Some "v123"
  /\ currentVodId c1 = Some "v123"
  /\ vodPlayer c1 = None
  /\ map kind (calls c1) = [KNotify; KOverlayCreate; KIframeCreate]
  /\ vodPlayer c2 = None
  /\ map kind (calls c2)
     = [KNotify; KOverlayCreate; KIframeCreate; KIframeCreate]
  /\ ~ In KEmbedSeek (map kind (calls c2)).
Proof.
  cbv zeta.
  split; [exact (hourIn_half_out_of_buffer pageWithoutEmbed eq_refl)|].
  split.
  { unfold OutOfBuffer, secondsBehindLive, bufferSpan.
    split; [reflexivity|].
    split; [vm_compute; discriminate|vm_compute; reflexivity]. }
  repeat (split; [reflexivity|]).
  vm_compute. intros [H|[H|[H|[H|[]]]]]; discriminate H.
Qed.

End SeekScenarios.

(** ** Sessions of the tracker *)

Section TimelineFacts.

Import Tracker Scenario Timeline.

Variable clock : nat -> Q.
Variable resolveURL : string -> string -> option string.
Hypothesis clock_monotone : MonotoneClock clock.

Lemma lastRead_le_next (t : DVRTracker) : lastRead clock t <= clock (ticks t).
Proof. apply clock_monotone. lia. Qed.

Lemma addSegment_ticks (info : SegmentInfo) (t : DVRTracker) :
  isLive t = true -> isEnabled t = true ->
  ticks (addSegment clock info t) = S (S (ticks t))
  /\ maxBufferDuration (addSegment clock info t) = maxBufferDuration t
  /\ segmentDuration (addSegment clock info t) = segmentDuration t
  /\ isLive (addSegment clock info t) = true
  /\ isEnabled (addSegment clock info t) = true.
Proof.
  intros Hl He. rewrite (addSegment_unfold clock info t Hl He).
  unfold emitTimelineUpdate, emit, cleanupOldSegments, Date_now. cbn.
  match goal with |- context [filter ?f ?l] => destruct (filter f l) end;
    cbn; auto.
Qed.

Lemma sorted_timestamps_filter (keep : Segment -> bool) (segs : list Segment) :
  StronglySorted Qle (map timestamp segs) ->
  StronglySorted Qle (map timestamp (filter keep segs)).
Proof.
  induction segs as [|seg older IH]; cbn; intro Hs; [constructor|].
  inversion Hs as [|x xs Hrest Hall]; subst.
  destruct (keep seg); cbn; [constructor|]; auto.
  rewrite Forall_forall in *. intros x Hx.
  apply Hall. apply in_map_iff in Hx. destruct Hx as (s & Hs' & Hin).
  apply filter_In in Hin. apply in_map_iff. exists s. tauto.
Qed.

Lemma sorted_timestamps_push (seg : Segment) (segs : list Segment) :
  StronglySorted Qle (map timestamp segs) ->
  Forall (fun s => timestamp s <= timestamp seg) segs ->
  StronglySorted Qle (map timestamp (segs ++ [seg])).
Proof.
  induction segs as [|s older IH]; cbn; intros Hs Hall.
  - constructor; constructor.
  - inversion Hs as [|x xs Hrest Hle]; subst.
    inversion Hall as [|y ys Hy Hys]; subst.
    constructor; [auto|].
    rewrite map_app. apply Forall_app. split; [exact Hle|].
    constructor; [exact Hy|constructor].
Qed.

(** When the newest segment is evicted, so is every older one. *)
Lemma evicted_newest_evicts_all (cutoff : Q) (seg : Segment) (segs : list Segment) :
  Forall (fun s => timestamp s <= timestamp seg) segs ->
  JS.ltb cutoff (timestamp seg) = false ->
  filter (fun s => JS.ltb cutoff (timestamp s)) (segs ++ [seg]) = [].
Proof.
  intros Hall Hev. rewrite filter_app. cbn. rewrite Hev, app_nil_r.
  apply ltb_false_iff in Hev.
  induction Hall as [|s older Hs _ IH]; cbn; [reflexivity|].
  assert (Hd : JS.ltb cutoff (timestamp s) = false).
  { apply ltb_false_iff. eapply Qle_trans; eauto. }
  rewrite Hd. exact IH.
Qed.

Lemma addSegment_consistent (info : SegmentInfo) (t : DVRTracker) :
  Consistent clock t ->
  0 <= JS.orNum (si_duration info) (segmentDuration t) ->
  Consistent clock (addSegment clock info t).
Proof.
  intros Hc Hdur.
  destruct (isLive t) eqn:Hl; [destruct (isEnabled t) eqn:He|];
    try (rewrite addSegment_guard by auto; exact Hc).
  destruct (addSegment_ticks info t Hl He) as (Hticks & Hmax & Hnom & Hlive & _).
  destruct (addSegment_live clock info t Hl He) as (Hsegs & Hlatest & Hearliest).
  set (t' := addSegment clock info t) in *.
  set (seg := builtSegment clock info t) in *.
  set (cutoff := clock (S (ticks t)) - maxBufferDuration t) in *.
  assert (Hlast' : lastRead clock t' = clock (S (ticks t))).
  { unfold lastRead. rewrite Hticks. reflexivity. }
  assert (Hnow : timestamp seg = clock (ticks t)) by reflexivity.
  assert (Hstep : clock (ticks t) <= clock (S (ticks t)))
    by (apply clock_monotone; lia).
  assert (Hold : Forall (fun s => timestamp s <= timestamp seg) (segments t)).
  { eapply Forall_impl; [|exact (cons_past clock t Hc)].
    intros s Hs. cbn beta in Hs. rewrite Hnow.
    eapply Qle_trans; [exact Hs|apply lastRead_le_next]. }
  assert (Hin : forall s, In s (segments t') ->
                  (In s (segments t) \/ s = seg)
                  /\ cutoff < timestamp s).
  { intros s Hs. rewrite Hsegs in Hs. apply filter_In in Hs.
    destruct Hs as (Hs & Hk). apply ltb_true_iff in Hk.
    split; [|exact Hk]. apply in_app_or in Hs.
    destruct Hs as [Hs|[Hs|[]]]; auto. }
  assert (Hpast' : forall s, In s (segments t') -> timestamp s <= clock (ticks t)).
  { intros s Hs. destruct (Hin s Hs) as ([Hs'|Hs'] & _).
    - rewrite <- Hnow. rewrite Forall_forall in Hold. auto.
    - subst s. rewrite Hnow. apply Qle_refl. }
  constructor.
  - rewrite Hsegs. apply sorted_timestamps_filter, sorted_timestamps_push.
    + exact (cons_sorted clock t Hc).
    + exact Hold.
  - rewrite Hlast'. apply Forall_forall. intros s Hs.
    eapply Qle_trans; [apply Hpast'; exact Hs|exact Hstep].
  - rewrite Hlast', Hmax. apply Forall_forall. intros s Hs.
    apply (Hin s Hs).
  - apply Forall_forall. intros s Hs. destruct (Hin s Hs) as ([Hs'|Hs'] & _).
    + pose proof (cons_durations clock t Hc) as Hd.
      rewrite Forall_forall in Hd. auto.
    + subst s. exact Hdur.
  - rewrite Hnom. exact (cons_nominal clock t Hc).
  - rewrite Hearliest. destruct (segments t') as [|first rest] eqn:Hs'.
    + intros e He'. rewrite Hlast'.
      eapply Qle_trans; [|exact Hstep].
      eapply Qle_trans; [|apply lastRead_le_next].
      pose proof (cons_earliest clock t Hc) as Hce.
      destruct (segments t) as [|f0 r0] eqn:Hs0.
      * apply Hce. exact He'.
      * rewrite Hce in He'. inversion He'; subst.
        pose proof (cons_past clock t Hc) as Hp. rewrite Hs0 in Hp.
        inversion Hp; subst. assumption.
    + reflexivity.
  - intros older newest Hsplit. rewrite Hlatest.
    destruct (JS.ltb cutoff (timestamp seg)) eqn:Hk.
    + assert (Hf : segments t'
                   = (filter (fun s => JS.ltb cutoff (timestamp s)) (segments t)
                      ++ [seg])%list).
      { rewrite Hsegs, filter_app. cbn [filter]. rewrite Hk. reflexivity. }
      rewrite Hf in Hsplit.
      apply app_inj_tail in Hsplit. destruct Hsplit as (_ & Heq).
      subst newest. reflexivity.
    + pose proof (evicted_newest_evicts_all cutoff seg (segments t) Hold Hk)
        as Hnil.
      rewrite <- Hsegs, Hsplit in Hnil.
      destruct older; discriminate Hnil.
  - intros _. rewrite Hlatest, Hearliest. split; [|discriminate].
    destruct (segments t'); [|discriminate].
    apply (cons_live clock t Hc Hl).
  - intros e l He' Hl'. rewrite Hlatest in Hl'. injection Hl' as Hl'.
    rewrite <- Hl'.
    assert (He'' : e <= clock (ticks t)).
    { rewrite Hearliest in He'.
      destruct (segments t') as [|first rest] eqn:Hs'.
      - eapply Qle_trans; [|apply lastRead_le_next].
        pose proof (cons_earliest clock t Hc) as Hce.
        destruct (segments t) as [|f0 r0] eqn:Hs0.
        + apply Hce. exact He'.
        + rewrite Hce in He'. inversion He'; subst.
          pose proof (cons_past clock t Hc) as Hp. rewrite Hs0 in Hp.
          inversion Hp; subst. assumption.
      - inversion He'; subst e. apply Hpast'. left. reflexivity. }
    eapply Qle_trans; [exact He''|].
    change (clock (ticks t)
            <= clock (ticks t) + JS.orNum (si_duration info) (segmentDuration t)).
    lra.
Qed.


Lemma startTracking_consistent (channel : string) (t : DVRTracker) :
  0 <= segmentDuration t ->
  Consistent clock (startTracking clock channel t).
Proof.
  intro Hnom. unfold startTracking, reset, Date_now.
  constructor; cbn; try constructor; try discriminate; try exact Hnom.
  - intros e He. injection He as He. rewrite <- He. apply Qle_refl.
  - intros older newest Hsplit. destruct older; discriminate Hsplit.
  - intros e l He Hl. injection He as He. injection Hl as Hl.
    rewrite <- He, <- Hl. apply Qle_refl.
Qed.

Lemma stopTracking_consistent (t : DVRTracker) :
  Consistent clock t -> Consistent clock (stopTracking t).
Proof.
  intros [H1 H2 H3 H4 H5 H6 H7 H8 H9]. unfold stopTracking.
  destruct (isLive t); constructor; cbn; try assumption; discriminate.
Qed.

Lemma digitsValue_digits_nonneg (s : string) :
  forall acc, (0 <= acc)%Z ->
    (0 <= JS.digitsValue acc (JS.takeWhile JS.isDigit s))%Z.
Proof.
  induction s as [|c rest IH]; intros acc Hacc; cbn [JS.takeWhile];
    [exact Hacc|].
  destruct (JS.isDigit c) eqn:Hd; cbn [JS.digitsValue]; [|exact Hacc].
  apply IH. unfold JS.isDigit in Hd. cbv zeta in Hd. unfold JS.digitValue.
  apply andb_prop in Hd. destruct Hd as (Hlo & _).
  apply Nat.leb_le in Hlo. lia.
Qed.

Lemma parseFloat_nonneg (s : string) (q : Q) :
  JS.parseFloat s = Some q -> 0 <= q.
Proof.
  unfold JS.parseFloat.
  set (intPart := JS.takeWhile JS.isDigit s).
  set (frac := match JS.dropWhile JS.isDigit s with
               | String c rest' =>
                   if (c =? ".")%char then JS.takeWhile JS.isDigit rest' else ""
               | EmptyString => ""
               end).
  destruct ((intPart =? "") && (frac =? "")); [discriminate|].
  intro H. injection H as H. rewrite <- H.
  assert (Hi : (0 <= JS.digitsValue 0 intPart)%Z)
    by (apply digitsValue_digits_nonneg; lia).
  assert (Hf : (0 <= JS.digitsValue 0 frac)%Z).
  { unfold frac. destruct (JS.dropWhile JS.isDigit s) as [|c rest']; cbn; [lia|].
    destruct (c =? ".")%char; [|cbn; lia].
    apply digitsValue_digits_nonneg. lia. }
  assert (Hp : (0 < 10 ^ Z.of_nat (String.length frac))%Z)
    by (apply Z.pow_pos_nonneg; lia).
  assert (H0 : 0 <= inject_Z (JS.digitsValue 0 intPart)).
  { change 0 with (inject_Z 0). rewrite <- Zle_Qle. exact Hi. }
  assert (H1 : 0 <= inject_Z (JS.digitsValue 0 frac)
                    / inject_Z (10 ^ Z.of_nat (String.length frac))).
  { apply Qle_shift_div_l.
    - change 0 with (inject_Z 0). rewrite <- Zlt_Qlt. exact Hp.
    - rewrite Qmult_0_l. change 0 with (inject_Z 0). rewrite <- Zle_Qle. exact Hf. }
  lra.
Qed.

Lemma orNum_nonneg (a : option Q) (b : Q) :
  (forall q, a = Some q -> 0 <= q) -> 0 <= b -> 0 <= JS.orNum a b.
Proof.
  intros Ha Hb. unfold JS.orNum. destruct a as [q|]; [|exact Hb].
  destruct (JS.truthyNum q); [apply Ha; reflexivity|exact Hb].
Qed.

Lemma processLine_consistent (baseUrl line : string) (v v' : LoopVars)
    (t t' : DVRTracker) :
  processLine clock resolveURL baseUrl line v t = Some (v', t') ->
  carriesDuration v -> Consistent clock t ->
  carriesDuration v' /\ Consistent clock t'.
Proof.
  unfold processLine. intros Hstep Hv Hc.
  destruct (JS.startsWith "#EXTINF:" (JS.trim line)).
  - destruct (JS.matchLiteralRun _ _ _) as [m|];
      inversion Hstep; subst; clear Hstep; [|auto].
    split; [|exact Hc]. intros q Hq. cbn in Hq.
    destruct (JS.parseFloat m) as [p|] eqn:Hp; [|discriminate].
    injection Hq as Hq. rewrite <- Hq.
    pose proof (parseFloat_nonneg m p Hp). lra.
  - destruct (_ && _ && _).
    + destruct (if JS.startsWith "http" (JS.trim line) then _ else _)
        as [segmentUrl|]; [|discriminate].
      inversion Hstep; subst; clear Hstep.
      split; [exact Hv|].
      destruct (findByUrl segmentUrl t); [exact Hc|].
      apply addSegment_consistent; [exact Hc|]. cbn [si_duration].
      pose proof (cons_nominal clock t Hc) as Hnom.
      apply orNum_nonneg; [|exact Hnom].
      intros q Hq. injection Hq as Hq. rewrite <- Hq.
      apply orNum_nonneg; [exact Hv|exact Hnom].
    + inversion Hstep; subst; auto.
Qed.

Lemma processLines_consistent (baseUrl : string) (lines : list string) :
  forall (v : LoopVars) (t : DVRTracker),
    carriesDuration v -> Consistent clock t ->
    Consistent clock (tracker_of (processLines clock resolveURL baseUrl lines v t)).
Proof.
  induction lines as [|line rest IH]; intros v t Hv Hc; cbn; [exact Hc|].
  destruct (processLine clock resolveURL baseUrl line v t) as [[v' t']|] eqn:E;
    [|exact Hc].
  destruct (processLine_consistent baseUrl line v v' t t' E Hv Hc) as (Hv' & Hc').
  apply IH; assumption.
Qed.

Lemma processPlaylist_consistent (playlistContent baseUrl : string)
    (t : DVRTracker) :
  Consistent clock t ->
  Consistent clock
    (tracker_of (processPlaylist clock resolveURL playlistContent baseUrl t)).
Proof.
  intro Hc. unfold processPlaylist.
  destruct (negb (isLive t) || negb (isEnabled t)); [exact Hc|].
  apply processLines_consistent; [|exact Hc].
  intros q Hq. cbn in Hq. injection Hq as Hq. rewrite <- Hq. apply Qle_refl.
Qed.

Lemma serve_consistent (r : Request) (t : DVRTracker) :
  Consistent clock t -> Consistent clock (serve clock resolveURL r t).
Proof.
  intro Hc. destruct r as [channel| |content base|startTime]; cbn.
  - apply startTracking_consistent. exact (cons_nominal clock t Hc).
  - apply stopTracking_consistent. exact Hc.
  - apply processPlaylist_consistent. exact Hc.
  - destruct Hc. constructor; assumption.
Qed.

Lemma run_consistent (rs : list Request) :
  forall t, Consistent clock t -> Consistent clock (run clock resolveURL rs t).
Proof.
  unfold run. induction rs as [|r rest IH]; intros t Hc; cbn; [exact Hc|].
  apply IH, serve_consistent, Hc.
Qed.

Lemma constructor_consistent : Consistent clock constructor.
Proof.
  constructor; cbn; try constructor; try discriminate.
  intros older newest Hsplit. destruct older; discriminate Hsplit.
Qed.





(** X1.  With a clock that never goes back, in every state that the tracker
    reaches from [new DVRTracker()] by [startTracking], [stopTracking] and
    [processPlaylist] calls and assignments of its [streamStartTime], the
    retained segments are in the order of their timestamps, no timestamp is
    later than the last reading of the clock, and no duration is negative. *)
Theorem reachable_segments_chronological (rs : list Request) :
  let t := run clock resolveURL rs constructor in
  StronglySorted Qle (map timestamp (segments t))
  /\ Forall (fun s => timestamp s <= lastRead clock t) (segments t)
  /\ Forall (fun s => 0 <= duration s) (segments t).
Proof.
  intro t.
  pose proof (run_consistent rs constructor constructor_consistent) as Hc.
  fold t in Hc. destruct Hc. auto.
Qed.

(** X2.  With a clock that never goes back, in every reachable state the
    bounds follow the segment list: when a segment is retained,
    [earliestAvailableTime] is the timestamp of the first one and
    [latestAvailableTime] is the end of the last one; and while the tracker
    is live neither bound is [null]. *)
Theorem reachable_bounds_track_segments (rs : list Request) :
  let t := run clock resolveURL rs constructor in
  (forall first rest,
      segments t = first :: rest ->
      earliestAvailableTime t = Some (timestamp first))
  /\ (forall older newest,
        segments t = (older ++ [newest])%list ->
        latestAvailableTime t = Some (timestamp newest + duration newest))
  /\ (isLive t = true ->
      earliestAvailableTime t <> None /\ latestAvailableTime t <> None).
Proof.
  intro t.
  pose proof (run_consistent rs constructor constructor_consistent) as Hc.
  fold t in Hc. destruct Hc as [_ _ _ _ _ He Hl Hlive _].
  split; [|split; [exact Hl|exact Hlive]].
  intros first rest Hs. rewrite Hs in He. exact He.
Qed.


End TimelineFacts.

(** ** Ingest *)

Section IngestFacts.

Import Tracker Scenario Timeline.

Variable clock : nat -> Q.
Variable resolveURL : string -> string -> option string.

Lemma addSegment_appends (info : SegmentInfo) (t : DVRTracker) :
  isLive t = true -> isEnabled t = true ->
  Stamped clock t -> WithinWindow clock t ->
  segments (addSegment clock info t)
  = (segments t ++ [builtSegment clock info t])%list.
Proof.
  intros Hl He Hst Hw.
  destruct (addSegment_live clock info t Hl He) as (Hsegs & _).
  rewrite Hsegs. apply forallb_filter_id. apply forallb_forall.
  intros s Hs. apply ltb_true_iff.
  assert (Hstamp : exists n, timestamp s = clock n).
  { apply in_app_or in Hs. destruct Hs as [Hs|[Hs|[]]].
    - unfold Stamped in Hst. rewrite Forall_forall in Hst. auto.
    - subst s. eexists. reflexivity. }
  destruct Hstamp as (n & Hn). rewrite Hn. apply Hw.
Qed.

Lemma addSegment_retaining (info : SegmentInfo) (t : DVRTracker) :
  Retaining clock t ->
  Retaining clock (addSegment clock info t)
  /\ urls (addSegment clock info t) = (urls t ++ [si_url info])%list.
Proof.
  intros (Hl & He & Hst & Hw).
  pose proof (addSegment_appends info t Hl He Hst Hw) as Hsegs.
  assert (Hcfg : maxBufferDuration (addSegment clock info t) = maxBufferDuration t
                 /\ isLive (addSegment clock info t) = true
                 /\ isEnabled (addSegment clock info t) = true).
  { rewrite (addSegment_unfold clock info t Hl He).
    unfold emitTimelineUpdate, emit, cleanupOldSegments, Date_now. cbn.
    match goal with |- context [filter ?f ?l] => destruct (filter f l) end;
      cbn; auto. }
  destruct Hcfg as (Hmax & Hl' & He').
  split.
  - split; [exact Hl'|]. split; [exact He'|]. split.
    + unfold Stamped. rewrite Hsegs. apply Forall_app. split; [exact Hst|].
      constructor; [|constructor]. eexists. reflexivity.
    + unfold WithinWindow. rewrite Hmax. exact Hw.
  - unfold urls. rewrite Hsegs, map_app. reflexivity.
Qed.

Lemma processLine_retaining (baseUrl line : string) (v v' : LoopVars)
    (t t' : DVRTracker) :
  processLine clock resolveURL baseUrl line v t = Some (v', t') ->
  Retaining clock t ->
  Retaining clock t' /\ incl (urls t) (urls t').
Proof.
  unfold processLine. intros Hstep Hr.
  destruct (JS.startsWith "#EXTINF:" (JS.trim line)).
  - destruct (JS.matchLiteralRun _ _ _); inversion Hstep; subst;
      split; auto using incl_refl.
  - destruct (_ && _ && _).
    + destruct (if JS.startsWith "http" (JS.trim line) then _ else _)
        as [segmentUrl|]; [|discriminate].
      inversion Hstep; subst; clear Hstep.
      destruct (findByUrl segmentUrl t); [split; auto using incl_refl|].
      match goal with |- context [addSegment clock ?i t] =>
        destruct (addSegment_retaining i t Hr) as (Hr' & Hu) end.
      split; [exact Hr'|]. rewrite Hu. apply incl_appl, incl_refl.
    + inversion Hstep; subst; split; auto using incl_refl.
Qed.

Lemma processLines_grows (baseUrl : string) (lines : list string) :
  forall (v : LoopVars) (t : DVRTracker),
    Retaining clock t ->
    incl (urls t)
         (urls (tracker_of (processLines clock resolveURL baseUrl lines v t))).
Proof.
  induction lines as [|line rest IH]; intros v t Hr; cbn; [apply incl_refl|].
  destruct (processLine clock resolveURL baseUrl line v t) as [[v' t']|] eqn:E;
    [|apply incl_refl].
  destruct (processLine_retaining baseUrl line v v' t t' E Hr) as (Hr' & Hinc).
  eapply incl_tran; [exact Hinc|apply IH; exact Hr'].
Qed.

(** A line replayed on a tracker that already holds what the line inserted. *)
Lemma processLine_replay (baseUrl line : string) (v : LoopVars)
    (t t2 : DVRTracker) :
  Retaining clock t ->
  match processLine clock resolveURL baseUrl line v t with
  | Some (v', t') =>
      incl (urls t') (urls t2) ->
      processLine clock resolveURL baseUrl line v t2 = Some (v', t2)
  | None => processLine clock resolveURL baseUrl line v t2 = None
  end.
Proof.
  intro Hr. unfold processLine.
  destruct (JS.startsWith "#EXTINF:" (JS.trim line)).
  - destruct (JS.matchLiteralRun _ _ _); reflexivity.
  - destruct (_ && _ && _); [|reflexivity].
    destruct (if JS.startsWith "http" (JS.trim line) then _ else _)
      as [segmentUrl|]; [|reflexivity].
    intro Hinc.
    assert (Hin : In segmentUrl (urls t2)).
    { apply Hinc. destruct (findByUrl segmentUrl t) as [seg|] eqn:Hfind.
      - unfold findByUrl in Hfind. apply find_some in Hfind.
        destruct Hfind as (Hin & Heq). apply String.eqb_eq in Heq.
        unfold urls. apply in_map_iff. exists seg. auto.
      - match goal with |- context [addSegment clock ?i t] =>
          destruct (addSegment_retaining i t Hr) as (_ & Hu) end.
        rewrite Hu. apply in_or_app. right. left. reflexivity. }
    destruct (findByUrl_Some segmentUrl t2 Hin) as (seg2 & Hfind2).
    rewrite Hfind2. reflexivity.
Qed.

Lemma processLines_replay (baseUrl : string) (lines : list string) :
  forall (v : LoopVars) (t t2 : DVRTracker),
    Retaining clock t ->
    incl (urls (tracker_of (processLines clock resolveURL baseUrl lines v t)))
         (urls t2) ->
    processLines clock resolveURL baseUrl lines v t2
    = match processLines clock resolveURL baseUrl lines v t with
      | Completed _ => Completed t2
      | Threw _ => Threw t2
      end.
Proof.
  induction lines as [|line rest IH]; intros v t t2 Hr Hinc; cbn in *;
    [reflexivity|].
  pose proof (processLine_replay baseUrl line v t t2 Hr) as Hline.
  destruct (processLine clock resolveURL baseUrl line v t) as [[v' t']|] eqn:E.
  - destruct (processLine_retaining baseUrl line v v' t t' E Hr) as (Hr' & _).
    rewrite Hline.
    + apply IH; assumption.
    + eapply incl_tran; [apply processLines_grows; exact Hr'|exact Hinc].
  - rewrite Hline. reflexivity.
Qed.

(** X4.  When every reading of the clock lies within one retention window
    and every timestamp is a reading of the clock, handing the same playlist
    to [processPlaylist] a second time changes nothing: the second call
    ends as the first did (to its end, or on the throw of the same line) and
    leaves the tracker as the first call left it. *)
Theorem processPlaylist_twice (playlistContent baseUrl : string) (t : DVRTracker) :
  Stamped clock t -> WithinWindow clock t ->
  let once := processPlaylist clock resolveURL playlistContent baseUrl t in
  processPlaylist clock resolveURL playlistContent baseUrl (tracker_of once)
  = once.
Proof.
  intros Hst Hw once. unfold once, processPlaylist.
  destruct (isLive t) eqn:Hl; [destruct (isEnabled t) eqn:He|]; cbn [negb orb].
  - set (v0 := mkLoopVars _ _).
    set (lines := JS.split_lines playlistContent).
    assert (Hr : Retaining clock t) by (repeat split; assumption).
    assert (Hlive : isLive (tracker_of (processLines clock resolveURL baseUrl lines v0 t)) = true
                    /\ isEnabled (tracker_of (processLines clock resolveURL baseUrl lines v0 t)) = true).
    { clear once. revert Hr. generalize v0 t. clear.
      induction lines as [|line rest IH]; intros v t Hr; cbn.
      - destruct Hr as (Hl & He & _). auto.
      - destruct (processLine clock resolveURL baseUrl line v t) as [[v' t']|] eqn:E.
        + apply IH. eapply processLine_retaining; eauto.
        + destruct Hr as (Hl & He & _). auto. }
    destruct Hlive as (Hl1 & He1). rewrite Hl1, He1. cbn [negb orb].
    rewrite (processLines_replay baseUrl lines v0 t _ Hr (incl_refl _)).
    destruct (processLines clock resolveURL baseUrl lines v0 t); reflexivity.
  - cbn. rewrite Hl, He. reflexivity.
  - cbn. rewrite Hl. reflexivity.
Qed.

(** X5.  A playlist none of whose lines passes the media-line test (not
    empty, not starting with [#], ending in [.ts] or containing [.ts?])
    leaves the tracker exactly as it was, whatever its duration lines
    say. *)
Theorem playlist_without_media_lines (playlistContent baseUrl : string)
    (t : DVRTracker) :
  (forall line, In line (JS.split_lines playlistContent) ->
                isMediaLine (JS.trim line) = false) ->
  processPlaylist clock resolveURL playlistContent baseUrl t = Completed t.
Proof.
  intro Hnone. unfold processPlaylist.
  destruct (negb (isLive t) || negb (isEnabled t)); [reflexivity|].
  generalize (mkLoopVars (Some 0)
                match JS.matchLiteralRun "#EXT-X-MEDIA-SEQUENCE:" JS.isDigit
                        playlistContent with
                | Some digits => JS.parseInt digits
                | None => 0%Z
                end).
  induction (JS.split_lines playlistContent) as [|line rest IH]; intro v; cbn;
    [reflexivity|].
  unfold processLine.
  pose proof (Hnone line (or_introl eq_refl)) as Hline.
  unfold isMediaLine in Hline.
  destruct (JS.startsWith "#EXTINF:" (JS.trim line)).
  - destruct (JS.matchLiteralRun _ _ _); apply IH; intros l Hl;
      apply Hnone; right; exact Hl.
  - rewrite Hline. apply IH. intros l Hl. apply Hnone. right. exact Hl.
Qed.

(** X6.  [addSegment] and [processPlaylist] do nothing on a tracker that is
    not live or not enabled; in particular after [stopTracking()] and after
    [reset()] they leave the tracker as it is. *)
Theorem ingest_needs_live_tracker (info : SegmentInfo)
    (playlistContent baseUrl : string) (t : DVRTracker) :
  (isLive t = false \/ isEnabled t = false ->
   addSegment clock info t = t
   /\ processPlaylist clock resolveURL playlistContent baseUrl t = Completed t)
  /\ (let t' := stopTracking t in
      addSegment clock info t' = t'
      /\ processPlaylist clock resolveURL playlistContent baseUrl t' = Completed t')
  /\ (let t' := reset t in
      addSegment clock info t' = t'
      /\ processPlaylist clock resolveURL playlistContent baseUrl t' = Completed t').
Proof.
  assert (Hguard : forall u, isLive u = false \/ isEnabled u = false ->
            addSegment clock info u = u
            /\ processPlaylist clock resolveURL playlistContent baseUrl u
               = Completed u).
  { intros u Hu. split; [apply addSegment_guard; exact Hu|].
    unfold processPlaylist.
    destruct Hu as [Hu|Hu]; rewrite Hu; cbn; rewrite ?orb_true_r; reflexivity. }
  split; [apply Hguard|]. split; cbv zeta; apply Hguard; left.
  - unfold stopTracking. destruct (isLive t); reflexivity.
  - reflexivity.
Qed.

End IngestFacts.

(** ** Queries of the tracker *)

Section QueryFacts.

Import Tracker TrackerQueries Scenario Timeline.

Variable clock : nat -> Q.

Lemma scanAtTime_spec (ts : Q) (segs : list Segment) :
  forall i,
    match scanAtTime ts i segs with
    | Some (seg, j) =>
        (i <= j)%nat
        /\ nth_error segs (j - i) = Some seg
        /\ covers seg ts
        /\ (forall k other, (k < j - i)%nat -> nth_error segs k = Some other ->
                            ~ covers other ts)
    | None => forall other, In other segs -> ~ covers other ts
    end.
Proof.
  induction segs as [|seg rest IH]; intro i; cbn.
  - intros other [].
  - destruct (JS.leb (timestamp seg) ts
              && JS.ltb ts (timestamp seg + duration seg)) eqn:Hhit.
    + apply andb_prop in Hhit. destruct Hhit as (Hlo & Hhi).
      apply leb_true_iff in Hlo. apply ltb_true_iff in Hhi.
      rewrite Nat.sub_diag. cbn.
      split; [lia|]. split; [reflexivity|]. split; [split; assumption|].
      intros k other Hk. lia.
    + assert (Hmiss : ~ covers seg ts).
      { intros (Hlo & Hhi). apply leb_true_iff in Hlo.
        apply ltb_true_iff in Hhi. rewrite Hlo, Hhi in Hhit. discriminate. }
      specialize (IH (S i)).
      destruct (scanAtTime ts (S i) rest) as [[found j]|].
      * destruct IH as (Hij & Hnth & Hcov & Hfirst).
        assert (Hj : (j - i = S (j - S i))%nat) by lia.
        rewrite Hj. cbn [nth_error].
        split; [lia|]. split; [exact Hnth|]. split; [exact Hcov|].
        intros k other Hk Hother. destruct k as [|k]; cbn in Hother.
        -- injection Hother as Hother. subst other. exact Hmiss.
        -- apply (Hfirst k other); [lia|exact Hother].
      * intros other [Heq|Hin]; [subst other; exact Hmiss|auto].
Qed.

(** X9.  [getSegmentAtTime(ts)] returns the first retained segment whose
    interval [timestamp, timestamp + duration) holds [ts], with its index
    in the list; it returns [null] exactly when no retained segment holds
    [ts]. *)
Theorem getSegmentAtTime_first_cover (ts : Q) (t : DVRTracker) :
  match getSegmentAtTime ts t with
  | Some (seg, index) =>
      nth_error (segments t) index = Some seg
      /\ covers seg ts
      /\ (forall k other, (k < index)%nat ->
                          nth_error (segments t) k = Some other ->
                          ~ covers other ts)
  | None => forall other, In other (segments t) -> ~ covers other ts
  end.
Proof.
  unfold getSegmentAtTime.
  pose proof (scanAtTime_spec ts (segments t) 0) as H.
  destruct (scanAtTime ts 0 (segments t)) as [[seg j]|]; [|exact H].
  rewrite Nat.sub_0_r in H. tauto.
Qed.

(** X10.  The segment that [getSegmentAtTime(ts)] finds is among those that
    [getSegmentsInRange(startTime, endTime)] returns, for every range with
    [startTime <= ts < endTime]. *)
Theorem getSegmentAtTime_in_range (ts startTime endTime : Q) (t : DVRTracker)
    (seg : Segment) (index : nat) :
  getSegmentAtTime ts t = Some (seg, index) ->
  startTime <= ts -> ts < endTime ->
  In seg (getSegmentsInRange startTime endTime t).
Proof.
  intros Hfound Hlo Hhi. unfold getSegmentAtTime in Hfound.
  pose proof (scanAtTime_spec ts (segments t) 0) as H.
  rewrite Hfound in H. destruct H as (_ & Hnth & (Hc1 & Hc2) & _).
  unfold getSegmentsInRange. apply filter_In. split.
  - eapply nth_error_In. exact Hnth.
  - cbv zeta. apply andb_true_intro. split; apply ltb_true_iff; lra.
Qed.

(** X11.  [getPositionPercentage] always returns a number between 0 and
    100, and returns 100 when the buffer duration is 0. *)
Theorem getPositionPercentage_clamped (ts : Q) (t : DVRTracker) :
  0 <= getPositionPercentage ts t <= 100
  /\ (getBufferDuration t == 0 -> getPositionPercentage ts t = 100).
Proof.
  unfold getPositionPercentage.
  destruct (Qeq_bool (getBufferDuration t) 0) eqn:Hz.
  - split; [split; discriminate|reflexivity].
  - split.
    + split.
      * apply Q.min_glb; [discriminate|apply Q.le_max_l].
      * apply Q.le_min_l.
    + intro H0. apply Qeq_bool_iff in H0. congruence.
Qed.

(** X8.  Whatever the tracker held, after [startTracking(channel)] it is
    live with no segment, the session start and both bounds equal to the
    reading of the clock, a buffer duration of 0, no seeking back, every
    position at 100 percent, and one [streamStarted] event more. *)
Theorem startTracking_starts_empty (channel : string) (t : DVRTracker) (ts : Q) :
  let t' := startTracking clock channel t in
  isLive t' = true
  /\ channelName t' = Some channel
  /\ segments t' = []
  /\ streamStartTime t' = Some (clock (ticks t))
  /\ earliestAvailableTime t' = Some (clock (ticks t))
  /\ latestAvailableTime t' = Some (clock (ticks t))
  /\ getBufferDuration t' == 0
  /\ canSeekBack t' = false
  /\ getPositionPercentage ts t' = 100
  /\ getSegmentAtTime ts t' = None
  /\ emitted t' = (emitted t ++ [StreamStarted channel (clock (ticks t))])%list.
Proof.
  cbv zeta.
  assert (Hd : getBufferDuration (startTracking clock channel t) == 0).
  { unfold getBufferDuration, startTracking, reset, Date_now. cbn.
    destruct (negb _ || negb _); [reflexivity|]. ring. }
  repeat (split; [reflexivity|]).
  split; [exact Hd|].
  split; [reflexivity|].
  split.
  - unfold getPositionPercentage. apply Qeq_bool_iff in Hd. rewrite Hd.
    reflexivity.
  - split; reflexivity.
Qed.

End QueryFacts.

(** ** More on seeks *)

Section MoreSeekFacts.

Import Controller SeekScenario.

Lemma bufferSpan_needs_element (c : DVRController) :
  0 < bufferSpan c -> exists v, playerElement c = Some v.
Proof.
  unfold bufferSpan, getBufferInfo.
  destruct (playerElement c) as [v|]; [eauto|].
  cbn. intro H. exfalso. apply (Qlt_irrefl 0 H).
Qed.

(** X12.  A seek with [pct < 98] whose distance behind live is at least 5
    seconds and at most the span of the native buffer sets the position of
    the native element to [bufferEnd - behind], which lies between the start
    of the buffer and 5 seconds before its end; the controller ends not
    watching the VOD, the embed handle and the overlay content stay, and the
    only call is the "back to live" notice when it was watching the VOD. *)
Theorem handleSeek_within_buffer (w : World) (pct : Q) (c : DVRController) :
  let behind := secondsBehindLive w pct c in
  let info := getBufferInfo c in
  pct < 98 -> 5 <= behind -> behind <= bi_duration info ->
  let c' := handleSeek w pct c in
  nativePosition c' = Some (bi_end info - behind)
  /\ bi_start info <= bi_end info - behind <= bi_end info - 5
  /\ nativeBuffered c' = nativeBuffered c
  /\ isWatchingVod c' = false
  /\ vodPlayer c' = vodPlayer c
  /\ lastVodId c' = lastVodId c
  /\ currentVodId c' = currentVodId c
  /\ embedsBuilt c' = embedsBuilt c
  /\ option_map embedContent (vodOverlay c')
     = option_map embedContent (vodOverlay c)
  /\ calls c'
     = (calls c
        ++ (if isWatchingVod c then [ShowNotification msgBackToLive] else []))%list.
Proof.
  intros behind info Hpct Hfar Hin c'.
  assert (Hspan : 0 < bufferSpan c) by (unfold bufferSpan; fold info; lra).
  destruct (bufferSpan_needs_element c Hspan) as (v & Hv).
  assert (Hdur : bi_duration info = bi_end info - bi_start info).
  { unfold info, getBufferInfo. rewrite Hv. reflexivity. }
  assert (Hrange : bi_start info <= bi_end info - behind <= bi_end info - 5)
    by (rewrite Hdur in Hin; lra).
  assert (Heq : c' = writeCurrentTime (bi_end info - behind)
                       (if isWatchingVod c then switchToLive c else c)).
  { unfold c', handleSeek. cbv zeta.
    apply leb_false_iff in Hpct. apply ltb_false_iff in Hfar.
    apply leb_true_iff in Hin.
    unfold behind, secondsBehindLive, info in *.
    rewrite Hpct, Hfar, Hin. reflexivity. }
  rewrite Heq. clear Heq.
  unfold writeCurrentTime, switchToLive, writeDisplay, writeMuted,
    showNotification, nativePosition, nativeBuffered.
  destruct (isWatchingVod c) eqn:Hw; destruct (vodOverlay c) as [o|] eqn:Ho;
    try destruct (lastBufferedEnd v) as [live|] eqn:Hl;
    repeat (progress (cbn; rewrite ?Hw, ?Ho, ?Hv, ?Hl, ?app_nil_r));
    (split; [reflexivity|]); (split; [exact Hrange|]);
    repeat split; reflexivity.
Qed.


(** X13.  When the stream did not start in the future and [pct] is between
    0 and 100, the elapsed time is a whole non-negative number of seconds
    not beyond the time since the start, and the target of the seek, its
    distance behind live and the position asked of the recording all lie
    between 0 and the elapsed time. *)
Theorem seek_targets_within_session (w : World) (pct : Q) (c : DVRController) :
  JS.toNumber (streamStartTime c) <= now w ->
  0 <= pct <= 100 ->
  let E := getElapsedTime w c in
  (exists z, (0 <= z)%Z /\ E = inject_Z z)
  /\ E * 1000 <= now w - JS.toNumber (streamStartTime c)
  /\ 0 <= targetSecondsFromStart w pct c <= E
  /\ 0 <= secondsBehindLive w pct c <= E
  /\ 0 <= adjustedPosition w pct c <= E.
Proof.
  intros Hstart (Hlo & Hhi) E.
  assert (HE : (exists z, (0 <= z)%Z /\ E = inject_Z z)
               /\ E * 1000 <= now w - JS.toNumber (streamStartTime c)).
  { unfold E, getElapsedTime.
    destruct (negb (JS.truthyOptNum (streamStartTime c))).
    - split; [exists 0%Z; split; [lia|reflexivity]|]. lra.
    - set (x := (now w - JS.toNumber (streamStartTime c)) / 1000).
      assert (Hx : 0 <= x).
      { unfold x. apply Qle_shift_div_l; [reflexivity|]. lra. }
      split.
      + exists (Qfloor x). split; [|reflexivity].
        change 0%Z with (Qfloor 0). apply Qfloor_resp_le. exact Hx.
      + pose proof (Qfloor_le x) as Hf.
        assert (Hx1000 : x * 1000 == now w - JS.toNumber (streamStartTime c))
          by (unfold x; field).
        rewrite <- Hx1000. apply Qmult_le_compat_r; [exact Hf|discriminate]. }
  destruct HE as ((z & Hz & HEz) & Hfloor).
  assert (HE0 : 0 <= E).
  { rewrite HEz. change 0 with (inject_Z 0). rewrite <- Zle_Qle. exact Hz. }
  split; [exists z; auto|]. split; [exact Hfloor|].
  unfold adjustedPosition, targetSecondsFromStart, secondsBehindLive. fold E.
  assert (Ht : 0 <= E * pct / 100 <= E).
  { split.
    - apply Qle_shift_div_l; [reflexivity|]. rewrite Qmult_0_l.
      apply Qmult_le_0_compat; assumption.
    - apply Qle_shift_div_r; [reflexivity|].
      apply Qmult_le_compat_nonneg; split; try assumption; apply Qle_refl. }
  split; [exact Ht|]. split; [lra|].
  split.
  - apply Q.le_max_l.
  - apply Q.max_lub; lra.
Qed.

(** X14.  [switchToLive()] hides the overlay without destroying it: the
    controller is not watching the VOD, the overlay keeps its content, the
    handle stays stored, the native element is unmuted and put at the newest
    point of its buffer.  An out-of-buffer seek made after it for the same
    recording shows the overlay again and only calls [seek] on that handle
    (after the "loading" notice). *)
Theorem switchToLive_keeps_handle_warm (w : World) (pct : Q)
    (c : DVRController) (h : EmbedHandle) (vodId : string) (o : Overlay) :
  vodPlayer c = Some h -> lastVodId c = Some vodId ->
  currentVodId c = Some vodId -> JS.truthyStr vodId = true ->
  hasSeek h = true -> vodOverlay c = Some o ->
  let live := switchToLive c in
  OutOfBuffer w pct live ->
  let c' := handleSeek w pct live in
  (isWatchingVod live = false
   /\ vodOverlay live = Some (mkOverlay false (embedContent o))
   /\ vodPlayer live = Some h
   /\ nativePosition live
      = match liveEdge c with
        | Some edge => Some edge
        | None => nativePosition c
        end
   /\ option_map muted (playerElement live)
      = option_map (fun _ => false) (playerElement c))
  /\ vodPlayer c' = Some h
  /\ embedsBuilt c' = embedsBuilt c
  /\ vodOverlay c' = Some (mkOverlay true (embedContent o))
  /\ isWatchingVod c' = true
  /\ calls c'
     = (calls c ++ [ShowNotification msgBackToLive;
                    ShowNotification msgVodLoading;
                    EmbedSeek (handleId h) (adjustedPosition w pct live)])%list.
Proof.
  intros Hp Hl Hid Htruthy Hs Ho live Hoob c'.
  assert (Hlive : isWatchingVod live = false
                  /\ vodOverlay live = Some (mkOverlay false (embedContent o))
                  /\ vodPlayer live = Some h
                  /\ lastVodId live = Some vodId
                  /\ currentVodId live = Some vodId
                  /\ embedsBuilt live = embedsBuilt c
                  /\ calls live = (calls c ++ [ShowNotification msgBackToLive])%list
                  /\ nativePosition live
                     = match liveEdge c with
                       | Some edge => Some edge
                       | None => nativePosition c
                       end
                  /\ option_map muted (playerElement live)
                     = option_map (fun _ => false) (playerElement c)).
  { unfold live, switchToLive, writeDisplay, writeMuted, writeCurrentTime,
      showNotification, nativePosition, liveEdge.
    rewrite Ho.
    destruct (playerElement c) as [v|] eqn:Hv;
      try destruct (lastBufferedEnd v) as [edge|] eqn:He;
      repeat (progress (cbn; rewrite ?Hv, ?He));
      repeat split; assumption || reflexivity. }
  destruct Hlive as (Hw1 & Ho1 & Hp1 & Hl1 & Hid1 & Hn1 & Hc1 & Hpos1 & Hm1).
  destruct (handleSeek_reuses_handle w pct live h vodId _
              Hoob Hid1 Htruthy Hp1 Hl1 Hs Ho1)
    as (Hp2 & _ & Hn2 & Ho2 & Hw2 & Hc2).
  fold c' in Hp2, Hn2, Ho2, Hw2, Hc2.
  split; [repeat split; assumption|].
  split; [exact Hp2|]. split; [congruence|]. split; [exact Ho2|].
  split; [exact Hw2|].
  rewrite Hc2, Hc1, Hw1, <- app_assoc. reflexivity.
Qed.

End MoreSeekFacts.

(** ** Fallbacks of the recorded path *)

Section FallbackFacts.

Import Controller SeekScenario Lifecycle.

(** X15.  An out-of-buffer seek for a known recording to which no stored
    handle is bound, on a page where the Embed API is not loaded or its
    constructor throws, and with the embed container in reach of the lookup
    (the overlay is in the document, or there is none yet and the page has
    the player container to build it in), builds the fallback iframe at the
    requested position exactly once: no handle is built and [vodPlayer]
    stays as it was, the overlay is shown with the iframe, the native
    element is muted and the controller is watching the VOD. *)
Theorem seek_falls_back_to_iframe (w : World) (pct : Q) (c : DVRController)
    (vodId : string) :
  OutOfBuffer w pct c ->
  currentVodId c = Some vodId -> JS.truthyStr vodId = true ->
  ~ BoundTo vodId c ->
  twitchEmbed w = EmbedMissing \/ twitchEmbed w = EmbedThrows ->
  ContainerInReach w c ->
  let c' := handleSeek w pct c in
  let startTime := adjustedPosition w pct c in
  vodPlayer c' = vodPlayer c
  /\ embedsBuilt c' = embedsBuilt c
  /\ lastVodId c' = Some vodId
  /\ vodOverlay c' = Some (mkOverlay true (FallbackIframe vodId startTime))
  /\ vodEmbedLoaded c' = true
  /\ isWatchingVod c' = true
  /\ option_map muted (playerElement c')
     = option_map (fun _ => true) (playerElement c)
  /\ calls c'
     = (calls c
        ++ (if isWatchingVod c then [] else [ShowNotification msgVodLoading])
        ++ (match vodOverlay c with Some _ => [] | None => [OverlayCreate] end)
        ++ (match twitchEmbed w with
            | EmbedMissing => []
            | _ => [EmbedConstruct vodId startTime]
            end)
        ++ [IframeCreate vodId startTime])%list.
Proof.
  intros Hoob Hid Htruthy Hfree Hapi Hreach c' startTime. unfold c', startTime.
  rewrite (handleSeek_out_of_buffer w pct c Hoob).
  rewrite (switchToVod_resolved w _ c vodId Hid Htruthy).
  unfold adjustedPosition.
  set (pos := Qmax 0 (targetSecondsFromStart w pct c - 5)).
  pose proof (before_initVodEmbed w c Hreach) as H3. cbv zeta in H3 |- *.
  set (c3 := match vodOverlay (if negb (isWatchingVod c)
                               then showNotification msgVodLoading c else c) with
             | Some _ => _
             | None => _
             end) in *.
  destruct H3 as (Ho3 & Hconn3 & Hp3 & Hl3 & _ & Hn3 & Hv3 & Hc3).
  assert (Hfree3 : ~ BoundTo vodId c3)
    by (unfold BoundTo; rewrite Hp3, Hl3; exact Hfree).
  clearbody c3.
  assert (Hgoal : forall tail,
            (calls c3 ++ tail = calls c
             ++ (if isWatchingVod c then [] else [ShowNotification msgVodLoading])
             ++ (match vodOverlay c with Some _ => [] | None => [OverlayCreate] end)
             ++ tail)%list).
  { intro tail. rewrite Hc3. rewrite <- !app_assoc. reflexivity. }
  rewrite (initVodEmbed_not_bound w vodId pos c3 Hfree3).
  unfold createVodIframe, embedContainerFound, writeEmbedContent, writeDisplay,
    writeMuted.
  rewrite <- Hp3, <- Hv3, <- Hn3.
  destruct Hapi as [Hapi|Hapi]; rewrite Hapi, Ho3, Hconn3;
    destruct (playerElement c3) eqn:Hv;
    repeat (progress (cbn; rewrite ?Ho3, ?Hconn3, ?Hv));
    rewrite <- ?app_assoc, Hgoal; repeat split; reflexivity.
Qed.

(** X16.  When the page has no player container and no overlay exists, an
    out-of-buffer seek for a known recording leaves the controller as it
    was, apart from the "loading" notice shown when it was not watching the
    VOD: nothing is built and [isWatchingVod] does not change. *)
Theorem seek_without_container_changes_nothing (w : World) (pct : Q)
    (c : DVRController) (vodId : string) :
  OutOfBuffer w pct c ->
  currentVodId c = Some vodId -> JS.truthyStr vodId = true ->
  vodOverlay c = None -> vodPlayer c = None ->
  playerContainer w = false ->
  handleSeek w pct c
  = if isWatchingVod c then c else showNotification msgVodLoading c.
Proof.
  intros Hoob Hid Htruthy Ho Hp Hc.
  rewrite (handleSeek_out_of_buffer w pct c Hoob).
  rewrite (switchToVod_resolved w _ c vodId Hid Htruthy). cbv zeta.
  set (c2 := if negb (isWatchingVod c)
             then showNotification msgVodLoading c else c).
  assert (H2 : vodOverlay c2 = None /\ vodPlayer c2 = None
               /\ c2 = if isWatchingVod c then c
                       else showNotification msgVodLoading c).
  { unfold c2. destruct (isWatchingVod c); cbn; auto. }
  destruct H2 as (Ho2 & Hp2 & Heq). rewrite <- Heq. clearbody c2.
  rewrite Ho2. unfold createVodOverlay. rewrite Ho2, Hc. cbn [negb].
  unfold initVodEmbed, createVodIframe, embedContainerFound. rewrite Hp2, Ho2.
  cbn [negb]. destruct (twitchEmbed w); rewrite Ho2; reflexivity.
Qed.

(** X25.  When the overlay element held in [vodOverlay] is no longer in the
    document, an out-of-buffer seek for a known recording to which no stored
    handle is bound builds nothing, whatever the page offers as Embed API:
    the handle, [lastVodId], [vodEmbedLoaded], the count of handles built
    and the content of the overlay stay as they were.  The seek still sets
    the overlay to display, the controller to watching the VOD and the
    native element to muted; its only call is the "loading" notice, shown
    when the controller was not watching the VOD. *)
Theorem seek_with_detached_overlay_builds_nothing (w : World) (pct : Q)
    (c : DVRController) (vodId : string) (o : Overlay) :
  OutOfBuffer w pct c ->
  currentVodId c = Some vodId -> JS.truthyStr vodId = true ->
  ~ BoundTo vodId c ->
  vodOverlay c = Some o -> overlayConnected c = false ->
  let c' := handleSeek w pct c in
  vodPlayer c' = vodPlayer c
  /\ lastVodId c' = lastVodId c
  /\ vodEmbedLoaded c' = vodEmbedLoaded c
  /\ embedsBuilt c' = embedsBuilt c
  /\ vodOverlay c' = Some (mkOverlay true (embedContent o))
  /\ overlayConnected c' = false
  /\ isWatchingVod c' = true
  /\ option_map muted (playerElement c')
     = option_map (fun _ => true) (playerElement c)
  /\ calls c'
     = (calls c
        ++ (if isWatchingVod c then [] else [ShowNotification msgVodLoading]))%list.
Proof.
  intros Hoob Hid Htruthy Hfree Ho Hconn c'. unfold c'.
  rewrite (handleSeek_out_of_buffer w pct c Hoob).
  rewrite (switchToVod_resolved w _ c vodId Hid Htruthy). cbv zeta.
  set (pos := Qmax 0 (targetSecondsFromStart w pct c - 5)).
  set (c2 := if negb (isWatchingVod c)
             then showNotification msgVodLoading c else c).
  assert (H2 : vodOverlay c2 = Some o /\ overlayConnected c2 = false
               /\ vodPlayer c2 = vodPlayer c /\ lastVodId c2 = lastVodId c
               /\ vodEmbedLoaded c2 = vodEmbedLoaded c
               /\ embedsBuilt c2 = embedsBuilt c
               /\ playerElement c2 = playerElement c
               /\ calls c2
                  = (calls c
                     ++ (if isWatchingVod c then []
                         else [ShowNotification msgVodLoading]))%list).
  { unfold c2. destruct (isWatchingVod c); cbn; rewrite ?app_nil_r; auto 10. }
  destruct H2 as (Ho2 & Hconn2 & Hp2 & Hl2 & He2 & Hn2 & Hv2 & Hc2).
  assert (Hfree2 : ~ BoundTo vodId c2)
    by (unfold BoundTo; rewrite Hp2, Hl2; exact Hfree).
  rewrite <- Hp2, <- Hl2, <- He2, <- Hn2, <- Hv2, <- Hc2. clearbody c2.
  rewrite Ho2.
  assert (Hsame : initVodEmbed w vodId pos c2 = c2).
  { rewrite (initVodEmbed_not_bound w vodId pos c2 Hfree2).
    unfold createVodIframe, embedContainerFound. rewrite Ho2, Hconn2.
    destruct (twitchEmbed w); reflexivity. }
  rewrite Hsame, Ho2.
  unfold writeDisplay, writeMuted. rewrite Ho2.
  destruct (playerElement c2) eqn:Hv;
    repeat (progress (cbn; rewrite ?Hv)); repeat split; assumption || reflexivity.
Qed.

Lemma initVodEmbed_recording_id (w : World) (vodId : string) (startTime : Q)
    (c : DVRController) :
  currentVodId (initVodEmbed w vodId startTime c) = currentVodId c.
Proof.
  unfold initVodEmbed, createVodIframe, embedContainerFound, writeEmbedContent.
  destruct (vodPlayer c) as [h|];
    destruct (match lastVodId c with Some l => l =? vodId | None => false end);
    try (destruct (hasSeek h); [|destruct (hasSetVideo h)]; reflexivity);
    destruct (twitchEmbed w); destruct (vodOverlay c) eqn:Ho;
    destruct (overlayConnected c) eqn:Hconn;
    repeat (progress (cbn; rewrite ?Ho, ?Hconn)); reflexivity.
Qed.

Lemma switchToVod_recording_id (w : World) (pos : Q) (c : DVRController)
    (vodId : string) :
  currentVodId c = Some vodId -> JS.truthyStr vodId = true ->
  currentVodId (switchToVod w pos c) = Some vodId.
Proof.
  intros Hid Htruthy.
  rewrite (switchToVod_resolved w pos c vodId Hid Htruthy). cbv zeta.
  set (c2 := if negb (isWatchingVod c)
             then showNotification msgVodLoading c else c).
  assert (H2 : currentVodId c2 = Some vodId)
    by (unfold c2; destruct (negb _); exact Hid).
  clearbody c2.
  set (c3 := match vodOverlay c2 with
             | None => createVodOverlay w c2
             | Some _ => c2
             end).
  assert (H3 : currentVodId c3 = Some vodId).
  { unfold c3, createVodOverlay. destruct (vodOverlay c2); [exact H2|].
    destruct (negb _); exact H2. }
  clearbody c3.
  pose proof (initVodEmbed_recording_id w vodId (Qmax 0 (pos - 5)) c3) as H4.
  rewrite H3 in H4.
  set (c4 := initVodEmbed w vodId (Qmax 0 (pos - 5)) c3) in *. clearbody c4.
  unfold writeDisplay, writeMuted.
  destruct (vodOverlay c4) eqn:Ho; [|exact H4]. cbn.
  destruct (playerElement c4); exact H4.
Qed.

(** X17.  An out-of-buffer seek made while no recording id is known, for
    which the metadata query returns one, does what the same seek does when
    that id is already stored, and leaves the id stored. *)
Theorem seek_resolves_recording_once (w : World) (pct : Q) (c : DVRController)
    (vodId : string) :
  JS.truthyOptStr (currentVodId c) = false ->
  JS.truthyOptStr (currentChannel c) = true ->
  fetchedVodId w = Some vodId -> JS.truthyStr vodId = true ->
  OutOfBuffer w pct c ->
  handleSeek w pct c = handleSeek w pct (set_currentVodId (Some vodId) c)
  /\ currentVodId (handleSeek w pct c) = Some vodId.
Proof.
  intros Hnone Hchan Hfetch Htruthy Hoob.
  set (known := set_currentVodId (Some vodId) c).
  assert (Hoob' : OutOfBuffer w pct known) by exact Hoob.
  rewrite (handleSeek_out_of_buffer w pct c Hoob).
  rewrite (handleSeek_out_of_buffer w pct known Hoob').
  change (targetSecondsFromStart w pct known)
    with (targetSecondsFromStart w pct c).
  assert (H1 : (if negb (JS.truthyOptStr (currentVodId c))
                then refreshVodInfo w c else c) = known).
  { rewrite Hnone. cbn [negb]. unfold refreshVodInfo.
    rewrite Hchan, Hfetch. cbn [negb JS.truthyOptStr]. rewrite Htruthy.
    reflexivity. }
  assert (H2 : (if negb (JS.truthyOptStr (currentVodId known))
                then refreshVodInfo w known else known) = known).
  { unfold known at 1. cbn [currentVodId set_currentVodId JS.truthyOptStr].
    rewrite Htruthy. reflexivity. }
  assert (Heq : switchToVod w (targetSecondsFromStart w pct c) c
                = switchToVod w (targetSecondsFromStart w pct c) known).
  { unfold switchToVod. rewrite H1, H2. reflexivity. }
  split; [exact Heq|].
  rewrite Heq. apply switchToVod_recording_id; [reflexivity|exact Htruthy].
Qed.

End FallbackFacts.

(** ** The end of a session *)

Section LifecycleFacts.

Import Controller SeekScenario Lifecycle.

Lemma createVodIframe_handle (vodId : string) (startTime : Q) (c : DVRController) :
  vodPlayer (createVodIframe vodId startTime c) = vodPlayer c
  /\ (vodOverlay c <> None -> vodOverlay (createVodIframe vodId startTime c) <> None).
Proof.
  unfold createVodIframe, embedContainerFound, writeEmbedContent.
  destruct (vodOverlay c) eqn:Ho; destruct (overlayConnected c) eqn:Hconn;
    repeat (progress (cbn; rewrite ?Ho, ?Hconn));
    split; try reflexivity; auto; discriminate.
Qed.

Lemma overlay_gives_handle_in_overlay (c : DVRController) :
  vodOverlay c <> None -> HandleInOverlay c.
Proof. intros H _. exact H. Qed.

Lemma createVodIframe_handle_in_overlay (vodId : string) (startTime : Q)
    (c : DVRController) :
  HandleInOverlay c -> HandleInOverlay (createVodIframe vodId startTime c).
Proof.
  intros H Hp.
  destruct (createVodIframe_handle vodId startTime c) as (Hsame & Hkeep).
  rewrite Hsame in Hp. apply Hkeep, H, Hp.
Qed.

Lemma initVodEmbed_handle_in_overlay (w : World) (vodId : string)
    (startTime : Q) (c : DVRController) :
  HandleInOverlay c -> HandleInOverlay (initVodEmbed w vodId startTime c).
Proof.
  intro H.
  assert (Hbuild : HandleInOverlay
            match twitchEmbed w with
            | EmbedMissing => createVodIframe vodId startTime c
            | api =>
                if negb (embedContainerFound c) then c
                else
                  let c := writeEmbedContent NoEmbed c in
                  let c := set_lastVodId (Some vodId) c in
                  let c := call (EmbedConstruct vodId startTime) c in
                  match api with
                  | EmbedWorks seek setVideo =>
                      let h := mkEmbedHandle (embedsBuilt c) vodId seek setVideo in
                      let c := set_embedsBuilt (S (embedsBuilt c)) c in
                      let c := writeEmbedContent (EmbedFrame (handleId h)) c in
                      set_vodPlayer (Some h) c
                  | _ => createVodIframe vodId startTime c
                  end
            end).
  { unfold embedContainerFound.
    destruct (twitchEmbed w) as [| |seek setVideo].
    - apply createVodIframe_handle_in_overlay, H.
    - destruct (vodOverlay c) as [o|] eqn:Ho; [|exact H].
      destruct (overlayConnected c); [|exact H].
      cbn [negb]. cbv zeta. apply createVodIframe_handle_in_overlay.
      apply overlay_gives_handle_in_overlay.
      unfold writeEmbedContent. rewrite Ho. cbn. discriminate.
    - destruct (vodOverlay c) as [o|] eqn:Ho; [|exact H].
      destruct (overlayConnected c); [|exact H].
      cbn [negb]. cbv zeta. apply overlay_gives_handle_in_overlay.
      unfold writeEmbedContent. rewrite Ho. cbn. discriminate. }
  unfold initVodEmbed.
  destruct (vodPlayer c) as [h|];
    destruct (match lastVodId c with Some l => l =? vodId | None => false end);
    try exact Hbuild.
  destruct (hasSeek h); [|destruct (hasSetVideo h)]; exact H.
Qed.

Lemma switchToVod_handle_in_overlay (w : World) (pos : Q) (c : DVRController) :
  HandleInOverlay c -> HandleInOverlay (switchToVod w pos c).
Proof.
  intro H. unfold switchToVod.
  set (c1 := if negb (JS.truthyOptStr (currentVodId c))
             then refreshVodInfo w c else c).
  assert (H1 : HandleInOverlay c1).
  { unfold c1, refreshVodInfo.
    destruct (negb (JS.truthyOptStr (currentVodId c))); [|exact H].
    destruct (negb _); [exact H|]. destruct (JS.truthyOptStr _); exact H. }
  clearbody c1. clear H c.
  destruct (currentVodId c1) as [vodId|]; [|exact H1].
  destruct (negb (JS.truthyStr vodId)); [exact H1|].
  set (c2 := if negb (isWatchingVod c1)
             then showNotification msgVodLoading c1 else c1).
  assert (H2 : HandleInOverlay c2)
    by (unfold c2; destruct (negb _); exact H1).
  clearbody c2. clear H1 c1.
  set (c3 := match vodOverlay c2 with
             | None => createVodOverlay w c2
             | Some _ => c2
             end).
  assert (H3 : HandleInOverlay c3).
  { unfold c3, createVodOverlay. destruct (vodOverlay c2) eqn:Ho; [exact H2|].
    destruct (negb _); [exact H2|].
    unfold HandleInOverlay. cbn. intros _. discriminate. }
  clearbody c3. clear H2 c2.
  pose proof (initVodEmbed_handle_in_overlay w vodId (Qmax 0 (pos - 5)) c3 H3)
    as H4.
  set (c4 := initVodEmbed w vodId (Qmax 0 (pos - 5)) c3) in *.
  clearbody c4. clear H3 c3.
  destruct (vodOverlay c4) as [o|] eqn:Ho; [|exact H4].
  unfold writeDisplay, writeMuted. rewrite Ho. cbn.
  destruct (playerElement c4); cbn; unfold HandleInOverlay; cbn;
    intros _; discriminate.
Qed.

Lemma switchToLive_handle_in_overlay (c : DVRController) :
  HandleInOverlay c -> HandleInOverlay (switchToLive c).
Proof.
  unfold HandleInOverlay, switchToLive, writeDisplay, writeMuted,
    writeCurrentTime, showNotification.
  intro H.
  destruct (vodOverlay c) as [o|] eqn:Ho;
    destruct (playerElement c) as [v|] eqn:Hv;
    try destruct (lastBufferedEnd v) as [edge|] eqn:He;
    repeat (progress (cbn; rewrite ?Ho, ?Hv, ?He));
    try (intros _; discriminate); exact H.
Qed.

Lemma handleGoLive_handle_in_overlay (w : World) (c : DVRController) :
  HandleInOverlay c -> HandleInOverlay (handleGoLive w c).
Proof.
  intro H. unfold handleGoLive.
  destruct (isWatchingVod c); [apply switchToLive_handle_in_overlay, H|].
  unfold writeCurrentTime.
  destruct (playerElement c) as [v|] eqn:Hv;
    try destruct (lastBufferedEnd v) as [edge|] eqn:He;
    destruct (liveButton w);
    repeat (progress (cbn; rewrite ?Hv, ?He)); exact H.
Qed.

Lemma writeCurrentTime_handle_in_overlay (x : Q) (c : DVRController) :
  HandleInOverlay c -> HandleInOverlay (writeCurrentTime x c).
Proof.
  unfold writeCurrentTime. destruct (playerElement c); intro H; exact H.
Qed.

(** X18.  No handler of the seek path stores an embed handle without an
    overlay: if a stored handle implies an overlay before [handleSeek],
    [handleGoLive], [switchToLive], [refreshVodInfo] or a listener of the
    embed, it does so after. *)
Theorem handle_lives_in_overlay (w : World) (pct : Q) (c : DVRController) :
  HandleInOverlay c ->
  HandleInOverlay (handleSeek w pct c)
  /\ HandleInOverlay (handleGoLive w c)
  /\ HandleInOverlay (switchToLive c)
  /\ HandleInOverlay (onVideoReady c)
  /\ HandleInOverlay (onVideoPlay c)
  /\ HandleInOverlay (refreshVodInfo w c).
Proof.
  intro H. split; [|split; [|split; [|split; [|split]]]].
  - unfold handleSeek. cbv zeta.
    destruct (_ || _); [apply handleGoLive_handle_in_overlay, H|].
    destruct (JS.leb _ _); [|apply switchToVod_handle_in_overlay, H].
    apply writeCurrentTime_handle_in_overlay.
    destruct (isWatchingVod c); [apply switchToLive_handle_in_overlay|]; exact H.
  - apply handleGoLive_handle_in_overlay, H.
  - apply switchToLive_handle_in_overlay, H.
  - exact H.
  - exact H.
  - unfold refreshVodInfo. destruct (negb _); [exact H|].
    destruct (JS.truthyOptStr _); exact H.
Qed.

Lemma constructor_handle_in_overlay : HandleInOverlay constructor.
Proof. intro H. contradiction H. reflexivity. Qed.

(** The controller fields that [stopDVR] clears first. *)
Lemma stopDVR_controller (s : Session) :
  isActive (controller s) = true ->
  let cleared :=
    set_isWatchingVod false
      (set_streamStartTime None
         (set_currentVodId None
            (set_currentChannel None (set_isActive false (controller s))))) in
  controller (stopDVR s)
  = match vodOverlay (controller s) with
    | Some _ =>
        set_vodEmbedLoaded false
          (set_vodPlayer None
             (set_vodOverlay None (set_overlayConnected false cleared)))
    | None => cleared
    end.
Proof.
  intros Hact cleared. unfold stopDVR. rewrite Hact. cbn [negb]. cbv zeta.
  cbn.
  destruct (Tracker.isLive (tracker s)); cbn;
    destruct (vodOverlay (controller s)) as [o|] eqn:Ho; cbn;
    destruct (updateInterval s) as [u|] eqn:Hu; cbn;
    destruct (vodRefreshInterval s) as [r|] eqn:Hr; cbn;
    rewrite ?Ho; reflexivity.
Qed.

Lemma stopDVR_tracker (s : Session) :
  isActive (controller s) = true ->
  tracker (stopDVR s) = Tracker.stopTracking (tracker s).
Proof.
  intros Hact. unfold stopDVR. rewrite Hact. cbn [negb]. cbv zeta.
  cbn.
  destruct (Tracker.isLive (tracker s)); cbn;
    destruct (vodOverlay (controller s)) as [o|] eqn:Ho; cbn;
    destruct (updateInterval s) as [u|] eqn:Hu; cbn;
    destruct (vodRefreshInterval s) as [r|] eqn:Hr; cbn;
    rewrite ?Ho; reflexivity.
Qed.

Lemma stopDVR_intervals (s : Session) :
  isActive (controller s) = true ->
  updateInterval (stopDVR s) = None
  /\ vodRefreshInterval (stopDVR s) = None
  /\ activeIntervals (stopDVR s)
     = without (vodRefreshInterval s) (without (updateInterval s) (activeIntervals s)).
Proof.
  intros Hact. unfold stopDVR. rewrite Hact. cbn [negb]. cbv zeta.
  cbn.
  destruct (Tracker.isLive (tracker s)); cbn;
    destruct (vodOverlay (controller s)) as [o|] eqn:Ho; cbn;
    destruct (updateInterval s) as [u|] eqn:Hu; cbn;
    destruct (vodRefreshInterval s) as [r|] eqn:Hr; cbn;
    rewrite ?Hu, ?Hr; cbn; repeat split; reflexivity.
Qed.

Lemma in_without (id : positive) (held : option positive) (l : list positive) :
  In id (without held l) <-> In id l /\ held <> Some id.
Proof.
  destruct held as [a|]; cbn.
  - rewrite filter_In, negb_true_iff, Pos.eqb_neq. split.
    + intros (H1 & H2). split; [exact H1|]. intro Hx. injection Hx as Hx.
      subst. apply H2. reflexivity.
    + intros (H1 & H2). split; [exact H1|]. intro Hx. apply H2. subst.
      reflexivity.
  - split; [intro H; split; [exact H|discriminate]|tauto].
Qed.

(** X19.  [stopDVR()] on an active controller clears the session fields,
    stops the tracker (whose segments stay), removes the overlay, forgets
    the embed handle (whenever the handle had an overlay), and clears the
    update and refresh intervals it holds: the intervals left running are
    those that were running and are held in neither field.  [lastVodId] and
    the reference to the video element stay. *)
Theorem stopDVR_tears_down (s : Session) :
  isActive (controller s) = true ->
  let s' := stopDVR s in
  let c' := controller s' in
  isActive c' = false
  /\ currentChannel c' = None
  /\ currentVodId c' = None
  /\ streamStartTime c' = None
  /\ isWatchingVod c' = false
  /\ vodOverlay c' = None
  /\ (HandleInOverlay (controller s) -> vodPlayer c' = None)
  /\ lastVodId c' = lastVodId (controller s)
  /\ playerElement c' = playerElement (controller s)
  /\ tracker s' = Tracker.stopTracking (tracker s)
  /\ Tracker.isLive (tracker s') = false
  /\ Tracker.segments (tracker s') = Tracker.segments (tracker s)
  /\ updateInterval s' = None
  /\ vodRefreshInterval s' = None
  /\ (forall id, In id (activeIntervals s') <->
                 In id (activeIntervals s)
                 /\ updateInterval s <> Some id
                 /\ vodRefreshInterval s <> Some id).
Proof.
  intros Hact s' c'.
  pose proof (stopDVR_controller s Hact) as Hc. cbv zeta in Hc.
  pose proof (stopDVR_tracker s Hact) as Ht.
  destruct (stopDVR_intervals s Hact) as (Hu & Hr & Hai).
  fold s' in Hc, Ht, Hu, Hr, Hai. fold c' in Hc.
  assert (Hctrl : isActive c' = false /\ currentChannel c' = None
                  /\ currentVodId c' = None /\ streamStartTime c' = None
                  /\ isWatchingVod c' = false /\ vodOverlay c' = None
                  /\ (HandleInOverlay (controller s) -> vodPlayer c' = None)
                  /\ lastVodId c' = lastVodId (controller s)
                  /\ playerElement c' = playerElement (controller s)).
  { rewrite Hc. unfold HandleInOverlay.
    destruct (vodOverlay (controller s)) as [o|] eqn:Ho; cbn.
    - repeat split; reflexivity.
    - rewrite Ho. repeat split; try reflexivity.
      intro H. destruct (vodPlayer (controller s)); [|reflexivity].
      exfalso. apply H; [discriminate|reflexivity]. }
  destruct Hctrl as (H1 & H2 & H3 & H4 & H5 & H6 & H7 & H8 & H9).
  repeat (split; [assumption|]).
  rewrite Ht. unfold Tracker.stopTracking.
  split; [destruct (Tracker.isLive (tracker s)); reflexivity|].
  split; [destruct (Tracker.isLive (tracker s)); reflexivity|].
  split; [exact Hu|]. split; [exact Hr|].
  intro id. rewrite Hai, !in_without. tauto.
Qed.

(** X20.  [stopDVR()] does nothing on a controller that is not active, and
    a second [stopDVR()] after a first one does nothing. *)
Theorem stopDVR_idempotent (s : Session) :
  (isActive (controller s) = false -> stopDVR s = s)
  /\ stopDVR (stopDVR s) = stopDVR s.
Proof.
  assert (Hidle : forall u, isActive (controller u) = false -> stopDVR u = u).
  { intros u Hu. unfold stopDVR. rewrite Hu. reflexivity. }
  split; [apply Hidle|].
  destruct (isActive (controller s)) eqn:Hact.
  - apply Hidle. pose proof (stopDVR_controller s Hact) as Hc. cbv zeta in Hc.
    rewrite Hc. destruct (vodOverlay (controller s)); reflexivity.
  - rewrite (Hidle s Hact). apply Hidle, Hact.
Qed.


End LifecycleFacts.

(** ** What the controller shows *)

Section DisplayFacts.

Import Controller SeekScenario Display.

Lemma getElapsedTime_nonneg (w : World) (c : DVRController) :
  JS.toNumber (streamStartTime c) <= now w -> 0 <= getElapsedTime w c.
Proof.
  intro Hstart. unfold getElapsedTime.
  destruct (negb (JS.truthyOptNum (streamStartTime c))); [apply Qle_refl|].
  change 0 with (inject_Z (Qfloor 0)). rewrite <- Zle_Qle.
  apply Qfloor_resp_le. apply Qle_shift_div_l; [reflexivity|]. lra.
Qed.

Lemma behindLive_nonneg (c : DVRController) :
  0 <= bi_behindLive (getBufferInfo c).
Proof.
  unfold getBufferInfo. destruct (playerElement c); cbn;
    [apply Q.le_max_l|apply Qle_refl].
Qed.

(** X24.  For a non-negative number of milliseconds, the tracker's
    [formatDuration(ms)] and the controller's [formatTime(ms / 1000)] give
    the same text; [formatTime] of a negative number is ["0:00"]. *)
Theorem formatters_agree (ms seconds : Q) :
  (0 <= ms -> formatDuration ms = formatTime (ms / 1000))
  /\ (seconds < 0 -> formatTime seconds = "0:00").
Proof.
  split.
  - intro Hms. unfold formatDuration, formatTime.
    assert (H : JS.ltb (ms / 1000) 0 = false).
    { apply ltb_false_iff. apply Qle_shift_div_l; [reflexivity|]. lra. }
    rewrite H. reflexivity.
  - intro Hneg. unfold formatTime.
    apply ltb_true_iff in Hneg. rewrite Hneg. reflexivity.
Qed.

(** X22.  The preview label is ["LIVE"] exactly when [pct >= 98] or the
    target is less than one second behind live, and then the seek goes
    live.  For a seek that takes the recorded path while a recording id is
    known the label ends with the [(VOD)] mark; for a seek served by the
    native buffer it is the time behind live without the mark. *)
Theorem preview_agrees_with_seek (w : World) (pct : Q) (c : DVRController) :
  let behind := secondsBehindLive w pct c in
  (handlePreview w pct c = "LIVE" <-> 98 <= pct \/ behind < 1)
  /\ (handlePreview w pct c = "LIVE" -> handleSeek w pct c = handleGoLive w c)
  /\ (OutOfBuffer w pct c -> JS.truthyOptStr (currentVodId c) = true ->
      handlePreview w pct c = "-" ++ formatTime behind ++ " (VOD)"
      /\ handleSeek w pct c = switchToVod w (targetSecondsFromStart w pct c) c)
  /\ (pct < 98 -> 1 <= behind -> behind <= bufferSpan c ->
      handlePreview w pct c = "-" ++ formatTime behind).
Proof.
  intro behind.
  assert (Hlive : handlePreview w pct c = "LIVE" <-> 98 <= pct \/ behind < 1).
  { unfold handlePreview, behind, secondsBehindLive. cbv zeta.
    destruct (JS.leb 98 pct) eqn:H98.
    - apply leb_true_iff in H98. tauto.
    - apply leb_false_iff in H98.
      destruct (JS.ltb _ 1) eqn:H1.
      + apply ltb_true_iff in H1. tauto.
      + apply ltb_false_iff in H1.
        split.
        * destruct (_ && _); cbn; discriminate.
        * intros [H|H]; exfalso; lra. }
  split; [exact Hlive|]. split; [|split].
  - intro H. apply Hlive in H. apply handleSeek_near_live.
    unfold behind in H. destruct H as [H|H]; [left; exact H|right; lra].
  - intros (Hpct & Hfar & Hout) Hvod. split.
    + unfold handlePreview. cbv zeta.
      apply leb_false_iff in Hpct. rewrite Hpct.
      fold (secondsBehindLive w pct c). fold behind.
      assert (H1 : JS.ltb behind 1 = false)
        by (apply ltb_false_iff; unfold behind; lra).
      rewrite H1.
      apply ltb_true_iff in Hout. unfold bufferSpan in Hout. fold behind in Hout.
      rewrite Hout, Hvod. reflexivity.
    + apply handleSeek_out_of_buffer. repeat split; assumption.
  - intros Hpct H1 Hin. unfold handlePreview. cbv zeta.
    apply leb_false_iff in Hpct. rewrite Hpct.
    fold (secondsBehindLive w pct c). fold behind.
    apply ltb_false_iff in H1. rewrite H1.
    assert (Hnot : JS.ltb (bi_duration (getBufferInfo c)) behind = false)
      by (apply ltb_false_iff; exact Hin).
    rewrite Hnot. reflexivity.
Qed.

(** X23.  When the stream did not start in the future, [updateUI] either
    returns early (controller not active or no video element) or reports a
    position that is a number between 0 and 100, being 100 when at live;
    the position is [NaN] only when the elapsed time is 0 while watching the
    VOD.  The buffered position is always 100. *)
Theorem updateUI_position_in_range (w : World) (c : DVRController) :
  JS.toNumber (streamStartTime c) <= now w ->
  match updateUI w c with
  | Some d =>
      isActive c = true /\ playerElement c <> None
      /\ (forall p, position d = Some p -> 0 <= p <= 100)
      /\ (isAtLive d = true -> position d = Some 100 /\ isWatchingVod c = false)
      /\ (position d = None ->
          getElapsedTime w c == 0 /\ isWatchingVod c = true)
      /\ bufferPosition d = 100
      /\ hasVod d = JS.truthyOptStr (currentVodId c)
  | None => isActive c = false \/ playerElement c = None
  end.
Proof.
  intro Hstart. unfold updateUI.
  destruct (isActive c); [|left; reflexivity].
  destruct (playerElement c) as [v|] eqn:Hv; [|right; reflexivity].
  cbn [negb position isAtLive bufferPosition hasVod].
  pose proof (getElapsedTime_nonneg w c Hstart) as HE.
  pose proof (behindLive_nonneg c) as Hb.
  set (E := getElapsedTime w c) in *.
  set (b := bi_behindLive (getBufferInfo c)) in *.
  split; [reflexivity|]. split; [discriminate|].
  destruct (JS.ltb b 2 && negb (isWatchingVod c)) eqn:Hat.
  - split.
    + intros p Hp. injection Hp as Hp. rewrite <- Hp. split; discriminate.
    + split.
      * intros _. split; [reflexivity|].
        apply andb_prop in Hat. destruct Hat as (_ & Hw).
        apply negb_true_iff in Hw. exact Hw.
      * split; [discriminate|]. split; reflexivity.
  - split; [|split; [discriminate|split; [|split; reflexivity]]].
    + intros p Hp. destruct (Qeq_bool E 0) eqn:HE0.
      * destruct (Qeq_bool b 0); [discriminate|].
        injection Hp as Hp. rewrite <- Hp. split; [apply Qle_refl|discriminate].
      * injection Hp as Hp. rewrite <- Hp.
        assert (HEpos : 0 < E).
        { apply Qle_lteq in HE. destruct HE as [HE|HE]; [exact HE|].
          symmetry in HE. apply Qeq_bool_iff in HE. congruence. }
        assert (Hx : 0 <= b / E * 100).
        { apply Qmult_le_0_compat; [|discriminate].
          apply Qle_shift_div_l; [exact HEpos|]. lra. }
        split; [apply Q.le_max_l|]. apply Q.max_lub; lra.
    + intro Hnone. destruct (Qeq_bool E 0) eqn:HE0; [|discriminate].
      apply Qeq_bool_iff in HE0. split; [exact HE0|].
      destruct (Qeq_bool b 0) eqn:Hb0; [|discriminate].
      apply Qeq_bool_iff in Hb0.
      assert (Hlt : JS.ltb b 2 = true) by (apply ltb_true_iff; lra).
      rewrite Hlt in Hat. cbn in Hat. apply negb_false_iff in Hat. exact Hat.
Qed.

End DisplayFacts.

(** ** Events of an insert *)

Section NotifyFacts.
Import Tracker Scenario Timeline.
Variable clock : nat -> Q.

(** X7.  An insert on a live, enabled tracker emits two events, in this
    order: [segmentAdded] with the new segment, then [timelineUpdated] whose
    payload holds the bounds, the buffer duration, the segment count and
    [canSeekBack] of the tracker after the eviction pass. *)
Theorem addSegment_notifies (info : SegmentInfo) (t : DVRTracker) :
  isLive t = true -> isEnabled t = true ->
  let t' := addSegment clock info t in
  emitted t'
  = (emitted t
     ++ [SegmentAdded (builtSegment clock info t);
         TimelineUpdated
           {| ti_isLive := true;
              ti_streamStartTime := streamStartTime t;
              ti_earliestAvailable := earliestAvailableTime t';
              ti_latestAvailable := latestAvailableTime t';
              ti_bufferDuration := getBufferDuration t';
              ti_segmentCount := List.length (segments t');
              ti_canSeekBack := canSeekBack t' |}])%list.
Proof.
  intros Hl He t'. unfold t'.
  rewrite (addSegment_unfold clock info t Hl He).
  set (seg := builtSegment clock info t).
  set (pushed := set_latestAvailableTime _ _).
  assert (Hclean : emitted (cleanupOldSegments clock pushed) = emitted t
                   /\ isLive (cleanupOldSegments clock pushed) = true
                   /\ streamStartTime (cleanupOldSegments clock pushed)
                      = streamStartTime t).
  { unfold cleanupOldSegments, Date_now, pushed. cbn.
    match goal with |- context [filter ?f ?l] => destruct (filter f l) end;
      cbn; auto. }
  destruct Hclean as (Hem & Hlive & Hstart).
  set (cleaned := cleanupOldSegments clock pushed) in *. clearbody cleaned.
  unfold emitTimelineUpdate, emit, getBufferDuration, canSeekBack. cbn.
  rewrite Hem, Hlive, Hstart, <- app_assoc. reflexivity.
Qed.

End NotifyFacts.

(** ** The added properties on concrete sessions *)

Section TimelineScenarios.

Import Tracker TrackerQueries Scenario Timeline.

Lemma steadyClock_monotone : MonotoneClock steadyClock.
Proof.
  intros m n Hmn. unfold steadyClock.
  apply Qplus_le_r. rewrite <- Zle_Qle. lia.
Qed.

Lemma settledClock_within_window (t : DVRTracker) :
  maxBufferDuration t = maxBufferDuration Tracker.constructor ->
  WithinWindow settledClock t.
Proof.
  intros Hmax m n. rewrite Hmax. unfold settledClock.
  assert (Hn : inject_Z (Z.of_nat (Nat.min n 1000)) <= 1000).
  { change 1000 with (inject_Z 1000). rewrite <- Zle_Qle. lia. }
  assert (Hm : 0 <= inject_Z (Z.of_nat (Nat.min m 1000))).
  { change 0 with (inject_Z 0). rewrite <- Zle_Qle. lia. }
  assert (Hw : maxBufferDuration Tracker.constructor == 14400000)
    by reflexivity.
  rewrite Hw. lra.
Qed.

Lemma reachable_segments_chronological_witness :
  MonotoneClock steadyClock
  /\ (let t := run steadyClock joinURL polledTwice Tracker.constructor in
      urls t = ["https://h/a.ts"; "https://h/b.ts?token=1"]
      /\ StronglySorted Qle (map timestamp (segments t))
      /\ Forall (fun s => timestamp s <= lastRead steadyClock t) (segments t)
      /\ Forall (fun s => 0 <= duration s) (segments t)).
Proof.
  split; [exact steadyClock_monotone|]. cbv zeta.
  split; [reflexivity|].
  exact (reachable_segments_chronological steadyClock joinURL
           steadyClock_monotone polledTwice).
Defined.

Lemma reachable_bounds_track_segments_witness :
  MonotoneClock steadyClock
  /\ (let t := run steadyClock joinURL polledTwice Tracker.constructor in
      (forall first rest,
          segments t = first :: rest ->
          earliestAvailableTime t = Some (timestamp first))
      /\ (forall older newest,
            segments t = (older ++ [newest])%list ->
            latestAvailableTime t = Some (timestamp newest + duration newest))
      /\ (isLive t = true ->
          earliestAvailableTime t <> None /\ latestAvailableTime t <> None)).
Proof.
  split; [exact steadyClock_monotone|].
  exact (reachable_bounds_track_segments steadyClock joinURL
           steadyClock_monotone polledTwice).
Defined.


Lemma processPlaylist_twice_witness :
  let t := startTracking settledClock "chan" Tracker.constructor in
  let once := processPlaylist settledClock joinURL twoSegmentManifest
                "https://h/" t in
  Stamped settledClock t
  /\ WithinWindow settledClock t
  /\ urls (tracker_of once) = ["https://h/a.ts"; "https://h/b.ts?token=1"]
  /\ processPlaylist settledClock joinURL twoSegmentManifest "https://h/"
       (tracker_of once) = once.
Proof.
  cbv zeta.
  assert (Hst : Stamped settledClock
                  (startTracking settledClock "chan" Tracker.constructor))
    by constructor.
  assert (Hw : WithinWindow settledClock
                 (startTracking settledClock "chan" Tracker.constructor))
    by (apply settledClock_within_window; reflexivity).
  split; [exact Hst|]. split; [exact Hw|]. split; [reflexivity|].
  exact (processPlaylist_twice settledClock joinURL twoSegmentManifest
           "https://h/" _ Hst Hw).
Defined.

Lemma headerOnlyManifest_has_no_media_line :
  forall line, In line (JS.split_lines headerOnlyManifest) ->
               isMediaLine (JS.trim line) = false.
Proof.
  intros line Hin.
  change (JS.split_lines headerOnlyManifest)
    with ["#EXTM3U"; "#EXT-X-VERSION:3"; ""; "variant.m3u8"] in Hin.
  destruct Hin as [<-|[<-|[<-|[<-|[]]]]]; reflexivity.
Qed.

Lemma playlist_without_media_lines_witness :
  (forall line, In line (JS.split_lines headerOnlyManifest) ->
                isMediaLine (JS.trim line) = false)
  /\ processPlaylist steadyClock joinURL headerOnlyManifest "https://h/"
       trackerWithA
     = Completed trackerWithA.
Proof.
  split; [exact headerOnlyManifest_has_no_media_line|].
  exact (playlist_without_media_lines steadyClock joinURL headerOnlyManifest
           "https://h/" trackerWithA headerOnlyManifest_has_no_media_line).
Defined.

Lemma addSegment_notifies_witness :
  isLive liveTracker = true
  /\ isEnabled liveTracker = true
  /\ (let t' := addSegment steadyClock segA liveTracker in
      emitted t'
      = (emitted liveTracker
         ++ [SegmentAdded (builtSegment steadyClock segA liveTracker);
             TimelineUpdated
               {| ti_isLive := true;
                  ti_streamStartTime := streamStartTime liveTracker;
                  ti_earliestAvailable := earliestAvailableTime t';
                  ti_latestAvailable := latestAvailableTime t';
                  ti_bufferDuration := getBufferDuration t';
                  ti_segmentCount := List.length (segments t');
                  ti_canSeekBack := canSeekBack t' |}])%list).
Proof.
  split; [reflexivity|]. split; [reflexivity|].
  exact (addSegment_notifies steadyClock segA liveTracker eq_refl eq_refl).
Defined.

Lemma getSegmentAtTime_in_range_witness :
  let ts := 1700000000500 in
  let seg := builtSegment steadyClock segA liveTracker in
  getSegmentAtTime ts trackerWithA = Some (seg, 0%nat)
  /\ 1700000000000 <= ts
  /\ ts < 1700000001000
  /\ In seg (getSegmentsInRange 1700000000000 1700000001000 trackerWithA).
Proof.
  cbv zeta.
  assert (H1 : getSegmentAtTime 1700000000500 trackerWithA
               = Some (builtSegment steadyClock segA liveTracker, 0%nat))
    by reflexivity.
  assert (H2 : 1700000000000 <= 1700000000500) by discriminate.
  assert (H3 : 1700000000500 < 1700000001000) by reflexivity.
  split; [exact H1|]. split; [exact H2|]. split; [exact H3|].
  exact (getSegmentAtTime_in_range 1700000000500 1700000000000 1700000001000
           trackerWithA _ 0%nat H1 H2 H3).
Defined.

End TimelineScenarios.

Section SessionScenarios.

Import Controller SeekScenario Display Lifecycle.

(** A seek to 97.9 percent, 75.6 seconds behind live. *)
Lemma handleSeek_within_buffer_witness :
  let pct := 979 # 10 in
  let behind := secondsBehindLive pageWithEmbed pct hourIn in
  pct < 98 /\ 5 <= behind /\ behind <= bi_duration (getBufferInfo hourIn)
  /\ behind == 378 # 5
  /\ nativePosition (handleSeek pageWithEmbed pct hourIn)
     = Some (bi_end (getBufferInfo hourIn) - behind)
  /\ isWatchingVod (handleSeek pageWithEmbed pct hourIn) = false
  /\ calls (handleSeek pageWithEmbed pct hourIn) = calls hourIn.
Proof.
  cbv zeta.
  assert (H1 : 979 # 10 < 98) by reflexivity.
  assert (H2 : 5 <= secondsBehindLive pageWithEmbed (979 # 10) hourIn)
    by (vm_compute; discriminate).
  assert (H3 : secondsBehindLive pageWithEmbed (979 # 10) hourIn
               <= bi_duration (getBufferInfo hourIn))
    by (vm_compute; discriminate).
  destruct (handleSeek_within_buffer pageWithEmbed (979 # 10) hourIn H1 H2 H3)
    as (Hpos & _ & _ & Hw & _ & _ & _ & _ & _ & Hcalls).
  split; [exact H1|]. split; [exact H2|]. split; [exact H3|].
  split; [vm_compute; reflexivity|]. split; [exact Hpos|].
  split; [exact Hw|]. rewrite Hcalls. apply app_nil_r.
Defined.

Lemma seek_targets_within_session_witness :
  JS.toNumber (streamStartTime hourIn) <= now pageWithEmbed
  /\ 0 <= 50 <= 100
  /\ getElapsedTime pageWithEmbed hourIn = inject_Z 3600
  /\ 0 <= adjustedPosition pageWithEmbed 50 hourIn
       <= getElapsedTime pageWithEmbed hourIn.
Proof.
  assert (H1 : JS.toNumber (streamStartTime hourIn) <= now pageWithEmbed)
    by (vm_compute; discriminate).
  assert (H2 : 0 <= 50 <= 100) by (split; discriminate).
  destruct (seek_targets_within_session pageWithEmbed 50 hourIn H1 H2)
    as (_ & _ & _ & _ & Hadj).
  split; [exact H1|]. split; [exact H2|]. split; [reflexivity|exact Hadj].
Defined.

Lemma switchToLive_keeps_handle_warm_witness :
  let c := handleSeek pageWithEmbed 50 hourIn in
  let live := switchToLive c in
  let c' := handleSeek pageWithEmbed 25 live in
  vodPlayer c = Some (mkEmbedHandle 0 "v123" true true)
  /\ OutOfBuffer pageWithEmbed 25 live
  /\ isWatchingVod live = false
  /\ vodPlayer c' = vodPlayer c
  /\ embedsBuilt c' = embedsBuilt c
  /\ map kind (calls c')
     = [KNotify; KOverlayCreate; KEmbedConstruct; KNotify; KNotify; KEmbedSeek].
Proof.
  cbv zeta.
  assert (Hoob : OutOfBuffer pageWithEmbed 25
                   (switchToLive (handleSeek pageWithEmbed 50 hourIn))).
  { unfold OutOfBuffer, secondsBehindLive, bufferSpan.
    split; [reflexivity|].
    split; [vm_compute; discriminate|vm_compute; reflexivity]. }
  destruct (switchToLive_keeps_handle_warm pageWithEmbed 25
              (handleSeek pageWithEmbed 50 hourIn)
              (mkEmbedHandle 0 "v123" true true) "v123"
              (mkOverlay true (EmbedFrame 0))
              eq_refl eq_refl eq_refl eq_refl eq_refl eq_refl Hoob)
    as ((Hw & _) & Hp & Hn & _ & _ & _).
  split; [reflexivity|]. split; [exact Hoob|]. split; [exact Hw|].
  split; [exact Hp|]. split; [exact Hn|reflexivity].
Defined.

Lemma seek_falls_back_to_iframe_witness :
  let c' := handleSeek pageWithoutEmbed 50 hourIn in
  OutOfBuffer pageWithoutEmbed 50 hourIn
  /\ currentVodId hourIn = Some "v123"
  /\ vodPlayer hourIn = None
  /\ twitchEmbed pageWithoutEmbed = EmbedMissing
  /\ vodOverlay hourIn = None
  /\ playerContainer pageWithoutEmbed = true
  /\ vodPlayer c' = None
  /\ vodOverlay c'
     = Some (mkOverlay true
               (FallbackIframe "v123"
                  (adjustedPosition pageWithoutEmbed 50 hourIn)))
  /\ isWatchingVod c' = true
  /\ map kind (calls c') = [KNotify; KOverlayCreate; KIframeCreate].
Proof.
  cbv zeta.
  assert (Hoob : OutOfBuffer pageWithoutEmbed 50 hourIn)
    by exact (hourIn_half_out_of_buffer pageWithoutEmbed eq_refl).
  destruct (seek_falls_back_to_iframe pageWithoutEmbed 50 hourIn "v123"
              Hoob eq_refl eq_refl (fun bound => proj1 bound eq_refl)
              (or_introl eq_refl) eq_refl)
    as (Hp & _ & _ & Ho & _ & Hw & _).
  split; [exact Hoob|].
  split; [reflexivity|]. split; [reflexivity|]. split; [reflexivity|].
  split; [reflexivity|]. split; [reflexivity|].
  split; [exact Hp|]. split; [exact Ho|]. split; [exact Hw|reflexivity].
Defined.

Lemma seek_with_detached_overlay_builds_nothing_witness :
  let c := detachedAfterFallback in
  let c' := handleSeek pageWithEmbed 25 c in
  OutOfBuffer pageWithEmbed 25 c
  /\ currentVodId c = Some "v123"
  /\ vodPlayer c = None
  /\ vodOverlay c
     = Some (mkOverlay true
               (FallbackIframe "v123"
                  (adjustedPosition pageWithoutEmbed 50 hourIn)))
  /\ overlayConnected c = false
  /\ vodPlayer c' = None
  /\ vodOverlay c' = vodOverlay c
  /\ isWatchingVod c' = true
  /\ calls c' = calls c.
Proof.
  cbv zeta.
  assert (Hoob : OutOfBuffer pageWithEmbed 25 detachedAfterFallback).
  { unfold OutOfBuffer, secondsBehindLive, bufferSpan.
    split; [reflexivity|].
    split; [vm_compute; discriminate|vm_compute; reflexivity]. }
  destruct (seek_with_detached_overlay_builds_nothing pageWithEmbed 25
              detachedAfterFallback "v123"
              (mkOverlay true
                 (FallbackIframe "v123"
                    (adjustedPosition pageWithoutEmbed 50 hourIn)))
              Hoob eq_refl eq_refl (fun bound => proj1 bound eq_refl)
              eq_refl eq_refl)
    as (Hp & _ & _ & _ & Ho & _ & Hw & _ & Hcalls).
  split; [exact Hoob|].
  split; [reflexivity|]. split; [reflexivity|]. split; [reflexivity|].
  split; [reflexivity|].
  split; [exact Hp|]. split; [exact Ho|]. split; [exact Hw|].
  rewrite Hcalls. apply app_nil_r.
Defined.

Lemma seek_without_container_changes_nothing_witness :
  OutOfBuffer pageWithoutContainer 50 hourIn
  /\ currentVodId hourIn = Some "v123"
  /\ vodOverlay hourIn = None
  /\ vodPlayer hourIn = None
  /\ playerContainer pageWithoutContainer = false
  /\ handleSeek pageWithoutContainer 50 hourIn
     = showNotification msgVodLoading hourIn.
Proof.
  assert (Hoob : OutOfBuffer pageWithoutContainer 50 hourIn)
    by exact (hourIn_half_out_of_buffer pageWithoutContainer eq_refl).
  split; [exact Hoob|].
  split; [reflexivity|]. split; [reflexivity|]. split; [reflexivity|].
  split; [reflexivity|].
  exact (seek_without_container_changes_nothing pageWithoutContainer 50 hourIn
           "v123" Hoob eq_refl eq_refl eq_refl eq_refl eq_refl).
Defined.

Lemma seek_resolves_recording_once_witness :
  JS.truthyOptStr (currentVodId hourInNoVod) = false
  /\ JS.truthyOptStr (currentChannel hourInNoVod) = true
  /\ fetchedVodId pageResolving = Some "v123"
  /\ OutOfBuffer pageResolving 50 hourInNoVod
  /\ handleSeek pageResolving 50 hourInNoVod
     = handleSeek pageResolving 50 (set_currentVodId (Some "v123") hourInNoVod)
  /\ currentVodId (handleSeek pageResolving 50 hourInNoVod) = Some "v123".
Proof.
  assert (Hoob : OutOfBuffer pageResolving 50 hourInNoVod)
    by exact (hourIn_half_out_of_buffer pageResolving eq_refl).
  split; [reflexivity|]. split; [reflexivity|]. split; [reflexivity|].
  split; [exact Hoob|].
  exact (seek_resolves_recording_once pageResolving 50 hourInNoVod "v123"
           eq_refl eq_refl eq_refl eq_refl Hoob).
Defined.

Lemma handle_lives_in_overlay_witness :
  HandleInOverlay hourIn
  /\ HandleInOverlay (handleSeek pageWithEmbed 50 hourIn)
  /\ vodPlayer (handleSeek pageWithEmbed 50 hourIn) <> None
  /\ vodOverlay (handleSeek pageWithEmbed 50 hourIn) <> None.
Proof.
  assert (H : HandleInOverlay hourIn)
    by (intro Hp; contradiction Hp; reflexivity).
  split; [exact H|].
  split; [exact (proj1 (handle_lives_in_overlay pageWithEmbed 50 hourIn H))|].
  split; discriminate.
Defined.

Lemma stopDVR_tears_down_witness :
  let s' := stopDVR watchingSession in
  isActive (controller watchingSession) = true
  /\ isWatchingVod (controller watchingSession) = true
  /\ vodPlayer (controller watchingSession) <> None
  /\ isActive (controller s') = false
  /\ isWatchingVod (controller s') = false
  /\ vodPlayer (controller s') = None
  /\ vodOverlay (controller s') = None
  /\ activeIntervals s' = [1%positive]
  /\ pageCalls s'
     = [UiHide; UiHide; OverlayRemove;
        ClearInterval 3%positive; ClearInterval 2%positive]
  /\ Tracker.isLive (tracker s') = false
  /\ Scenario.urls (tracker s') = ["https://h/a.ts"].
Proof.
  cbv zeta.
  destruct (stopDVR_tears_down watchingSession eq_refl)
    as (H1 & _ & _ & _ & H5 & H6 & _ & _ & _ & _ & H11 & _).
  split; [reflexivity|]. split; [reflexivity|]. split; [discriminate|].
  split; [exact H1|]. split; [exact H5|]. split; [reflexivity|].
  split; [exact H6|]. split; [reflexivity|]. split; [reflexivity|].
  split; [exact H11|reflexivity].
Defined.

Lemma updateUI_position_in_range_witness :
  let c := handleSeek pageWithEmbed (979 # 10) hourIn in
  JS.toNumber (streamStartTime c) <= now pageWithEmbed
  /\ match updateUI pageWithEmbed c with
     | Some d =>
         isAtLive d = false
         /\ p_behindLive d = "1:15"
         /\ p_currentTime d = "1:00:00"
         /\ p_bufferDuration d = "DVR: 1:00:00"
         /\ (forall p, position d = Some p -> 0 <= p <= 100)
     | None => False
     end.
Proof.
  cbv zeta.
  assert (H : JS.toNumber
                (streamStartTime (handleSeek pageWithEmbed (979 # 10) hourIn))
              <= now pageWithEmbed) by (vm_compute; discriminate).
  split; [exact H|].
  pose proof (updateUI_position_in_range pageWithEmbed
                (handleSeek pageWithEmbed (979 # 10) hourIn) H) as Hu.
  destruct (updateUI pageWithEmbed (handleSeek pageWithEmbed (979 # 10) hourIn))
    as [d|] eqn:Hd.
  - destruct Hu as (_ & _ & Hrange & _).
    assert (Hd' : updateUI pageWithEmbed
                    (handleSeek pageWithEmbed (979 # 10) hourIn) = Some d)
      by exact Hd.
    vm_compute in Hd. injection Hd as Hd. subst d.
    split; [reflexivity|]. split; [reflexivity|]. split; [reflexivity|].
    split; [reflexivity|]. exact Hrange.
  - destruct Hu as [Hu|Hu]; vm_compute in Hu; discriminate Hu.
Defined.

Example preview_labels :
  handlePreview pageWithEmbed 50 hourIn = "-30:00 (VOD)"
  /\ handlePreview pageWithEmbed 50 hourInNoVod = "-30:00"
  /\ handlePreview pageWithEmbed (979 # 10) hourIn = "-1:15"
  /\ handlePreview pageWithEmbed 99 hourIn = "LIVE".
Proof. repeat split; reflexivity. Qed.

Example formatDuration_of_negative :
  formatDuration (-1000) = "-1:-1" /\ formatTime (-1) = "0:00"
  /\ formatDuration 3725000 = "1:02:05" /\ formatTime 3725 = "1:02:05".
Proof. repeat split; reflexivity. Qed.

End SessionScenarios.
